(* ===== verification/_CoqProject ===== *)
-Q . S2P
Prelude.v
PyStr.v
PosixPath.v
UrlParse.v
ArtifactoryUri.v
PyInt.v
PySort.v
LocalFS.v
Artifactory.v
ArtifactoryLaws.v
Repository.v
PathMapper.v
Lister.v
Transfer.v
Contract.v
Constructor.v
Session.v
Packaging.v
Download.v
ThreadPool.v
