(* ===== verification/Prelude.v ===== *)
(** * A verification of the MLflow JFrog Artifactory plugin

    The program is [src/jfrogartifactoryplugin/store/artifact/jfrog_artifact_repository.py]:
    one class, [JFrogArtifactRepository], that implements MLflow's
    [ArtifactRepository] contract on top of the [rtpy] REST client of a
    JFrog Artifactory server, and [src/setup.py], which packages it and
    registers it with MLflow.  Its parts and how they interact:

    - the constructor [__init__] (lines 18-41) reads the repository
      name, the endpoint and the API key (from its arguments or the
      environment) and builds the [rtpy] client [self.af];
    - the URI resolver [parse_artifactory_uri] (lines 46-55) splits the
      artifact URI [artifactory://netloc/path] with [urllib.parse.urlparse];
    - the path mapper: the expressions of [log_artifact],
      [log_artifacts], [list_artifacts] and [_download_file] that join
      the netloc, the artifact directory and the caller's sub-path;
    - the directory lister: [_list_files] (the [children] of the
      server's folder info, one [file_info] request per file) and
      [list_artifacts], which sorts what it yields by path;
    - the transfer driver: [log_artifact], [log_artifacts] (a recursive
      [glob] of a local directory, one deploy per file), [_download_file]
      and [delete_artifacts]; and [ping] (lines 43-44);
    - [setup.py], whose entry point makes MLflow's artifact-repository
      registry hand the URIs of scheme [artifactory] to the class;
    - MLflow's inherited [ArtifactRepository.download_artifacts], which
      the plugin does not override: it walks a folder by calling the
      plugin's [list_artifacts] on every folder entry and submits each
      file to a thread pool that runs the plugin's [_download_file].

    The state of a run is a [Repository.world]: the server (any type
    [S] with the REST operations of the class [Artifactory.ArtifactoryApi]),
    the local file system (a map from path segments to files and
    directories, [LocalFS.fs], with the working directory at the root),
    the environment, what was printed and the requests sent.  Every
    operation is a computation of the monad [PyM] of this file: state
    passing where an exception keeps the state reached at the raise, so
    that error paths are values.

    Files, in dependency order:

    - [Prelude] (this file): [PyM], its laws and notations, the
      exceptions [py_exn], truthiness, the invariant combinator
      [preserves] with the tactic [preserve], its companion [avoids]
      (an invariant kept and an exception never raised) with the tactic
      [avoid], the loop invariant [py_fold_ok], the relation [py_rel]
      between two computations that reach the same state with related
      results, hint databases;
    - [PyStr], [PosixPath], [UrlParse], [PyInt], [PySort], [LocalFS]:
      models of the standard library the code calls ([str] methods,
      [posixpath.join]/[basename]/[dirname], [pathlib] names, the
      server's reading of a path as segments [segs], [urlparse] and
      [geturl] of CPython 3.11.4+, [int()]/[str()], the stable
      [sorted], [is_file], [glob], [os.makedirs], [open(...).write],
      [os.path.exists], [os.path.isdir]),
      each with its lemmas (for instance [int(str(n)) = n]);
    - [ArtifactoryUri] (Module [UriResolver]): [parse_artifactory_uri];
    - [Artifactory]: the REST operations as the class [ArtifactoryApi]
      (deploy, retrieve, storage info, ping), the laws
      [ArtifactoryModel] a server obeys, stated over the view of a
      repository (its files as a map from segments to bytes), and the
      in-memory server [MemServer]; [ArtifactoryLaws] proves that
      [MemServer] is a model ([mem_model], a refinement of the laws by
      the implementation) and that every reachable server keeps its
      invariant (rule induction on [reachable]);
    - [Repository]: the object's attributes [repo_obj] and the effects
      on the world (each [rtpy] call logs its request in [w_calls]);
    - [PathMapper] (Module [PathMapper]): the four remote-path
      expressions and their segments;
    - [Lister] (Module [Lister]): [list_child], [list_files],
      [list_artifacts], with their specification against any model
      server and concrete runs on [MemServer];
    - [Transfer] (Module [Transfer]): [log_artifact], [log_artifacts]
      (for any enumeration order of the glob), [_download_file],
      [delete_artifacts];
    - [Contract]: the MLflow contract, round trips log-then-list and
      log-then-download, and the counterexample with an artifact path;
    - [Constructor] (Module [Constructor]): [__init__] as [init] and
      its theorems;
    - [Session]: [ping], the operations as labels [op], sessions of a
      host that calls them in sequence, and the world invariant every
      session keeps;
    - [Packaging]: [setup.py] as a function of [README.md] and
      [version.txt], entry-point parsing and MLflow's registry;
    - [Download] (Module [Download]): MLflow's [download_artifacts],
      [_iter_artifacts_recursive] and [_create_download_destination]
      composed with the plugin's [list_artifacts] and [_download_file],
      each transfer run when it is submitted;
    - [ThreadPool] (Module [ThreadPool]): the same host method with its
      thread pool: the pending transfers, the finished futures in
      completion order, and a scheduler (a list of choices, in the
      manner of an oracle) that decides after each submission and
      while the host waits on [as_completed] which pending transfer a
      worker runs; [Download.download_artifacts] is its eager schedule.

    What the theorems show, by group: the listing returns the folder's
    entries sorted by path whatever order the server uses, with sizes
    only on files, and is idempotent ([Lister]); [log_artifact] stores
    the file at [<netloc>/<artifact_path>/<dir>/<name>], [log_artifacts]
    sends one deploy per regular file in any glob order, stops at
    the first refused one and, when the file names are distinct, leaves
    the same repository whatever the order, and otherwise keeps at each
    remote path the last file of that name in the glob order;
    [_download_file] creates the directories and writes the bytes
    ([Transfer]); a logged file is listed and
    downloaded back ([Contract]); the constructor's objects have one of
    two shapes and its assertions fire in order ([Constructor]); the
    server and local-tree invariants hold in every session ([Session]);
    MLflow dispatches to the plugin exactly the URIs the resolver
    accepts ([Packaging]); MLflow's download of a folder of files over
    the plugin writes every file with its bytes, a walk whose names have
    a decreasing rank never exhausts the recursion limit, two folders
    listed under each other's names make it run out for every limit, a
    folder holding a sub-folder fails with the client's error, a folder
    holding its namesake reports success and writes no file, and the
    download of a whole run whose root holds files fails naming their
    paths with a leading slash ([Download]); the download with the
    pool is the sequential one under the eager schedule, waiting on the futures runs every
    transfer exactly once, a folder of files is downloaded whole under
    every schedule (an invariant of the pool, the local files and the
    visited entries, kept by the walk, by each submission and by each
    worker step), and the failure message lists the paths in completion
    order ([ThreadPool]).  Examples on concrete worlds run the same
    behaviours on fixed inputs (the two join orders of the artifact
    path, the flattening of [log_artifacts], the unprefixed sub-folders
    and the leading slash of the listing, a negative size from a server
    that reports one, the rewriting of the repository name by [geturl],
    the failing and lossy downloads) and serve as witnesses.

    Bounds and fuel: every loop of the plugin runs over a materialised
    finite list ([children], the glob result, the prefixes [makedirs]
    creates), so those definitions are structural and total and the
    theorems state results outright, not only "if it returns".  The one
    unbounded recursion is the host's [_iter_artifacts_recursive]: its
    fuel is the interpreter's recursion limit (1000 by default, used in
    the examples), and its exhaustion is the value [RecursionError].
    [download_artifacts_terminates] shows that a fuel above the rank of
    the start name is enough (for a folder of files, 1), and
    [download_artifacts_diverges] that no fuel is enough on a cycle of
    names, so neither result depends on the limit chosen.  Integers are
    Python's unbounded [int], modelled as [Z].

    Not modelled: authentication and HTTP (every request reaches the
    world's server), checksums and the server's other APIs; symlinks,
    permissions and a working directory other than the root; the text
    decoding of [open()] beyond one character per byte; the IPv6 and
    NFKC checks of [urlsplit] on netlocs; [str()] of an [AfApiError]
    (its status code stands for the message); the loading of the
    module by [importlib] and setuptools' building and installing; of
    MLflow's [ArtifactRepository] base class, which is not part of this
    repository, only [download_artifacts] and its helpers are modelled:
    its thread pool runs one whole transfer at a time between two steps
    of the main thread (the main thread only reads the server and makes
    directories, so the files written do not depend on finer
    interleavings; the order of the printed lines does), the transfers
    still pending when the walk raises are not run (MLflow's pool runs
    them on after the exception has reached the caller), a missing
    [dst_path] ([tempfile.mkdtemp]) and [os.path.abspath] are not
    modelled (the destination is taken absolute and normalised), and its
    failure message lists the failed paths without the [repr] of their
    exceptions. *)

From stdpp Require Export base list gmap strings pretty.
From Stdlib Require Export ZArith.
From Stdlib Require Strings.Byte.

(** Python [bytes] values: a list of 8-bit bytes. *)
Abbreviation bytes := (list Byte.byte).

#[export] Instance byte_eq_dec : EqDecision Byte.byte := Strings.Byte.byte_eq_dec.

Declare Scope py_scope.
Delimit Scope py_scope with py.
Open Scope py_scope.

(** ** The Python execution monad

    A Python statement sequence runs against a state [S] and either
    returns a value or raises an exception of type [E].  The state
    reached at the moment of the raise is kept: Python does not undo
    side effects of the statements executed before an exception. *)

Definition PyM (S E A : Type) : Type := S -> (E + A) * S.

Section PyMonad.
Context {S E : Type}.

Definition py_ret {A} (a : A) : PyM S E A := fun s => (inr a, s).

Definition py_raise {A} (e : E) : PyM S E A := fun s => (inl e, s).

Definition py_bind {A B} (m : PyM S E A) (k : A -> PyM S E B) : PyM S E B :=
  fun s => match m s with
           | (inl e, s') => (inl e, s')
           | (inr a, s') => k a s'
           end.

Definition py_get : PyM S E S := fun s => (inr s, s).

Definition py_put (s : S) : PyM S E unit := fun _ => (inr tt, s).

Definition py_modify (f : S -> S) : PyM S E unit := fun s => (inr tt, f s).

(** Lift a fallible pure computation (a sum) into the monad. *)
Definition py_lift {A} (r : E + A) : PyM S E A := fun s => (r, s).

(** A Python [for] loop over an already materialised list. *)
Fixpoint py_for {A} (l : list A) (body : A -> PyM S E unit) : PyM S E unit :=
  match l with
  | [] => py_ret tt
  | x :: l' => py_bind (body x) (fun _ => py_for l' body)
  end.

(** A loop that collects one value per element (a generator consumed
    by [list] or by a [for ... append] loop). *)
Fixpoint py_map {A B} (f : A -> PyM S E B) (l : list A) : PyM S E (list B) :=
  match l with
  | [] => py_ret []
  | x :: l' => py_bind (f x) (fun b => py_bind (py_map f l') (fun bs => py_ret (b :: bs)))
  end.

(** A loop that threads a local variable [acc] through its body. *)
Fixpoint py_fold {A B} (f : A -> B -> PyM S E A) (l : list B) (acc : A) : PyM S E A :=
  match l with
  | [] => py_ret acc
  | x :: l' => py_bind (f acc x) (fun acc' => py_fold f l' acc')
  end.
End PyMonad.

Notation "'let*' x ':=' m 'in' k" := (py_bind m (fun x => k))
  (at level 10, x name, m at level 100, k at level 200) : py_scope.
Notation "'let*' ' p ':=' m 'in' k" := (py_bind m (fun x => match x with p => k end))
  (at level 10, p pattern, m at level 100, k at level 200) : py_scope.
Notation "m ;; k" := (py_bind m (fun _ => k))
  (at level 100, right associativity) : py_scope.

(** ** Monad laws and running lemmas *)

Section PyMonadLaws.
Context {S E : Type}.

Lemma py_bind_ret_l {A B} (a : A) (k : A -> PyM S E B) :
  py_bind (py_ret a) k = k a.
Proof. reflexivity. Qed.

(** The laws hold pointwise in the start state, which is how runs are
    compared without functional extensionality. *)
Lemma py_bind_ret_r {A} (m : PyM S E A) s : py_bind m py_ret s = m s.
Proof. unfold py_bind, py_ret; by destruct (m s) as [[]]. Qed.

Lemma py_bind_assoc {A B C} (m : PyM S E A) (f : A -> PyM S E B) (g : B -> PyM S E C) s :
  py_bind (py_bind m f) g s = py_bind m (fun a => py_bind (f a) g) s.
Proof. unfold py_bind; by destruct (m s) as [[]]. Qed.

Lemma py_run_bind {A B} (m : PyM S E A) (k : A -> PyM S E B) s :
  py_bind m k s = match m s with (inl e, s') => (inl e, s') | (inr a, s') => k a s' end.
Proof. reflexivity. Qed.

Lemma py_run_bind_ok {A B} (m : PyM S E A) (k : A -> PyM S E B) s a s' :
  m s = (inr a, s') -> py_bind m k s = k a s'.
Proof. intros H. by rewrite py_run_bind, H. Qed.

Lemma py_run_bind_err {A B} (m : PyM S E A) (k : A -> PyM S E B) s e s' :
  m s = (inl e, s') -> py_bind m k s = (inl e, s').
Proof. intros H. by rewrite py_run_bind, H. Qed.

Lemma py_for_app {A} (l1 l2 : list A) (body : A -> PyM S E unit) s :
  py_for (l1 ++ l2) body s = (py_for l1 body ;; py_for l2 body) s.
Proof.
  revert s; induction l1 as [|x l1 IH]; intros s; simpl; [reflexivity|].
  rewrite py_bind_assoc, !py_run_bind. destruct (body x s) as [[e|[]] s']; [done|].
  apply IH.
Qed.
End PyMonadLaws.

Create Rewrite HintDb py_run.
#[export] Hint Rewrite @py_bind_ret_l @py_bind_ret_r @py_bind_assoc : py_run.

(** Unfold the monad in a goal about a concrete run. *)
Ltac py_unfold :=
  unfold py_bind, py_ret, py_raise, py_get, py_put, py_modify, py_lift in *.

(** ** Python exceptions

    The exception classes that the plugin and the code it calls raise,
    each with the message (or the HTTP status, for the REST client's
    [AfApiError]) it carries. *)

Inductive py_exn :=
  | Exception (msg : string)            (** bare [raise Exception(...)] *)
  | ValueError (msg : string)
  | TypeError (msg : string)
  | AssertionError (msg : string)
  | AttributeError (attr : string)       (** a missing instance attribute *)
  | RuntimeError (msg : string)
  | MlflowException (msg : string)
  | KeyError (key : string)
  | AfApiError (status : N)              (** [rtpy]'s error for an HTTP error status *)
  | FileNotFoundError (path : string)
  | FileExistsError (path : string)
  | NotADirectoryError (path : string)
  | IsADirectoryError (path : string)
  | RecursionError.                    (** the interpreter's recursion limit was hit *)

#[export] Instance py_exn_eq_dec : EqDecision py_exn.
Proof. solve_decision. Defined.

(** Split boolean conjunctions in the hypotheses. *)
Ltac split_andb :=
  repeat match goal with
         | H : (_ && _) = true |- _ => apply andb_prop in H as [? ?]
         end.

(** ** Python truthiness *)

(** [if s:] on a [str]: the empty string is false. *)
Definition str_truthy (s : string) : bool := negb (String.eqb s "").

(** [if x:] on an [Optional[str]]: [None] and [""] are false. *)
Definition opt_truthy (o : option string) : bool :=
  match o with None => false | Some s => str_truthy s end.

Lemma str_truthy_false s : str_truthy s = false <-> s = "".
Proof. unfold str_truthy. destruct (String.eqb_spec s ""); naive_solver. Qed.

Lemma opt_truthy_true o : opt_truthy o = true <-> exists s, o = Some s /\ s <> "".
Proof.
  destruct o as [s|]; simpl; [|naive_solver].
  unfold str_truthy. destruct (String.eqb_spec s ""); naive_solver.
Qed.

(** ** Maps: make sure keys are present *)

(** Insert [x] at each key of [qs] that has no value yet (the effect of
    [mkdir -p] or of a server creating the parent folders of a path). *)
Definition map_ensure {K V} `{Countable K} (x : V) (qs : list K) (m : gmap K V) : gmap K V :=
  fold_left (fun m q => if m !! q is Some _ then m else <[q := x]> m) qs m.

Lemma map_ensure_lookup {K V} `{Countable K} (x : V) qs (m : gmap K V) r :
  map_ensure x qs m !! r =
    if decide (r ∈ qs) then (if m !! r is Some y then Some y else Some x) else m !! r.
Proof.
  revert m; induction qs as [|q qs IH]; intros m; simpl.
  - by rewrite ?decide_False by apply not_elem_of_nil.
  - rewrite IH. destruct (decide (r ∈ q :: qs)) as [Hin|Hnin].
    + destruct (decide (r ∈ qs)).
      * destruct (m !! q) eqn:Eq; [done|].
        destruct (decide (q = r)) as [->|Hne]; [by rewrite lookup_insert_eq, Eq|].
        by rewrite lookup_insert_ne.
      * assert (r = q) as -> by set_solver.
        destruct (m !! q) eqn:Eq; [done|]. by rewrite lookup_insert_eq.
    + rewrite decide_False by set_solver.
      destruct (m !! q); [done|]. rewrite lookup_insert_ne; [done|set_solver].
Qed.

(** ** Lists *)

(** [omap] over an association list with distinct keys, when no value
    is produced from two keys, has no duplicates. *)
Lemma NoDup_omap_keys {A B C} (f : A * B -> option C) (l : list (A * B)) :
  NoDup l.*1 ->
  (forall x y z, x ∈ l -> y ∈ l -> f x = Some z -> f y = Some z -> x.1 = y.1) ->
  NoDup (omap f l).
Proof.
  induction l as [|x l IH]; intros Hnd Hf; simpl; [constructor|].
  apply NoDup_cons in Hnd as [Hx Hnd].
  assert (NoDup (omap f l)) as Hl by (apply IH; [done|]; intros; eapply Hf; eauto; set_solver).
  destruct (f x) as [z|] eqn:Ez; [|done]. constructor; [|done].
  intros (y & Hy & Ey)%list_elem_of_omap. apply Hx.
  rewrite (Hf x y z) by (set_solver || done). apply list_elem_of_fmap. eauto.
Qed.

(** ** Running loops *)

(** A loop whose body succeeds with [g x] on every element, keeping a
    state predicate, succeeds with [g <$> l]. *)
Lemma py_map_ok {S E A B} (f : A -> PyM S E B) (g : A -> B) (P : S -> Prop) (l : list A) s :
  P s -> (forall x s, x ∈ l -> P s -> exists s', f x s = (inr (g x), s') /\ P s') ->
  exists s', py_map f l s = (inr (g <$> l), s') /\ P s'.
Proof.
  revert s; induction l as [|x l IH]; intros s Hs Hf; simpl; [by exists s|].
  destruct (Hf x s) as (s1 & Hx & Hs1); [set_solver|done|].
  destruct (IH s1) as (s2 & Hl & Hs2); [done|intros; apply Hf; set_solver|].
  exists s2. split; [|done]. by rewrite (py_run_bind_ok _ _ _ _ _ Hx), (py_run_bind_ok _ _ _ _ _ Hl).
Qed.

(** The same for [py_for] with a body that returns [tt]. *)
Lemma py_for_ok {S E A} (body : A -> PyM S E unit) (P : S -> Prop) (l : list A) s :
  P s -> (forall x s, x ∈ l -> P s -> exists s', body x s = (inr tt, s') /\ P s') ->
  exists s', py_for l body s = (inr tt, s') /\ P s'.
Proof.
  revert s; induction l as [|x l IH]; intros s Hs Hf; simpl; [by exists s|].
  destruct (Hf x s) as (s1 & Hx & Hs1); [set_solver|done|].
  destruct (IH s1) as (s2 & Hl & Hs2); [done|intros; apply Hf; set_solver|].
  exists s2. split; [|done]. by rewrite (py_run_bind_ok _ _ _ _ _ Hx).
Qed.

(** A loop that threads a local variable: an invariant [I vis acc s]
    indexed by the elements [vis] already visited, kept by every
    iteration, holds with all of [l] visited when the loop ends. *)
Lemma py_fold_ok {S E A B} (I : list B -> A -> S -> Prop) (f : A -> B -> PyM S E A) (l : list B) :
  (forall vis x acc s, x ∈ l -> I vis acc s -> exists acc' s', f acc x s = (inr acc', s') /\ I (vis ++ [x]) acc' s') ->
  forall vis acc s, I vis acc s -> exists acc' s', py_fold f l acc s = (inr acc', s') /\ I (vis ++ l) acc' s'.
Proof.
  induction l as [|x l IH]; intros Hf vis acc s Hs; simpl; [exists acc, s; by rewrite app_nil_r|].
  destruct (Hf vis x acc s) as (acc1 & s1 & Hx & Hs1); [set_solver|done|].
  destruct (IH (fun vis' x' acc' s' Hx' => Hf vis' x' acc' s' ltac:(set_solver)) (vis ++ [x]) acc1 s1 Hs1)
    as (acc2 & s2 & Hl & Hs2).
  exists acc2, s2. rewrite (py_run_bind_ok _ _ _ _ _ Hx), Hl. by rewrite <- app_assoc in Hs2.
Qed.

(** ** [try ... except] *)

(** Run [m]; on an exception [e], run [handler e] from the state reached
    at the raise (the handler re-raises what it does not catch). *)
Definition py_try {S E A} (m : PyM S E A) (handler : E -> PyM S E A) : PyM S E A :=
  fun s => match m s with
           | (inl e, s') => handler e s'
           | (inr a, s') => (inr a, s')
           end.

(** [List.filter] (the boolean filter the models use) respects permutations. *)
#[export] Instance list_filter_perm {A} (f : A -> bool) :
  Proper ((≡ₚ) ==> (≡ₚ)) (List.filter f).
Proof.
  intros l l' Hp. induction Hp as [|x l l' _ IH|x y l|l l' l'' _ IH1 _ IH2]; simpl.
  - done.
  - destruct (f x); [by constructor|done].
  - destruct (f x), (f y); try constructor; done.
  - by rewrite IH1.
Qed.

(** ** State invariants of computations

    [preserves P m]: whatever [m] returns (a value or an exception), it
    leaves a state satisfying [P] when it starts from one.  The lemmas
    below decompose a computation along the combinators; the tactic
    [preserve] applies them and splits on the conditionals of the code. *)

Section Preserves.
Context {S E : Type} (P : S -> Prop).

Definition preserves {A} (m : PyM S E A) : Prop :=
  forall s r s', P s -> m s = (r, s') -> P s'.

Lemma preserves_ret {A} (a : A) : preserves (py_ret a).
Proof. by intros s r s' Hs [= _ <-]. Qed.

Lemma preserves_raise {A} (e : E) : preserves (A:=A) (py_raise e).
Proof. by intros s r s' Hs [= _ <-]. Qed.

Lemma preserves_get : preserves py_get.
Proof. by intros s r s' Hs [= _ <-]. Qed.

Lemma preserves_lift {A} (x : E + A) : preserves (py_lift x).
Proof. by intros s r s' Hs [= _ <-]. Qed.

Lemma preserves_modify (f : S -> S) : (forall s, P s -> P (f s)) -> preserves (py_modify f).
Proof. intros Hf s r s' Hs [= _ <-]. by apply Hf. Qed.

Lemma preserves_bind {A B} (m : PyM S E A) (k : A -> PyM S E B) :
  preserves m -> (forall a, preserves (k a)) -> preserves (py_bind m k).
Proof.
  intros Hm Hk s r s' Hs. unfold py_bind. destruct (m s) as [[e|a] s1] eqn:E1.
  - intros [= _ <-]. by apply (Hm s (inl e) s1).
  - intros Hrun. apply (Hk a s1 r s'); [by apply (Hm s (inr a) s1)|done].
Qed.

Lemma preserves_for {A} (l : list A) (body : A -> PyM S E unit) :
  (forall x, preserves (body x)) -> preserves (py_for l body).
Proof.
  intros Hb. induction l as [|x l IH]; simpl; [apply preserves_ret|].
  apply preserves_bind; [apply Hb|intros _; apply IH].
Qed.

Lemma preserves_for_in {A} (l : list A) (body : A -> PyM S E unit) :
  (forall x, x ∈ l -> preserves (body x)) -> preserves (py_for l body).
Proof.
  intros Hb. induction l as [|x l IH]; simpl; [apply preserves_ret|].
  apply preserves_bind; [apply Hb; left|intros _; apply IH; intros y Hy; apply Hb; by right].
Qed.

Lemma preserves_map {A B} (f : A -> PyM S E B) (l : list A) :
  (forall x, preserves (f x)) -> preserves (py_map f l).
Proof.
  intros Hf. induction l as [|x l IH]; simpl; [apply preserves_ret|].
  apply preserves_bind; [apply Hf|intros b; apply preserves_bind; [apply IH|intros; apply preserves_ret]].
Qed.

Lemma preserves_try {A} (m : PyM S E A) (h : E -> PyM S E A) :
  preserves m -> (forall e, preserves (h e)) -> preserves (py_try m h).
Proof.
  intros Hm Hh s r s' Hs. unfold py_try. destruct (m s) as [[e|a] s1] eqn:E1.
  - apply (Hh e s1). by apply (Hm s (inl e) s1).
  - intros [= _ <-]. by apply (Hm s (inr a) s1).
Qed.

End Preserves.

Create HintDb preserves.
#[export] Hint Resolve preserves_ret preserves_raise preserves_get preserves_lift : preserves.

(** Decompose [preserves P m] along binds, conditionals and matches;
    the leaves are left to [eauto with preserves]. *)
Ltac preserve :=
  repeat match goal with
  | |- preserves _ (py_bind _ _) => apply preserves_bind; [|intros ?]
  | |- preserves _ (py_try _ _) => apply preserves_try; [|intros ?]
  | |- preserves _ (py_for _ _) => apply preserves_for; intros ?
  | |- preserves _ (py_map _ _) => apply preserves_map; intros ?
  | |- preserves _ (if ?b then _ else _) => destruct b
  | |- preserves _ (match ?x with _ => _ end) => destruct x
  end; eauto with preserves.

(** ** Exceptions a computation cannot raise

    [avoids P bad m]: started from a state satisfying [P], [m] keeps
    [P] and, if it raises, raises no exception satisfying [bad].  Used
    to show that a recursion bounded by fuel never runs out of it. *)

Section Avoids.
Context {S E : Type} (P : S -> Prop) (bad : E -> Prop).

Definition avoids {A} (m : PyM S E A) : Prop :=
  preserves P m /\ forall s e s', P s -> m s = (inl e, s') -> ~ bad e.

Lemma avoids_ret {A} (a : A) : avoids (py_ret a).
Proof. split; [apply preserves_ret|]. by intros s e s' _ [=]. Qed.

Lemma avoids_raise {A} (e : E) : ~ bad e -> avoids (A:=A) (py_raise e).
Proof. intros He. split; [apply preserves_raise|]. by intros s e' s' _ [= <- _]. Qed.

Lemma avoids_bind {A B} (m : PyM S E A) (k : A -> PyM S E B) :
  avoids m -> (forall a, avoids (k a)) -> avoids (py_bind m k).
Proof.
  intros [Hm Hme] Hk. split; [apply preserves_bind; [done|intros a; apply Hk]|].
  intros s e s' Hs. unfold py_bind. destruct (m s) as [[e1|a] s1] eqn:E1.
  - intros [= <- _]. by apply (Hme s e1 s1).
  - apply (proj2 (Hk a) s1). by apply (Hm s (inr a) s1).
Qed.

Lemma avoids_try {A} (m : PyM S E A) (h : E -> PyM S E A) :
  preserves P m -> (forall e, avoids (h e)) -> avoids (py_try m h).
Proof.
  intros Hm Hh. split; [apply preserves_try; [done|intros e; apply Hh]|].
  intros s e s' Hs. unfold py_try. destruct (m s) as [[e1|a] s1] eqn:E1; [|by intros [=]].
  apply (proj2 (Hh e1) s1). by apply (Hm s (inl e1) s1).
Qed.

Lemma avoids_fold {A B} (f : A -> B -> PyM S E A) (l : list B) acc :
  (forall a x, x ∈ l -> avoids (f a x)) -> avoids (py_fold f l acc).
Proof.
  revert acc. induction l as [|x l IH]; intros acc Hf; simpl; [apply avoids_ret|].
  apply avoids_bind; [apply Hf; left|intros a; apply IH; intros; apply Hf; by right].
Qed.

Lemma avoids_pres {A} (m : PyM S E A) : avoids m -> preserves P m.
Proof. by intros [? _]. Qed.

Lemma avoids_get : avoids py_get.
Proof. split; [apply preserves_get|]. by intros s e s' _ [=]. Qed.

Lemma avoids_for {A} (l : list A) (body : A -> PyM S E unit) :
  (forall x, avoids (body x)) -> avoids (py_for l body).
Proof.
  intros Hb. induction l as [|x l IH]; simpl; [apply avoids_ret|].
  apply avoids_bind; [apply Hb|intros _; apply IH].
Qed.

(** The two halves of [avoids m] on one run. *)
Lemma avoids_run {A} (m : PyM S E A) :
  avoids m <-> forall s, P s -> P (snd (m s)) /\ forall e, fst (m s) = inl e -> ~ bad e.
Proof.
  split.
  - intros [Hp Hx] s Hs. destruct (m s) as [r s'] eqn:Em. split; [by apply (Hp s r s')|].
    intros e He. simpl in He. subst r. by apply (Hx s e s').
  - intros Hr. split; intros s r s' Hs Em; pose proof (Hr s Hs) as [H1 H2]; rewrite Em in H1, H2; [done|].
    by apply H2.
Qed.

Lemma avoids_preserves {A} (m : PyM S E A) : (forall s r s', m s = (r, s') -> s' = s) ->
  (forall s e s', P s -> m s = (inl e, s') -> ~ bad e) -> avoids m.
Proof. intros Hs He. split; [|done]. intros s r s' HP Hm. by rewrite (Hs s r s' Hm). Qed.

End Avoids.

Create HintDb avoids.
#[export] Hint Resolve avoids_ret avoids_get : avoids.

(** Decompose [avoids P bad m] as [preserve] does; the raises are left
    to [eauto with avoids] and to [discriminate]. *)
Ltac avoid :=
  repeat match goal with
  | |- avoids _ _ (py_bind _ _) => apply avoids_bind; [|intros ?]
  | |- avoids _ _ (py_for _ _) => apply avoids_for; intros ?
  | |- avoids _ _ (py_try _ _) => apply avoids_try; [|intros ?]
  | |- preserves _ (py_bind _ _) => apply preserves_bind; [|intros ?]
  | |- preserves _ (py_ret _) => apply preserves_ret
  | |- preserves _ _ => eapply avoids_pres
  | |- avoids _ _ (py_raise _) => apply avoids_raise; try discriminate
  | |- avoids _ _ (if ?b then _ else _) => destruct b
  | |- avoids _ _ (match ?x with _ => _ end) => destruct x
  end; eauto with avoids.

(** ** Relating two computations

    [py_rel R m1 m2]: from every state, [m1] and [m2] reach the same
    state and raise the same exception or return values related by
    [R].  It compares two models of the same code that keep their loop
    variables differently. *)

Section PyRel.
Context {S E : Type}.

Definition res_rel {A B} (R : A -> B -> Prop) (x : (E + A) * S) (y : (E + B) * S) : Prop :=
  x.2 = y.2 /\ match x.1, y.1 with
             | inl e1, inl e2 => e1 = e2
             | inr a, inr b => R a b
             | _, _ => False
             end.

Definition py_rel {A B} (R : A -> B -> Prop) (m1 : PyM S E A) (m2 : PyM S E B) : Prop :=
  forall s, res_rel R (m1 s) (m2 s).

Lemma py_rel_ret {A B} (R : A -> B -> Prop) a b : R a b -> py_rel R (py_ret a) (py_ret b).
Proof. intros Hr s. by split. Qed.

Lemma py_rel_refl {A} (m : PyM S E A) : py_rel eq m m.
Proof. intros s. split; [done|]. by destruct (m s) as [[]]. Qed.

Lemma py_rel_bind {A1 A2 B1 B2} (Q : A1 -> A2 -> Prop) (R : B1 -> B2 -> Prop)
    (m1 : PyM S E A1) (m2 : PyM S E A2) (k1 : A1 -> PyM S E B1) (k2 : A2 -> PyM S E B2) :
  py_rel Q m1 m2 -> (forall a1 a2, Q a1 a2 -> py_rel R (k1 a1) (k2 a2)) ->
  py_rel R (py_bind m1 k1) (py_bind m2 k2).
Proof.
  intros Hm Hk s. rewrite !py_run_bind. destruct (Hm s) as [Hs Hr].
  destruct (m1 s) as [[e1|a1] s1], (m2 s) as [[e2|a2] s2]; simpl in *; subst; try done.
  by apply Hk.
Qed.

Lemma py_rel_fold {A1 A2 B} (R : A1 -> A2 -> Prop) (f1 : A1 -> B -> PyM S E A1) (f2 : A2 -> B -> PyM S E A2) l :
  (forall a1 a2 x, x ∈ l -> R a1 a2 -> py_rel R (f1 a1 x) (f2 a2 x)) ->
  forall a1 a2, R a1 a2 -> py_rel R (py_fold f1 l a1) (py_fold f2 l a2).
Proof.
  induction l as [|x l IH]; intros Hf a1 a2 Ha; simpl; [by apply py_rel_ret|].
  apply (py_rel_bind R); [apply Hf; [set_solver|done]|].
  intros b1 b2 Hb. apply IH; [|done]. intros; apply Hf; [set_solver|done].
Qed.

(** Related computations with [eq] run to the same result. *)
Lemma py_rel_eq {A} (m1 m2 : PyM S E A) s : py_rel eq m1 m2 -> m1 s = m2 s.
Proof.
  intros H. destruct (H s) as [Hs Hr].
  destruct (m1 s) as [[e1|a1] s1], (m2 s) as [[e2|a2] s2]; simpl in *; by subst.
Qed.
End PyRel.
