(* ===== verification/PyStr.v ===== *)
(** * Python [str] primitives

    The operations of CPython's [str] that the plugin and the library
    functions it calls ([posixpath], [urllib.parse], [pathlib]) use,
    written on Rocq strings (a string of 8-bit characters, which is
    Python's [str] restricted to code points below 256):
    slicing [s[n:]] and [s[:n]], [find]/[rfind] of one character,
    [split]/[join] on one separator, [startswith], [endswith],
    [lower], [lstrip]/[rstrip] and [replace] of single characters. *)

From S2P Require Import Prelude.
From Stdlib Require Import Ascii.

(** [s[n:]] *)
Fixpoint str_drop (n : nat) (s : string) : string :=
  match n, s with
  | 0, _ => s
  | S _, EmptyString => EmptyString
  | S n', String _ t => str_drop n' t
  end.

(** [s[:n]] *)
Fixpoint str_take (n : nat) (s : string) : string :=
  match n, s with
  | 0, _ => EmptyString
  | S _, EmptyString => EmptyString
  | S n', String c t => String c (str_take n' t)
  end.

(** [s.find(c)]: [None] stands for [-1]. *)
Fixpoint str_find (c : ascii) (s : string) : option nat :=
  match s with
  | EmptyString => None
  | String d t => if Ascii.eqb c d then Some 0 else S <$> str_find c t
  end.

(** [s.rfind(c)]: [None] stands for [-1]. *)
Fixpoint str_rfind (c : ascii) (s : string) : option nat :=
  match s with
  | EmptyString => None
  | String d t =>
      match str_rfind c t with
      | Some i => Some (S i)
      | None => if Ascii.eqb c d then Some 0 else None
      end
  end.

(** [c in s] *)
Definition str_contains (c : ascii) (s : string) : bool :=
  if str_find c s is Some _ then true else false.

(** [s.split(c)]: the pieces between the occurrences of [c]. *)
Fixpoint str_split (c : ascii) (s : string) : list string :=
  match s with
  | EmptyString => [EmptyString]
  | String d t =>
      if Ascii.eqb c d then EmptyString :: str_split c t
      else match str_split c t with
           | [] => [String d EmptyString]
           | p :: ps => String d p :: ps
           end
  end.

(** [c.join(l)] *)
Fixpoint str_join (c : ascii) (l : list string) : string :=
  match l with
  | [] => EmptyString
  | [p] => p
  | p :: ps => p +:+ String c (str_join c ps)
  end.

(** [s.split(c, 1)] when [c in s]: the text before and after the first [c]. *)
Definition str_split_once (c : ascii) (s : string) : option (string * string) :=
  match str_find c s with
  | Some i => Some (str_take i s, str_drop (S i) s)
  | None => None
  end.

(** [s.startswith(p)], by recursion on the prefix [p]. *)
Fixpoint startswith (s p : string) {struct p} : bool :=
  match p, s with
  | EmptyString, _ => true
  | String c p', String d s' => Ascii.eqb c d && startswith s' p'
  | String _ _, EmptyString => false
  end.

(** The last character, used for [s.endswith(c)] with a one-character [c]. *)
Fixpoint str_last (s : string) : option ascii :=
  match s with
  | EmptyString => None
  | String c EmptyString => Some c
  | String _ t => str_last t
  end.

Definition endswith_char (s : string) (c : ascii) : bool :=
  if str_last s is Some d then Ascii.eqb c d else false.

(** [str.lower] on ASCII letters. *)
Definition ascii_lower (c : ascii) : ascii :=
  let n := nat_of_ascii c in
  if (65 <=? n) && (n <=? 90) then ascii_of_nat (n + 32) else c.

Fixpoint str_lower (s : string) : string :=
  match s with
  | EmptyString => EmptyString
  | String c t => String (ascii_lower c) (str_lower t)
  end.

(** [s.lstrip(chars)] and [s.rstrip(c)] for a character predicate. *)
Fixpoint str_lstrip (p : ascii -> bool) (s : string) : string :=
  match s with
  | String c t => if p c then str_lstrip p t else s
  | EmptyString => EmptyString
  end.

Fixpoint str_rstrip (p : ascii -> bool) (s : string) : string :=
  match s with
  | EmptyString => EmptyString
  | String c t =>
      match str_rstrip p t with
      | EmptyString => if p c then EmptyString else String c EmptyString
      | t' => String c t'
      end
  end.

(** [s.replace(c, "")] for a character predicate (several calls in a row). *)
Fixpoint str_remove (p : ascii -> bool) (s : string) : string :=
  match s with
  | EmptyString => EmptyString
  | String c t => if p c then str_remove p t else String c (str_remove p t)
  end.

(** [all(ch == c for ch in s)], i.e. [s == c * len(s)]. *)
Fixpoint str_all (p : ascii -> bool) (s : string) : bool :=
  match s with
  | EmptyString => true
  | String c t => p c && str_all p t
  end.

Definition is_char (c : ascii) : ascii -> bool := Ascii.eqb c.

Definition space_char : ascii := " "%char.

Definition newline_char : ascii := ascii_of_nat 10.

(** [n] spaces. *)
Fixpoint spaces (n : nat) : string :=
  match n with 0 => EmptyString | S n' => String space_char (spaces n') end.

(** ** Lemmas *)

(** [+:+] is declared [simpl never] by stdpp; these two equations replace
    its unfolding. *)
Lemma str_append_nil_l s : "" +:+ s = s.
Proof. reflexivity. Qed.

Lemma str_append_cons c s t : String c s +:+ t = String c (s +:+ t).
Proof. reflexivity. Qed.

Lemma str_take_drop n s : str_take n s +:+ str_drop n s = s.
Proof.
  revert s; induction n as [|n IH]; intros [|c s]; simpl; try reflexivity.
  rewrite str_append_cons. f_equal; auto.
Qed.

Lemma str_append_nil_r s : s +:+ "" = s.
Proof. induction s; [done|]. rewrite str_append_cons. f_equal; auto. Qed.

Lemma str_append_assoc s1 s2 s3 : (s1 +:+ s2) +:+ s3 = s1 +:+ (s2 +:+ s3).
Proof. induction s1; [done|]. rewrite !str_append_cons. f_equal; auto. Qed.

Lemma str_split_nonempty c s : str_split c s <> [].
Proof.
  destruct s as [|d t]; simpl; [done|].
  destruct (Ascii.eqb c d); [done|]. by destruct (str_split c t).
Qed.

(** [c.join(s.split(c)) == s] *)
Lemma str_join_split c s : str_join c (str_split c s) = s.
Proof.
  induction s as [|d t IH]; simpl; [done|].
  destruct (Ascii.eqb_spec c d) as [<-|Hne].
  - pose proof (str_split_nonempty c t).
    destruct (str_split c t) as [|p ps] eqn:E; [done|]. simpl. by rewrite <- IH.
  - pose proof (str_split_nonempty c t).
    destruct (str_split c t) as [|p [|p' ps]] eqn:E; [done| |]; simpl in *; by rewrite <- IH.
Qed.

(** Every piece of [s.split(c)] is free of [c]. *)
Lemma str_split_no_sep c s : Forall (fun p => str_contains c p = false) (str_split c s).
Proof.
  induction s as [|d t IH]; simpl; [by repeat constructor|].
  destruct (Ascii.eqb_spec c d) as [<-|Hne]; [by constructor|].
  destruct (str_split c t) as [|p ps]; inversion IH; subst; constructor; auto.
  - unfold str_contains; simpl. destruct (Ascii.eqb_spec c d); [done|]. reflexivity.
  - unfold str_contains in *; simpl. destruct (Ascii.eqb_spec c d); [done|].
    by destruct (str_find c p).
Qed.

Lemma str_contains_cons c d t :
  str_contains c (String d t) = Ascii.eqb c d || str_contains c t.
Proof.
  unfold str_contains; simpl. destruct (Ascii.eqb c d); [done|].
  by destruct (str_find c t).
Qed.

Lemma str_contains_append c s1 s2 :
  str_contains c (s1 +:+ s2) = str_contains c s1 || str_contains c s2.
Proof.
  induction s1 as [|d t IH]; [done|].
  rewrite str_append_cons, !str_contains_cons, IH. by rewrite orb_assoc.
Qed.

(** A string free of [c] splits into itself. *)
Lemma str_split_no_sep_single c s : str_contains c s = false -> str_split c s = [s].
Proof.
  induction s as [|d t IH]; simpl; [done|].
  rewrite str_contains_cons. destruct (Ascii.eqb c d); [done|]. simpl.
  intros H. by rewrite IH.
Qed.

(** Splitting a join of separator-free pieces gives the pieces back. *)
Lemma str_split_join c l :
  l <> [] -> Forall (fun p => str_contains c p = false) l -> str_split c (str_join c l) = l.
Proof.
  induction l as [|p [|p' ps] IH]; intros Hne Hall; [done| |].
  - inversion Hall; subst. by apply str_split_no_sep_single.
  - inversion Hall as [|? ? Hp Hrest]; subst. simpl.
    assert (forall q, str_split c (p +:+ String c q) = p :: str_split c q) as Hq.
    { clear -Hp. induction p as [|d t IHp]; intros q.
      - simpl. by rewrite Ascii.eqb_refl.
      - rewrite str_contains_cons in Hp. apply orb_false_iff in Hp as [Hd Ht].
        rewrite str_append_cons. simpl. rewrite Hd, IHp by done. reflexivity. }
    rewrite Hq. f_equal. apply IH; [done|done].
Qed.

Lemma str_rfind_none c s : str_rfind c s = None <-> str_contains c s = false.
Proof.
  induction s as [|d t IH]; simpl; [done|].
  rewrite str_contains_cons, orb_false_iff, <- IH.
  destruct (str_rfind c t); [naive_solver|].
  destruct (Ascii.eqb c d); naive_solver.
Qed.

Create Rewrite HintDb py_str.
#[export] Hint Rewrite str_append_nil_l str_append_cons str_take_drop str_append_nil_r str_append_assoc str_join_split
  str_contains_cons str_contains_append : py_str.

Lemma str_all_app p s t : str_all p (s +:+ t) = str_all p s && str_all p t.
Proof. induction s as [|c s IH]; [done|]. rewrite str_append_cons; simpl. by rewrite IH, andb_assoc. Qed.

Lemma str_remove_id p s : str_all (fun c => negb (p c)) s = true -> str_remove p s = s.
Proof.
  induction s as [|c s IH]; [done|]. simpl. intros [Hc Hs]%andb_prop.
  apply negb_true_iff in Hc. rewrite Hc. by rewrite IH.
Qed.

Lemma str_find_none_all c s : str_all (fun d => negb (Ascii.eqb c d)) s = true -> str_find c s = None.
Proof.
  induction s as [|d s IH]; [done|]. simpl. intros [Hd Hs]%andb_prop.
  apply negb_true_iff in Hd. by rewrite Hd, IH.
Qed.

Lemma str_contains_all c s : str_all (fun d => negb (Ascii.eqb c d)) s = true -> str_contains c s = false.
Proof. intros H. unfold str_contains. by rewrite str_find_none_all. Qed.

Lemma str_split_once_none c s : str_all (fun d => negb (Ascii.eqb c d)) s = true -> str_split_once c s = None.
Proof. intros H. unfold str_split_once. by rewrite str_find_none_all. Qed.

Lemma str_all_impl (p q : ascii -> bool) s :
  (forall c, p c = true -> q c = true) -> str_all p s = true -> str_all q s = true.
Proof.
  intros Hpq. induction s as [|c s IH]; [done|]. simpl.
  intros [Hc Hs]%andb_prop. by rewrite Hpq, IH.
Qed.

Lemma str_take_length s : str_take (String.length s) s = s.
Proof. induction s; simpl; by f_equal. Qed.

Lemma str_drop_length s : str_drop (String.length s) s = "".
Proof. by induction s. Qed.

Lemma startswith_char c t d : startswith (String c t) (String d "") = true -> c = d.
Proof. cbn [startswith]. rewrite andb_true_r. intros H. by apply Ascii.eqb_eq in H. Qed.

Lemma startswith_char_nil d : startswith "" (String d "") = false.
Proof. reflexivity. Qed.

Lemma str_drop_app h t : str_drop (String.length h) (h +:+ t) = t.
Proof. induction h; [done|]. by rewrite ?str_append_cons. Qed.

Lemma str_take_app h t : str_take (String.length h) (h +:+ t) = h.
Proof. induction h; [done|]. rewrite ?str_append_cons; simpl. by f_equal. Qed.

Lemma str_lstrip_id p s : str_all (fun c => negb (p c)) s = true -> str_lstrip p s = s.
Proof. destruct s as [|c s]; [done|]. simpl. intros [Hc _]%andb_prop. by apply negb_true_iff in Hc as ->. Qed.

Lemma startswith_not_char s c p :
  str_all (fun d => negb (Ascii.eqb d c)) s = true -> startswith s (String c p) = false.
Proof.
  destruct s as [|d s]; [done|]. simpl. intros [Hd _]%andb_prop.
  apply negb_true_iff in Hd. by rewrite Ascii.eqb_sym, Hd.
Qed.

Lemma str_rstrip_nonempty p s : str_all p s = false -> str_truthy (str_rstrip p s) = true.
Proof.
  induction s as [|c t IH]; [done|]. simpl. destruct (str_rstrip p t) as [|d u] eqn:E.
  - destruct (p c) eqn:Hc; simpl; [|done].
    intros Ht. specialize (IH Ht). discriminate IH.
  - by intros _.
Qed.

(** ** [rstrip] *)

Lemma str_rstrip_id p s : str_all (fun c => negb (p c)) s = true -> str_rstrip p s = s.
Proof.
  induction s as [|c t IH]; [done|]. simpl. intros [Hc Ht]%andb_prop.
  rewrite IH by done. apply negb_true_iff in Hc. destruct t; [by rewrite Hc|done].
Qed.

Lemma str_rstrip_all p t : str_all p t = true -> str_rstrip p t = "".
Proof.
  induction t as [|c t IH]; [done|]. simpl. intros [Hc Ht]%andb_prop. by rewrite IH, Hc.
Qed.

Lemma str_rstrip_app_all p v t : str_all p t = true -> str_rstrip p (v +:+ t) = str_rstrip p v.
Proof.
  intros Ht. induction v as [|c v IH]; [by apply str_rstrip_all|].
  rewrite str_append_cons. simpl. by rewrite IH.
Qed.

(** [rstrip] keeps a prefix in front of a tail it keeps. *)
Lemma str_rstrip_app_keep p h t : t <> "" -> str_rstrip p t = t -> str_rstrip p (h +:+ t) = h +:+ t.
Proof.
  intros Ht Hr. induction h as [|c h IH]; [done|]. rewrite str_append_cons. simpl. rewrite IH.
  destruct (h +:+ t) eqn:E; [|done]. by destruct h, t.
Qed.

Lemma str_contains_false_all c s : str_contains c s = false -> str_all (fun d => negb (Ascii.eqb c d)) s = true.
Proof.
  induction s as [|d t IH]; [done|]. rewrite str_contains_cons. intros [Hd Ht]%orb_false_iff.
  simpl. by rewrite Hd, IH.
Qed.
