(* ===== verification/PosixPath.v ===== *)
(** * POSIX path functions

    [posixpath.join], [os.path.basename] and [os.path.dirname] as
    CPython 3.11 writes them (Lib/posixpath.py), [pathlib.PurePath.name]
    (Lib/pathlib.py), and the reading of a slash-separated path as a list
    of segments that the Artifactory server applies to the paths it
    receives.  The plugin runs on POSIX, so [os.path] is [posixpath]. *)

From S2P Require Import Prelude PyStr.
From Stdlib Require Import Ascii.

Definition sep : ascii := "/"%char.

(** [posixpath.join(a, *p)] *)
Definition join_step (path b : string) : string :=
  if startswith b "/" then b
  else if negb (str_truthy path) || endswith_char path sep then path +:+ b
  else path +:+ String sep b.

Definition posix_join (a : string) (p : list string) : string :=
  fold_left join_step p a.

(** [posixpath.basename(p)]: [i = p.rfind(sep) + 1; return p[i:]]. *)
Definition basename (p : string) : string :=
  match str_rfind sep p with
  | Some i => str_drop (S i) p
  | None => p
  end.

(** [posixpath.dirname(p)]:
    [i = p.rfind(sep) + 1; head = p[:i];
     if head and head != sep*len(head): head = head.rstrip(sep)]. *)
Definition dirname (p : string) : string :=
  let head := match str_rfind sep p with
              | Some i => str_take (S i) p
              | None => ""
              end in
  if str_truthy head && negb (str_all (is_char sep) head)
  then str_rstrip (is_char sep) head else head.

(** [pathlib.PurePosixPath(p).parts] without the root: the components
    between slashes, with empty and ["."] components dropped. *)
Definition path_parts (p : string) : list string :=
  List.filter (fun x => negb (String.eqb x "") && negb (String.eqb x ".")) (str_split sep p).

(** [pathlib.PurePath(p).name]: the last component, [""] when there is none. *)
Definition path_name (p : string) : string := default "" (last (path_parts p)).

(** The server's reading of a request path: the segments between slashes,
    with empty segments and ["."] dropped and [".."] removing the previous
    segment (RFC 3986 dot-segment removal, applied by the HTTP client
    before the request is sent). *)
Definition resolve_step (acc : list string) (x : string) : list string :=
  if String.eqb x "" || String.eqb x "." then acc
  else if String.eqb x ".." then removelast acc
  else acc ++ [x].

Definition segs (p : string) : list string := fold_left resolve_step (str_split sep p) [].

(** A plain name: a non-empty path component that the server keeps as is. *)
Definition plain_name (x : string) : bool :=
  str_truthy x && negb (str_contains sep x) && negb (String.eqb x ".") && negb (String.eqb x "..").

(** ** String lemmas behind the path functions *)


Lemma str_rfind_app_sep c h n :
  str_contains c n = false -> str_rfind c (h +:+ String c n) = Some (String.length h).
Proof.
  intros Hn. induction h as [|d h IH].
  - simpl. apply str_rfind_none in Hn. by rewrite Hn, Ascii.eqb_refl.
  - rewrite ?str_append_cons; simpl. by rewrite IH.
Qed.

Lemma str_split_app_sep c s t : str_split c (s +:+ String c t) = str_split c s ++ str_split c t.
Proof.
  induction s as [|d s IH]; simpl.
  - by rewrite Ascii.eqb_refl.
  - rewrite ?str_append_cons; simpl. destruct (Ascii.eqb c d); [by rewrite IH|].
    rewrite IH. pose proof (str_split_nonempty c s).
    by destruct (str_split c s).
Qed.

Lemma str_last_some_app s c : str_last s = Some c -> exists s', s = s' +:+ String c "".
Proof.
  induction s as [|d t IH]; [done|]. simpl.
  destruct t as [|d' t']; [intros [= ->]; by exists ""|].
  intros H. destruct (IH H) as [s' ->]. exists (String d s'). done.
Qed.

Lemma str_rstrip_spec p s : exists k, s = str_rstrip p s +:+ k /\ str_all p k = true.
Proof.
  induction s as [|c t [k [Ht Hk]]]; [by exists ""|]. simpl.
  destruct (str_rstrip p t) as [|d u] eqn:E.
  - destruct (p c) eqn:Hc.
    + exists (String c k). simpl. rewrite Hc, Hk. split; [|done].
      rewrite str_append_nil_l in Ht. by rewrite <- Ht.
    + exists k. split; [|done]. rewrite str_append_cons. by rewrite <- Ht.
  - exists k. split; [|done]. rewrite str_append_cons. by rewrite <- Ht.
Qed.

(** The index after the last separator of [h + "/" + n], and the string
    split there. *)
Lemma sep_split_point h n :
  str_drop (S (String.length h)) (h +:+ String sep n) =
    str_drop (String.length (h +:+ String sep "")) ((h +:+ String sep "") +:+ n) /\
  str_take (S (String.length h)) (h +:+ String sep n) =
    str_take (String.length (h +:+ String sep "")) ((h +:+ String sep "") +:+ n).
Proof.
  rewrite str_append_assoc.
  replace (S (String.length h)) with (String.length (h +:+ String sep "")); [done|].
  clear. induction h; [done|]. rewrite ?str_append_cons; simpl. by f_equal.
Qed.

(** ** [os.path.basename] *)

Lemma basename_app_sep h n :
  str_contains sep n = false -> basename (h +:+ String sep n) = n.
Proof.
  intros Hn. unfold basename. rewrite str_rfind_app_sep by done.
  rewrite (proj1 (sep_split_point h n)). apply str_drop_app.
Qed.

Lemma basename_no_sep n : str_contains sep n = false -> basename n = n.
Proof. intros Hn. unfold basename. by rewrite (proj2 (str_rfind_none _ _) Hn). Qed.

(** ** [pathlib] parts *)

Lemma path_parts_app_sep s t : path_parts (s +:+ String sep t) = path_parts s ++ path_parts t.
Proof. unfold path_parts. by rewrite str_split_app_sep, List.filter_app. Qed.

Lemma path_parts_all_sep k : str_all (is_char sep) k = true -> path_parts k = [].
Proof.
  unfold path_parts. induction k as [|c k IH]; [done|]. simpl.
  intros [Hc Hk]%andb_prop. unfold is_char in Hc. rewrite Hc. simpl.
  apply IH in Hk. destruct (str_split sep k) eqn:E; [done|].
  simpl in *. revert Hk. by case_match.
Qed.

Lemma path_parts_app_seps x k :
  str_all (is_char sep) k = true -> path_parts (x +:+ k) = path_parts x.
Proof.
  destruct k as [|c k]; [by rewrite str_append_nil_r|]. cbn [str_all].
  intros [Hc Hk]%andb_prop. unfold is_char in Hc. apply Ascii.eqb_eq in Hc as <-.
  rewrite path_parts_app_sep, (path_parts_all_sep k Hk). apply app_nil_r.
Qed.

Lemma path_parts_rstrip s : path_parts (str_rstrip (is_char sep) s) = path_parts s.
Proof.
  destruct (str_rstrip_spec (is_char sep) s) as [k [Hs Hk]].
  rewrite Hs at 2. by rewrite path_parts_app_seps.
Qed.

(** ** [os.path.dirname] *)

(** The components of [dirname(h + "/" + n)] are those of [h]. *)
Lemma dirname_parts h n :
  str_contains sep n = false -> path_parts (dirname (h +:+ String sep n)) = path_parts h.
Proof.
  intros Hn. unfold dirname. rewrite str_rfind_app_sep by done.
  rewrite (proj2 (sep_split_point h n)), str_take_app.
  assert (path_parts (h +:+ String sep "") = path_parts h) as Hh.
  { rewrite path_parts_app_sep. apply app_nil_r. }
  destruct (_ && _); [by rewrite path_parts_rstrip|done].
Qed.

(** [dirname] of a path without a slash is the empty string. *)
Lemma dirname_no_sep n : str_contains sep n = false -> dirname n = "".
Proof. intros Hn. unfold dirname. by rewrite (proj2 (str_rfind_none _ _) Hn). Qed.

(** [dirname] of a name directly under the root is the root. *)
Lemma dirname_root n : str_contains sep n = false -> dirname (String sep n) = "/".
Proof.
  intros Hn. pose proof (str_rfind_app_sep sep "" n Hn) as H.
  change ("" +:+ String sep n) with (String sep n) in H. unfold dirname. rewrite H. reflexivity.
Qed.

(** ** [posixpath.join] *)

Lemma join_step_parts a b :
  startswith b "/" = false -> path_parts (join_step a b) = path_parts a ++ path_parts b.
Proof.
  intros Hb. unfold join_step. rewrite Hb.
  destruct (str_truthy a) eqn:Ha; simpl.
  - destruct (endswith_char a sep) eqn:He; simpl.
    + unfold endswith_char in He. destruct (str_last a) as [c|] eqn:El; [|done].
      apply Ascii.eqb_eq in He as <-. destruct (str_last_some_app _ _ El) as [a' ->].
      rewrite str_append_assoc, str_append_cons, str_append_nil_l, !path_parts_app_sep.
      by rewrite <- app_assoc.
    + apply path_parts_app_sep.
  - apply str_truthy_false in Ha as ->. done.
Qed.

Lemma join_step_abs a b : startswith b "/" = true -> join_step a b = b.
Proof. unfold join_step. by intros ->. Qed.

(** The components of [posixpath.join(a, *p)] when no [p] is absolute. *)
Lemma posix_join_parts a p :
  Forall (fun b => startswith b "/" = false) p ->
  path_parts (posix_join a p) = path_parts a ++ mjoin (path_parts <$> p).
Proof.
  unfold posix_join. revert a. induction p as [|b p IH]; intros a Hp; simpl.
  - by rewrite app_nil_r.
  - inversion Hp; subst. rewrite IH, join_step_parts by done. by rewrite app_assoc.
Qed.

(** ** Segment resolution *)

Lemma segs_app_sep s t : segs (s +:+ String sep t) = fold_left resolve_step (str_split sep t) (segs s).
Proof. unfold segs. by rewrite str_split_app_sep, fold_left_app. Qed.

Lemma resolve_no_dotdot l acc :
  Forall (fun x => String.eqb x ".." = false) l ->
  fold_left resolve_step l acc =
  acc ++ List.filter (fun x => negb (String.eqb x "") && negb (String.eqb x ".")) l.
Proof.
  revert acc; induction l as [|x l IH]; intros acc Hl; simpl; [by rewrite app_nil_r|].
  inversion Hl as [|? ? Hx Hrest]; subst. rewrite IH by done. unfold resolve_step.
  rewrite Hx. destruct (String.eqb x ""), (String.eqb x "."); simpl;
    rewrite <- ?app_assoc; reflexivity.
Qed.

(** Without [".."] components the server's segments are the [pathlib] parts. *)
Lemma segs_parts p :
  Forall (fun x => String.eqb x ".." = false) (str_split sep p) -> segs p = path_parts p.
Proof. intros H. unfold segs, path_parts. by rewrite resolve_no_dotdot. Qed.

Lemma str_split_all_sep k : str_all (is_char sep) k = true -> Forall (fun x => x = "") (str_split sep k).
Proof.
  induction k as [|c k IH]; [by repeat constructor|]. cbn [str_all].
  intros [Hc Hk]%andb_prop. unfold is_char in Hc. cbn [str_split]. rewrite Hc.
  constructor; [done|]. by apply IH.
Qed.

Lemma resolve_empties l acc : Forall (fun x => x = "") l -> fold_left resolve_step l acc = acc.
Proof. intros H; revert acc; induction H; intros acc; simpl; [done|]. subst. apply IHForall. Qed.

Lemma segs_app_seps x k : str_all (is_char sep) k = true -> segs (x +:+ k) = segs x.
Proof.
  destruct k as [|c k]; [by rewrite str_append_nil_r|]. cbn [str_all].
  intros [Hc Hk]%andb_prop. unfold is_char in Hc. apply Ascii.eqb_eq in Hc as <-.
  rewrite segs_app_sep. by apply resolve_empties, str_split_all_sep.
Qed.

Lemma segs_rstrip s : segs (str_rstrip (is_char sep) s) = segs s.
Proof.
  destruct (str_rstrip_spec (is_char sep) s) as [k [Hs Hk]].
  rewrite Hs at 2. by rewrite segs_app_seps.
Qed.

(** The server's and the local file system's reading of [dirname(h + "/" + n)]. *)
Lemma segs_dirname h n :
  str_contains sep n = false -> segs (dirname (h +:+ String sep n)) = segs h.
Proof.
  intros Hn. unfold dirname. rewrite str_rfind_app_sep by done.
  rewrite (proj2 (sep_split_point h n)), str_take_app.
  assert (segs (h +:+ String sep "") = segs h) as Hh.
  { by rewrite segs_app_sep. }
  destruct (_ && _); [by rewrite segs_rstrip|done].
Qed.

Lemma plain_name_props n :
  plain_name n = true ->
  n <> "" /\ str_contains sep n = false /\ String.eqb n "." = false /\ String.eqb n ".." = false.
Proof.
  unfold plain_name.
  destruct (str_truthy n) eqn:Ht, (str_contains sep n), (String.eqb n "."), (String.eqb n "..");
    try discriminate. intros _. repeat split; try done. by intros ->.
Qed.

Lemma resolve_step_plain acc n : plain_name n = true -> resolve_step acc n = acc ++ [n].
Proof.
  intros (Hne & _ & Hd & Hdd)%plain_name_props. unfold resolve_step.
  rewrite Hd, Hdd, orb_false_r. by destruct (String.eqb_spec n "").
Qed.

Lemma segs_app_plain h n : plain_name n = true -> segs (h +:+ String sep n) = segs h ++ [n].
Proof.
  intros Hn. rewrite segs_app_sep.
  destruct (plain_name_props n Hn) as (_ & Hs & _).
  rewrite str_split_no_sep_single by done. simpl. by apply resolve_step_plain.
Qed.

Lemma segs_plain n : plain_name n = true -> segs n = [n].
Proof.
  intros Hn. destruct (plain_name_props n Hn) as (_ & Hs & _).
  unfold segs. rewrite str_split_no_sep_single by done. simpl. by apply resolve_step_plain.
Qed.

(** Resolving the components of [s] on top of the segments [acc]. *)
Definition segs_from (acc : list string) (s : string) : list string :=
  fold_left resolve_step (str_split sep s) acc.

(** No [".."] component. *)
Definition no_dotdot (s : string) : bool :=
  forallb (fun x => negb (String.eqb x "..")) (str_split sep s).

Lemma no_dotdot_Forall s :
  no_dotdot s = true -> Forall (fun x => String.eqb x ".." = false) (str_split sep s).
Proof.
  unfold no_dotdot. intros H. apply Forall_forall. intros x Hx.
  apply forallb_forall with (x := x) in H; [|by apply list_elem_of_In].
  by apply negb_true_iff.
Qed.

Lemma segs_from_app acc s : no_dotdot s = true -> segs_from acc s = acc ++ segs s.
Proof.
  intros H%no_dotdot_Forall. unfold segs_from, segs.
  rewrite !resolve_no_dotdot by done. done.
Qed.

Lemma segs_app_sep_from s t : segs (s +:+ String sep t) = segs_from (segs s) t.
Proof. apply segs_app_sep. Qed.

Lemma segs_join_step a b :
  startswith b "/" = false -> segs (join_step a b) = segs_from (segs a) b.
Proof.
  intros Hb. unfold join_step. rewrite Hb.
  destruct (str_truthy a) eqn:Ha; simpl.
  - destruct (endswith_char a sep) eqn:He; simpl.
    + unfold endswith_char in He. destruct (str_last a) as [c|] eqn:El; [|done].
      apply Ascii.eqb_eq in He as <-. destruct (str_last_some_app _ _ El) as [a' ->].
      rewrite str_append_assoc, str_append_cons, str_append_nil_l, !segs_app_sep_from.
      done.
    + apply segs_app_sep_from.
  - apply str_truthy_false in Ha as ->. done.
Qed.

(** [segs] of [posixpath.join(a, b1, ..., bn)] when no [bi] is absolute
    or has a [".."] component. *)
Lemma segs_posix_join a bs :
  Forall (fun b => startswith b "/" = false /\ no_dotdot b = true) bs ->
  segs (posix_join a bs) = segs a ++ mjoin (segs <$> bs).
Proof.
  unfold posix_join. revert a. induction bs as [|b bs IH]; intros a Hbs; simpl.
  - by rewrite app_nil_r.
  - inversion Hbs as [|? ? [Hb Hd] Hrest]; subst. rewrite IH by done.
    rewrite segs_join_step, segs_from_app by done. by rewrite app_assoc.
Qed.

(** [segs] of a concatenation ["/" + a + "/" + b]. *)
Lemma segs_slash_app a b : no_dotdot b = true -> segs (a +:+ String sep b) = segs a ++ segs b.
Proof. intros Hb. by rewrite segs_app_sep_from, segs_from_app. Qed.

Lemma segs_slash_lead a : segs (String sep a) = segs a.
Proof.
  change (String sep a) with ("" +:+ String sep a). rewrite segs_app_sep_from.
  unfold segs_from, segs. reflexivity.
Qed.

Lemma slash_append x : "/" +:+ x = String sep x.
Proof. reflexivity. Qed.

Lemma no_dotdot_app_sep a b : no_dotdot (a +:+ String sep b) = no_dotdot a && no_dotdot b.
Proof. unfold no_dotdot. by rewrite str_split_app_sep, forallb_app. Qed.

Lemma Forall_removelast {A} (P : A -> Prop) l : Forall P l -> Forall P (removelast l).
Proof.
  induction l as [|x l IH]; intros H; [done|]. inversion H; subst.
  destruct l; simpl; [constructor|]. constructor; [done|]. by apply IH.
Qed.

(** Every segment the server reads is a plain name. *)
Lemma segs_plain_all p : Forall (fun x => plain_name x = true) (segs p).
Proof.
  unfold segs. pose proof (str_split_no_sep sep p) as Hns.
  assert (Forall (fun x => plain_name x = true) (@nil string)) as Hacc by constructor.
  revert Hacc. generalize (@nil string) as acc. induction Hns as [|x l Hx Hl IH]; intros acc Hacc; [done|].
  simpl. apply IH. unfold resolve_step.
  destruct (String.eqb_spec x ""), (String.eqb_spec x "."); simpl; try done.
  destruct (String.eqb_spec x ".."); [by apply Forall_removelast|].
  apply Forall_app; split; [done|]. constructor; [|done].
  unfold plain_name. rewrite Hx.
  destruct (String.eqb_spec x "."), (String.eqb_spec x ".."); try done.
  destruct (str_truthy x) eqn:Ht; [done|]. by apply str_truthy_false in Ht.
Qed.

(** [dirname(h + "/" + n)] is never empty. *)
Lemma dirname_truthy h n : str_contains sep n = false -> str_truthy (dirname (h +:+ String sep n)) = true.
Proof.
  intros Hn. unfold dirname. rewrite str_rfind_app_sep by done.
  rewrite (proj2 (sep_split_point h n)), str_take_app.
  destruct (str_truthy (h +:+ String sep "")) eqn:Ht; simpl.
  - destruct (str_all (is_char sep) (h +:+ String sep "")) eqn:Ha; simpl; [done|].
    by apply str_rstrip_nonempty.
  - exfalso. apply str_truthy_false in Ht. destruct h; discriminate Ht.
Qed.

(** A path built by joining plain names reads back as those names. *)
Lemma segs_join_plain k :
  k <> [] -> Forall (fun x => plain_name x = true) k -> segs (str_join sep k) = k.
Proof.
  intros Hne Hk. unfold segs.
  assert (Forall (fun p => str_contains sep p = false) k) as Hns.
  { eapply Forall_impl; [exact Hk|]. intros x (_ & ? & _)%plain_name_props. done. }
  rewrite str_split_join by done. rewrite resolve_no_dotdot.
  - simpl. rewrite forallb_filter_id; [done|]. apply forallb_forall. intros x Hx%list_elem_of_In.
    rewrite Forall_forall in Hk. destruct (plain_name_props x (Hk x Hx)) as (Hne' & _ & Hd & _).
    rewrite Hd. by destruct (String.eqb_spec x "").
  - eapply Forall_impl; [exact Hk|]. intros x (_ & _ & _ & ?)%plain_name_props. done.
Qed.


(** [dirname(d + "/" + n)] of a plain name [d] and a name [n] without
    separator is [d]. *)
Lemma dirname_plain d n :
  plain_name d = true -> str_contains sep n = false -> dirname (d +:+ String sep n) = d.
Proof.
  intros Hd Hn. destruct (plain_name_props d Hd) as (Hne & Hs & _).
  unfold dirname. rewrite str_rfind_app_sep by done.
  rewrite (proj2 (sep_split_point d n)), str_take_app.
  destruct d as [|c t]; [done|]. rewrite str_contains_cons in Hs. apply orb_false_iff in Hs as [Hc Ht].
  assert (str_all (is_char sep) (String c t +:+ String sep "") = false) as Hall.
  { rewrite str_append_cons. cbn [str_all]. unfold is_char at 1. by rewrite Hc. }
  rewrite Hall. change (str_truthy (String c t +:+ String sep "")) with true. cbn [andb negb].
  rewrite str_rstrip_app_all by (cbn [str_all]; unfold is_char; by rewrite Ascii.eqb_refl).
  apply str_rstrip_id. cbn [str_all]. unfold is_char at 1. rewrite Hc. apply (str_contains_false_all sep t Ht).
Qed.

(** [posixpath.join(a, b)] of a non-empty [a] without a trailing
    separator and a relative [b]. *)
Lemma posix_join_one a b :
  str_truthy a = true -> endswith_char a sep = false -> startswith b "/" = false ->
  posix_join a [b] = a +:+ String sep b.
Proof. intros Ha He Hb. unfold posix_join. cbn [fold_left]. unfold join_step. by rewrite Hb, Ha, He. Qed.
