(* ===== verification/UrlParse.v ===== *)
(** * [urllib.parse]: [urlsplit], [urlparse], [urlunparse]

    CPython 3.11 (Lib/urllib/parse.py, from 3.11.4 on, which strips
    leading control characters and spaces) restricted to [str]
    arguments.  The plugin calls [urlparse] on the artifact URI
    ([parse_artifactory_uri]) and [urlparse(...).geturl()] on the
    repository name read from the environment ([__init__]).

    Not modelled: the IDNA/NFKC check of a non-ASCII netloc
    ([_checknetloc]) and the [ipaddress] validation of a bracketed host
    ([_check_bracketed_host]); only the unbalanced-bracket [ValueError]
    is.  The theorems about URLs assume netlocs without brackets. *)

From S2P Require Import Prelude PyStr.
From Stdlib Require Import Ascii.

Record SplitResult := {
  sr_scheme : string; sr_netloc : string; sr_path : string;
  sr_query : string; sr_fragment : string }.

Record ParseResult := {
  pr_scheme : string; pr_netloc : string; pr_path : string;
  pr_params : string; pr_query : string; pr_fragment : string }.

(** [_WHATWG_C0_CONTROL_OR_SPACE]: the characters [\x00] to [\x20]. *)
Definition is_c0_or_space (c : ascii) : bool := nat_of_ascii c <=? 32.

(** [_UNSAFE_URL_BYTES_TO_REMOVE = ['\t', '\r', '\n']] *)
Definition is_unsafe_url_byte (c : ascii) : bool :=
  let n := nat_of_ascii c in (n =? 9) || (n =? 13) || (n =? 10).

Definition is_ascii_alpha (c : ascii) : bool :=
  let n := nat_of_ascii c in ((65 <=? n) && (n <=? 90)) || ((97 <=? n) && (n <=? 122)).

Definition is_ascii_digit (c : ascii) : bool :=
  let n := nat_of_ascii c in (48 <=? n) && (n <=? 57).

(** [scheme_chars]: letters, digits and ["+-."]. *)
Definition is_scheme_char (c : ascii) : bool :=
  is_ascii_alpha c || is_ascii_digit c || Ascii.eqb c "+" || Ascii.eqb c "-" || Ascii.eqb c ".".

Definition uses_params : list string :=
  [""; "ftp"; "hdl"; "prospero"; "http"; "imap"; "https"; "shttp"; "rtsp";
   "rtspu"; "sip"; "sips"; "mms"; "sftp"; "tel"].

Definition uses_netloc : list string :=
  [""; "ftp"; "http"; "gopher"; "nntp"; "telnet"; "imap"; "wais"; "file";
   "mms"; "https"; "shttp"; "snews"; "prospero"; "rtsp"; "rtspu"; "rsync";
   "svn"; "svn+ssh"; "sftp"; "nfs"; "git"; "git+ssh"; "ws"; "wss"].

Definition mem_str (x : string) (l : list string) : bool := existsb (String.eqb x) l.

(** First index of a character satisfying [p]. *)
Fixpoint str_find_p (p : ascii -> bool) (s : string) : option nat :=
  match s with
  | EmptyString => None
  | String d t => if p d then Some 0 else S <$> str_find_p p t
  end.

(** The scheme test of [urlsplit]: [i = url.find(':')], [i > 0],
    [url[0]] an ASCII letter, every character of [url[:i]] a scheme
    character. *)
Definition split_scheme (url : string) : string * string :=
  match str_find ":" url, url with
  | Some (S i), String c0 _ =>
      if is_ascii_alpha c0 && str_all is_scheme_char (str_take (S i) url)
      then (str_lower (str_take (S i) url), str_drop (S (S i)) url)
      else ("", url)
  | _, _ => ("", url)
  end.

(** [_splitnetloc(url, 2)] on a url starting with ["//"]. *)
Definition split_netloc (rest : string) : string * string :=
  match str_find_p (fun c => Ascii.eqb c "/" || Ascii.eqb c "?" || Ascii.eqb c "#") rest with
  | Some d => (str_take d rest, str_drop d rest)
  | None => (rest, "")
  end.

Definition urlsplit (url0 : string) : py_exn + SplitResult :=
  let url1 := str_remove is_unsafe_url_byte (str_lstrip is_c0_or_space url0) in
  let '(scheme, url2) := split_scheme url1 in
  let '(netloc, url3) :=
    if startswith url2 "//" then split_netloc (str_drop 2 url2) else ("", url2) in
  if (str_contains "[" netloc && negb (str_contains "]" netloc)) ||
     (str_contains "]" netloc && negb (str_contains "[" netloc))
  then inl (ValueError "Invalid IPv6 URL")
  else
    let '(url4, fragment) := default (url3, "") (str_split_once "#" url3) in
    let '(url5, query) := default (url4, "") (str_split_once "?" url4) in
    inr {| sr_scheme := scheme; sr_netloc := netloc; sr_path := url5;
           sr_query := query; sr_fragment := fragment |}.

(** [_splitparams(url)] *)
Definition splitparams (url : string) : string * string :=
  let i := match str_rfind "/" url with
           | Some j => (fun k => j + k) <$> str_find ";" (str_drop j url)
           | None => str_find ";" url
           end in
  match i with
  | Some i => (str_take i url, str_drop (S i) url)
  | None => (url, "")
  end.

Definition urlparse (url : string) : py_exn + ParseResult :=
  match urlsplit url with
  | inl e => inl e
  | inr r =>
      let '(path, params) :=
        if mem_str (sr_scheme r) uses_params && str_contains ";" (sr_path r)
        then splitparams (sr_path r) else (sr_path r, "") in
      inr {| pr_scheme := sr_scheme r; pr_netloc := sr_netloc r; pr_path := path;
             pr_params := params; pr_query := sr_query r; pr_fragment := sr_fragment r |}
  end.

(** [urlparse(None)]: [_coerce_args] decodes the falsy [None] to the
    empty string and the result is the all-empty [ParseResultBytes]. *)
Definition urlparse_opt (url : option string) : py_exn + ParseResult :=
  match url with Some u => urlparse u | None => urlparse "" end.

Definition urlunsplit (r : SplitResult) : string :=
  let scheme := sr_scheme r in
  let url := sr_path r in
  let url :=
    if str_truthy (sr_netloc r) ||
       (str_truthy scheme && mem_str scheme uses_netloc && negb (startswith url "//"))
    then "//" +:+ sr_netloc r +:+
         (if str_truthy url && negb (startswith url "/") then "/" +:+ url else url)
    else url in
  let url := if str_truthy scheme then scheme +:+ ":" +:+ url else url in
  let url := if str_truthy (sr_query r) then url +:+ "?" +:+ sr_query r else url in
  if str_truthy (sr_fragment r) then url +:+ "#" +:+ sr_fragment r else url.

Definition urlunparse (r : ParseResult) : string :=
  let path := if str_truthy (pr_params r) then pr_path r +:+ ";" +:+ pr_params r else pr_path r in
  urlunsplit {| sr_scheme := pr_scheme r; sr_netloc := pr_netloc r; sr_path := path;
                sr_query := pr_query r; sr_fragment := pr_fragment r |}.

(** [ParseResult.geturl()] *)
Definition geturl (r : ParseResult) : string := urlunparse r.

(** ** Lemmas *)

Lemma str_find_p_app p s t :
  str_find_p p (s +:+ t) =
  match str_find_p p s with Some i => Some i | None => (fun k => String.length s + k) <$> str_find_p p t end.
Proof.
  induction s as [|c s IH].
  - rewrite str_append_nil_l. simpl. by destruct (str_find_p p t).
  - rewrite str_append_cons; simpl. destruct (p c); [done|].
    rewrite IH. by destruct (str_find_p p s), (str_find_p p t).
Qed.

Lemma str_find_p_none p s : str_all (fun c => negb (p c)) s = true -> str_find_p p s = None.
Proof.
  induction s as [|c s IH]; [done|]. simpl. intros [Hc Hs]%andb_prop.
  apply negb_true_iff in Hc. by rewrite Hc, IH.
Qed.

Definition netloc_delim (c : ascii) : bool := Ascii.eqb c "/" || Ascii.eqb c "?" || Ascii.eqb c "#".

(** The authority of [//host/path] is [host] when [host] has no
    delimiter and [path] is empty or absolute. *)
Lemma split_netloc_host host path :
  str_all (fun c => negb (netloc_delim c)) host = true ->
  (path = "" \/ startswith path "/" = true) ->
  split_netloc (host +:+ path) = (host, path).
Proof.
  intros Hh Hp. unfold split_netloc. fold netloc_delim.
  rewrite str_find_p_app, str_find_p_none by done.
  destruct Hp as [->|Hp].
  - simpl. by rewrite str_append_nil_r.
  - destruct path as [|c t]; [discriminate Hp|]. apply startswith_char in Hp as ->. simpl.
    rewrite Nat.add_0_r, str_take_app, str_drop_app. done.
Qed.

Definition host_char (c : ascii) : bool :=
  negb (is_unsafe_url_byte c) && negb (netloc_delim c) && negb (Ascii.eqb c "[") && negb (Ascii.eqb c "]").

Definition path_char (c : ascii) : bool :=
  negb (is_unsafe_url_byte c) && negb (Ascii.eqb c "?") && negb (Ascii.eqb c "#").

(** The scheme prefix [artifactory://] passes the control-character
    stripping unchanged and is recognised as a scheme. *)
Lemma urlsplit_artifactory_prefix x :
  str_remove is_unsafe_url_byte (str_lstrip is_c0_or_space ("artifactory://" +:+ x)) =
  "artifactory://" +:+ str_remove is_unsafe_url_byte x.
Proof. reflexivity. Qed.

Lemma split_scheme_artifactory x :
  split_scheme ("artifactory://" +:+ x) = ("artifactory", "//" +:+ x).
Proof. reflexivity. Qed.

Lemma str_all_host_netloc host :
  str_all host_char host = true -> str_all (fun c => negb (netloc_delim c)) host = true.
Proof. apply str_all_impl. unfold host_char. intros c Hc. by split_andb. Qed.

Lemma host_no_brackets host :
  str_all host_char host = true -> str_contains "[" host = false /\ str_contains "]" host = false.
Proof.
  intros H. split; apply str_contains_all; revert H; apply str_all_impl; unfold host_char;
    intros c Hc; split_andb; by rewrite Ascii.eqb_sym.
Qed.

Lemma url_chars_no_unsafe host path :
  str_all host_char host = true -> str_all path_char path = true ->
  str_all (fun c => negb (is_unsafe_url_byte c)) (host +:+ path) = true.
Proof.
  intros Hh Hp. rewrite str_all_app. apply andb_true_intro. split.
  - revert Hh; apply str_all_impl; unfold host_char; intros c Hc; by split_andb.
  - revert Hp; apply str_all_impl; unfold path_char; intros c Hc; by split_andb.
Qed.

Lemma path_no_query_fragment path :
  str_all path_char path = true ->
  str_split_once "#" path = None /\ str_split_once "?" path = None.
Proof.
  intros H. split; apply str_split_once_none; revert H; apply str_all_impl; unfold path_char;
    intros c Hc; split_andb; by rewrite Ascii.eqb_sym.
Qed.

(** [urlparse("artifactory://" + host + path)] splits off [host] as the
    netloc and [path] as the path, with no params, query or fragment. *)
Lemma urlparse_artifactory host path :
  str_all host_char host = true -> str_all path_char path = true ->
  (path = "" \/ startswith path "/" = true) ->
  urlparse ("artifactory://" +:+ host +:+ path) =
    inr {| pr_scheme := "artifactory"; pr_netloc := host; pr_path := path;
           pr_params := ""; pr_query := ""; pr_fragment := "" |}.
Proof.
  intros Hh Hp Hpath. unfold urlparse, urlsplit.
  rewrite urlsplit_artifactory_prefix, str_remove_id by (by apply url_chars_no_unsafe).
  rewrite split_scheme_artifactory.
  change (startswith ("//" +:+ host +:+ path) "//") with true.
  change (str_drop 2 ("//" +:+ host +:+ path)) with (host +:+ path).
  cbv iota beta. rewrite split_netloc_host by auto using str_all_host_netloc.
  destruct (host_no_brackets host Hh) as [-> ->].
  destruct (path_no_query_fragment path Hp) as [Hf Hq].
  cbv iota beta. rewrite Hf. cbv iota beta zeta delta [default]. rewrite Hq.
  reflexivity.
Qed.

(** A character of a plain name: printable, and none of the characters
    [urlsplit] gives a meaning to. *)
Definition plain_url_char (c : ascii) : bool :=
  (32 <? nat_of_ascii c) && negb (Ascii.eqb c ":") && negb (Ascii.eqb c "/") &&
  negb (Ascii.eqb c "?") && negb (Ascii.eqb c "#") && negb (Ascii.eqb c ";") &&
  negb (Ascii.eqb c "[") && negb (Ascii.eqb c "]").

Lemma plain_url_char_not (c d : ascii) s :
  In d [":"; "/"; "?"; "#"; ";"; "["; "]"]%char ->
  str_all plain_url_char s = true -> str_all (fun x => negb (Ascii.eqb d x)) s = true.
Proof.
  intros Hd. apply str_all_impl. intros x Hx. unfold plain_url_char in Hx. split_andb.
  rewrite Ascii.eqb_sym. simpl in Hd; intuition subst; assumption.
Qed.

Lemma plain_url_char_sym (d : ascii) s :
  str_all (fun x => negb (Ascii.eqb d x)) s = true -> str_all (fun x => negb (Ascii.eqb x d)) s = true.
Proof. apply str_all_impl. intros x. by rewrite Ascii.eqb_sym. Qed.

Lemma plain_url_char_gt c : plain_url_char c = true -> 32 < nat_of_ascii c.
Proof.
  unfold plain_url_char. destruct (Nat.ltb_spec 32 (nat_of_ascii c)) as [H|H]; [done|].
  intros Hc; discriminate Hc.
Qed.

Lemma plain_url_char_ctrl s :
  str_all plain_url_char s = true ->
  str_all (fun c => negb (is_c0_or_space c)) s = true /\
  str_all (fun c => negb (is_unsafe_url_byte c)) s = true.
Proof.
  intros H. split; revert H; apply str_all_impl; intros c Hc%plain_url_char_gt;
    unfold is_c0_or_space, is_unsafe_url_byte; apply negb_true_iff.
  - apply Nat.leb_gt. lia.
  - rewrite !orb_false_iff; repeat split; apply Nat.eqb_neq; lia.
Qed.

(** A repository name made of plain characters survives
    [urlparse(name).geturl()] unchanged. *)
Lemma geturl_urlparse_plain s :
  str_all plain_url_char s = true ->
  exists r, urlparse s = inr r /\ geturl r = s.
Proof.
  intros Hs. destruct (plain_url_char_ctrl s Hs) as [Hc Hu].
  assert (forall d, In d [":"; "/"; "?"; "#"; ";"; "["; "]"]%char ->
            str_all (fun x => negb (Ascii.eqb d x)) s = true) as Hn
    by (intros d Hd; by apply plain_url_char_not).
  unfold urlparse, urlsplit. rewrite str_lstrip_id, str_remove_id by done.
  unfold split_scheme. rewrite str_find_none_all by (apply Hn; simpl; tauto).
  cbv iota beta.
  rewrite startswith_not_char by (apply plain_url_char_sym, Hn; simpl; tauto).
  cbv iota beta. change (str_contains "[" "") with false. change (str_contains "]" "") with false.
  assert (str_split_once "#" s = None) as Hf by (apply str_split_once_none, Hn; simpl; tauto).
  assert (str_split_once "?" s = None) as Hq by (apply str_split_once_none, Hn; simpl; tauto).
  assert (str_contains ";" s = false) as Hsc by (apply str_contains_all, Hn; simpl; tauto).
  rewrite Hf. cbv iota beta zeta delta [default id andb orb negb].
  rewrite Hq. cbv iota beta zeta delta [default id].
  cbv iota beta zeta delta [sr_scheme sr_netloc sr_path sr_query sr_fragment].
  change (mem_str "" uses_params) with true. rewrite Hsc.
  eexists; split; [reflexivity|].
  unfold geturl, urlunparse, urlunsplit. simpl. reflexivity.
Qed.

(** [urlsplit] raises only its [ValueError] for an unbalanced bracket. *)
Lemma urlsplit_exn url e : urlsplit url = inl e -> e = ValueError "Invalid IPv6 URL".
Proof.
  unfold urlsplit. by repeat case_match; intros [= <-].
Qed.

Lemma urlparse_exn url e : urlparse url = inl e -> e = ValueError "Invalid IPv6 URL".
Proof.
  unfold urlparse. destruct (urlsplit url) as [e'|r] eqn:E; [intros [= <-]; by apply (urlsplit_exn url)|].
  by case_match.
Qed.
