(* ===== verification/ArtifactoryUri.v ===== *)
(** * URI resolver: [JFrogArtifactRepository.parse_artifactory_uri]

    The static method that splits the repository's artifact URI
    [artifactory://<netloc>/<path>] into the netloc and the path with
    one leading slash removed (jfrog_artifact_repository.py, lines
    46-55).  Every operation of the plugin starts with this call. *)

From S2P Require Import Prelude PyStr UrlParse.

Module UriResolver.

(** [path = parsed.path; if path.startswith("/"): path = path[1:]] *)
Definition strip_leading_slash (path : string) : string :=
  if startswith path "/" then str_drop 1 path else path.

(** [parse_artifactory_uri(uri)] *)
Definition parse_artifactory_uri (uri : string) : py_exn + (string * string) :=
  match urlparse uri with
  | inl e => inl e
  | inr parsed =>
      if negb (String.eqb (pr_scheme parsed) "artifactory")
      then inl (Exception ("Not an artifactory URI: " +:+ uri))
      else
        inr (pr_netloc parsed, strip_leading_slash (pr_path parsed))
  end.

(** ** Properties *)

(** C7: parse_artifactory_uri('artifactory://host/path') returns (host, path): the netloc and the
    path without its leading slash. *)
Theorem parse_artifactory_uri_ok host path :
  str_all host_char host = true -> str_all path_char path = true ->
  parse_artifactory_uri ("artifactory://" +:+ host +:+ "/" +:+ path) = inr (host, path).
Proof.
  intros Hh Hp. unfold parse_artifactory_uri.
  rewrite urlparse_artifactory by (try done; right; reflexivity).
  reflexivity.
Qed.


Lemma parse_artifactory_uri_ok_witness :
  parse_artifactory_uri "artifactory://h/runs/1" = inr ("h", "runs/1").
Proof. exact (parse_artifactory_uri_ok "h" "runs/1" eq_refl eq_refl). Defined.

(** An empty path gives the empty path segment. *)
Theorem parse_artifactory_uri_no_path host :
  str_all host_char host = true ->
  parse_artifactory_uri ("artifactory://" +:+ host) = inr (host, "").
Proof.
  intros Hh. unfold parse_artifactory_uri.
  rewrite <- (str_append_nil_r host) at 1.
  rewrite urlparse_artifactory by (try done; left; reflexivity).
  reflexivity.
Qed.

(** C32: parse_artifactory_uri of a URI whose scheme is not artifactory raises Exception('Not an
    artifactory URI: ' + uri). *)
Theorem parse_artifactory_uri_other_scheme uri r :
  urlparse uri = inr r -> pr_scheme r <> "artifactory" ->
  parse_artifactory_uri uri = inl (Exception ("Not an artifactory URI: " +:+ uri)).
Proof.
  intros Hr Hs. unfold parse_artifactory_uri. rewrite Hr.
  by destruct (String.eqb_spec (pr_scheme r) "artifactory").
Qed.

Lemma parse_artifactory_uri_other_scheme_witness :
  parse_artifactory_uri "s3://bucket/key" = inl (Exception ("Not an artifactory URI: " +:+ "s3://bucket/key")).
Proof.
  refine (parse_artifactory_uri_other_scheme "s3://bucket/key" _ eq_refl _). vm_compute. discriminate.
Defined.

(** parse_artifactory_uri removes only one leading slash: artifactory://host//runs/1 gives the
    path /runs/1. *)
Example parse_artifactory_uri_double_slash :
  parse_artifactory_uri "artifactory://host//runs/1" = inr ("host", "/runs/1").
Proof. reflexivity. Qed.

(** The scheme is compared after [urlsplit] lower-cases it. *)
Example parse_artifactory_uri_upper_scheme :
  parse_artifactory_uri "ARTIFACTORY://host/runs" = inr ("host", "runs").
Proof. reflexivity. Qed.

(** The only exceptions are [urlparse]'s and the foreign scheme's. *)
Lemma parse_artifactory_uri_exn uri e : parse_artifactory_uri uri = inl e -> e <> RecursionError.
Proof.
  unfold parse_artifactory_uri. destruct (urlparse uri) as [e'|p] eqn:E.
  - intros [= <-]. by rewrite (urlparse_exn uri e' E).
  - by case_match; intros [= <-].
Qed.

End UriResolver.
