(* ===== verification/PyInt.v ===== *)
(** * Python [int(s)] and [str(n)] in base 10

    [int(r_file["size"])] in [_list_files] (line 142) converts the size
    that the server's file info reports as a JSON string.  CPython's
    [int(str)] strips whitespace, accepts one sign, decimal digits and
    single underscores between digits, and raises [ValueError]
    otherwise.  [str(n)] of an integer is stdpp's [pretty] on [Z]
    (decimal digits with a leading [-] for negatives). *)

From S2P Require Import Prelude PyStr.
From Stdlib Require Import Ascii.

(** Whitespace as CPython's [int()] sees it on 8-bit strings:
    [\t\n\v\f\r], [\x1c-\x1f], space, [\x85] and [\xa0]. *)
Definition py_space (c : ascii) : bool :=
  let n := nat_of_ascii c in
  ((9 <=? n) && (n <=? 13)) || ((28 <=? n) && (n <=? 32)) || (n =? 133) || (n =? 160).

Definition digit_value (c : ascii) : option Z :=
  let n := nat_of_ascii c in
  if (48 <=? n) && (n <=? 57) then Some (Z.of_nat (n - 48)) else None.

(** The digits after the sign: [b] is true at the start and after an
    underscore, where a digit must follow. *)
Fixpoint parse_digits (acc : Z) (b : bool) (s : string) : option Z :=
  match s with
  | EmptyString => if b then None else Some acc
  | String c r =>
      match digit_value c with
      | Some d => parse_digits (acc * 10 + d) false r
      | None => if Ascii.eqb c "_" && negb b then parse_digits acc true r else None
      end
  end.

(** [int(s)] *)
Definition py_int (s : string) : py_exn + Z :=
  let t := str_rstrip py_space (str_lstrip py_space s) in
  let '(neg, body) :=
    match t with
    | String c r =>
        if Ascii.eqb c "-" then (true, r) else if Ascii.eqb c "+" then (false, r) else (false, t)
    | EmptyString => (false, t)
    end in
  match parse_digits 0 true body with
  | Some n => inr (if neg then Z.opp n else n)
  | None => inl (ValueError ("invalid literal for int() with base 10: " +:+ s))
  end.

(** [str(n)] *)
Definition py_str_int (n : Z) : string := pretty n.

Example py_int_examples :
  py_int " 120 " = inr 120%Z /\ py_int "1_000" = inr 1000%Z /\ py_int "-5" = inr (-5)%Z /\
  py_int "+007" = inr 7%Z /\ py_int "12.5" = inl (ValueError "invalid literal for int() with base 10: 12.5") /\
  py_int "_1" = inl (ValueError "invalid literal for int() with base 10: _1") /\
  py_int "" = inl (ValueError "invalid literal for int() with base 10: ").
Proof. vm_compute. repeat split. Qed.

(** ** Round trip *)

Lemma digit_value_pretty d : (d < 10)%N -> digit_value (pretty_N_char d) = Some (Z.of_N d).
Proof.
  intros Hd.
  assert (d = 0 \/ d = 1 \/ d = 2 \/ d = 3 \/ d = 4 \/ d = 5 \/ d = 6 \/ d = 7 \/ d = 8 \/ d = 9)%N
    as Hcases by lia.
  by repeat destruct Hcases as [-> | Hcases]; [..| subst].
Qed.

(** Parsing the digits that [pretty_N_go] puts in front of [s]. *)
Lemma parse_digits_pretty_go x s :
  (0 < x)%N ->
  exists k : nat, forall acc b,
    parse_digits acc b (pretty_N_go x s) = parse_digits (acc * 10 ^ Z.of_nat k + Z.of_N x) false s.
Proof.
  revert s. induction (N.lt_wf_0 x) as [x _ IH]; intros s Hx.
  rewrite pretty_N_go_step by done.
  destruct (N.eq_dec (x `div` 10) 0) as [Hq|Hq%N.neq_0_lt_0].
  - exists 1. intros acc b. rewrite Hq, pretty_N_go_0. simpl.
    rewrite digit_value_pretty by (apply N.mod_lt; lia).
    f_equal. assert (Z.of_N x = Z.of_N (x `mod` 10)) as -> by (pose proof (N.div_mod x 10); lia).
    simpl. lia.
  - destruct (IH (x `div` 10)%N ltac:(apply N.div_lt; lia)
                (String (pretty_N_char (x `mod` 10)) s) Hq) as [k Hk].
    exists (S k). intros acc b. rewrite Hk. simpl.
    rewrite digit_value_pretty by (apply N.mod_lt; lia).
    f_equal. rewrite Nat2Z.inj_succ, Z.pow_succ_r by lia.
    assert (Z.of_N x = Z.of_N (x `div` 10) * 10 + Z.of_N (x `mod` 10))%Z as ->
      by (pose proof (N.div_mod x 10); lia).
    ring.
Qed.

Definition is_digit (c : ascii) : bool := if digit_value c is Some _ then true else false.

Lemma pretty_N_go_all (p : ascii -> bool) x s :
  (forall d, (d < 10)%N -> p (pretty_N_char d) = true) ->
  str_all p s = true -> str_all p (pretty_N_go x s) = true.
Proof.
  intros Hd. revert s. induction (N.lt_wf_0 x) as [x _ IH]; intros s Hs.
  destruct (N.eq_dec x 0) as [->|Hx]; [by rewrite pretty_N_go_0|].
  rewrite pretty_N_go_step by lia. apply IH; [apply N.div_lt; lia|].
  simpl. rewrite Hd by (apply N.mod_lt; lia). done.
Qed.

Lemma pretty_N_pos p : pretty (Npos p) = pretty_N_go (Npos p) "".
Proof. unfold pretty, pretty_N. by rewrite decide_False. Qed.

Lemma pretty_digits_ok (p : ascii -> bool) d :
  (d < 10)%N -> (forall c, is_digit c = true -> p c = true) -> p (pretty_N_char d) = true.
Proof. intros Hd Hp. apply Hp. unfold is_digit. by rewrite digit_value_pretty. Qed.

Lemma digit_not_space c : is_digit c = true -> negb (py_space c) = true.
Proof.
  unfold is_digit, digit_value, py_space. destruct (_ && _) eqn:E; [|done].
  intros _. apply andb_prop in E as [E1 E2]. apply Nat.leb_le in E1, E2.
  apply negb_true_iff. rewrite !orb_false_iff. repeat split.
  - apply andb_false_iff. right. apply Nat.leb_gt. lia.
  - apply andb_false_iff. right. apply Nat.leb_gt. lia.
  - apply Nat.eqb_neq. lia.
  - apply Nat.eqb_neq. lia.
Qed.

(** The decimal body of a positive number parses back to the number. *)
Lemma parse_digits_pretty_pos p : parse_digits 0 true (pretty_N_go (Npos p) "") = Some (Zpos p).
Proof.
  destruct (parse_digits_pretty_go (Npos p) "" ltac:(lia)) as [k Hk].
  rewrite Hk. reflexivity.
Qed.

Lemma pretty_N_go_pos_head p :
  exists c r, pretty_N_go (Npos p) "" = String c r /\ is_digit c = true.
Proof.
  assert (str_all is_digit (pretty_N_go (Npos p) "") = true) as Hall.
  { apply pretty_N_go_all; [|done]. intros d Hd. unfold is_digit. by rewrite digit_value_pretty. }
  pose proof (parse_digits_pretty_pos p) as H.
  destruct (pretty_N_go (Npos p) "") as [|c r] eqn:E; [discriminate H|].
  exists c, r. split; [done|]. simpl in Hall. by apply andb_prop in Hall as [? _].
Qed.

Lemma digit_not_sign c : is_digit c = true -> Ascii.eqb c "-" = false /\ Ascii.eqb c "+" = false.
Proof.
  intros Hc. split; [destruct (Ascii.eqb_spec c "-")|destruct (Ascii.eqb_spec c "+")];
    subst; [discriminate Hc|done|discriminate Hc|done].
Qed.

(** [int(str(n)) == n] for every integer [n]. *)
Lemma py_int_pretty n : py_int (py_str_int n) = inr n.
Proof.
  assert (forall p, str_all (fun c => negb (py_space c)) (pretty_N_go (Npos p) "") = true) as Hns.
  { intros p. apply pretty_N_go_all; [|done]. intros d Hd.
    apply digit_not_space. unfold is_digit. by rewrite digit_value_pretty. }
  unfold py_int, py_str_int. destruct n as [|p|p]; [reflexivity| |].
  - change (pretty (Zpos p)) with (pretty (Npos p)). rewrite pretty_N_pos.
    rewrite str_lstrip_id, str_rstrip_id by apply Hns.
    destruct (pretty_N_go_pos_head p) as (c & r & Hcr & Hc).
    rewrite Hcr. destruct (digit_not_sign c Hc) as [-> ->]. cbv iota beta.
    rewrite <- Hcr, parse_digits_pretty_pos. reflexivity.
  - change (pretty (Zneg p)) with ("-" +:+ pretty (Npos p)). rewrite pretty_N_pos.
    rewrite str_lstrip_id, str_rstrip_id by (simpl; apply Hns).
    rewrite str_append_cons, str_append_nil_l. cbv beta iota. rewrite Ascii.eqb_refl.
    rewrite parse_digits_pretty_pos. reflexivity.
Qed.

(** [int(str(n)) == n] for every integer [n]. *)
Theorem py_int_str n : py_int (py_str_int n) = inr n.
Proof. apply py_int_pretty. Qed.
