(* ===== verification/PySort.v ===== *)
(** * Python [sorted(xs, key=f)] on string keys

    [list_artifacts] returns [sorted(infos, key=lambda f: f.path)]
    (line 121).  CPython's sort is stable and compares [str] keys by
    code point, which on 8-bit strings is [String.leb].  The model is a
    stable insertion sort; the theorems show it sorts, permutes, keeps
    the relative order of equal keys, and is the only list with the
    first two properties when the keys are distinct (so any stable sort
    gives the same result). *)

From S2P Require Import Prelude.
From stdpp Require Import sorting.

Section PySorted.
Context {A : Type} (key : A -> string).

(** Insert [x] before the first element whose key is not smaller. *)
Fixpoint insert_by (x : A) (l : list A) : list A :=
  match l with
  | [] => [x]
  | y :: l' => if String.leb (key x) (key y) then x :: y :: l' else y :: insert_by x l'
  end.

(** [sorted(l, key=key)] *)
Fixpoint py_sorted (l : list A) : list A :=
  match l with
  | [] => []
  | x :: l' => insert_by x (py_sorted l')
  end.

Definition key_le (x y : A) : Prop := String.le (key x) (key y).

#[local] Instance key_le_trans : Transitive key_le.
Proof. intros x y z. unfold key_le. apply (transitivity (R:=String.le)). Qed.

Lemma insert_by_perm x l : insert_by x l ≡ₚ x :: l.
Proof.
  induction l as [|y l IH]; simpl; [done|].
  destruct (String.leb _ _); [done|]. rewrite IH. constructor.
Qed.

(** The result is a permutation of the input. *)
Lemma py_sorted_perm l : py_sorted l ≡ₚ l.
Proof. induction l as [|x l IH]; simpl; [done|]. by rewrite insert_by_perm, IH. Qed.

Lemma key_le_total x y : key_le x y \/ key_le y x.
Proof. unfold key_le. destruct (total String.le (key x) (key y)); auto. Qed.

Lemma key_le_leb x y : String.leb (key x) (key y) = false -> key_le y x.
Proof.
  intros H. unfold key_le, String.le. destruct (String.leb_total (key x) (key y)) as [H'|H'].
  - by rewrite H in H'.
  - by rewrite H'.
Qed.

Lemma insert_by_sorted x l : Sorted key_le l -> Sorted key_le (insert_by x l).
Proof.
  induction 1 as [|y l Hl IH Hhd]; simpl; [by repeat constructor|].
  destruct (String.leb (key x) (key y)) eqn:E.
  - constructor; [by constructor|]. constructor. unfold key_le, String.le. by rewrite E.
  - constructor; [done|]. apply key_le_leb in E.
    destruct l as [|z l]; simpl; [by constructor|].
    inversion Hhd; subst. destruct (String.leb (key x) (key z)); by constructor.
Qed.

(** The result is sorted by key. *)
Lemma py_sorted_sorted l : Sorted key_le (py_sorted l).
Proof. induction l; simpl; [constructor|]. by apply insert_by_sorted. Qed.

(** With distinct keys, the sorted permutation is unique. *)
Lemma py_sorted_unique l l' :
  (forall x y, x ∈ l -> y ∈ l -> key x = key y -> x = y) ->
  Sorted key_le l' -> l' ≡ₚ l -> l' = py_sorted l.
Proof.
  intros Hinj Hs Hp. apply (Sorted_unique_strong key_le); [|done|apply py_sorted_sorted|].
  - intros x1 x2 Hx1 Hx2 H12 H21. apply Hinj.
    + by rewrite <- Hp.
    + by rewrite <- (py_sorted_perm l).
    + unfold key_le, String.le in *. apply String.leb_antisym; by apply Is_true_true.
  - by rewrite py_sorted_perm.
Qed.

(** Stability: the elements with one key keep their input order. *)
Lemma insert_by_filter k x l :
  Sorted key_le l ->
  List.filter (fun y => String.eqb (key y) k) (insert_by x l) =
  List.filter (fun y => String.eqb (key y) k) (x :: l).
Proof.
  induction 1 as [|y l Hl IH Hhd]; simpl; [done|].
  destruct (String.leb (key x) (key y)) eqn:E; [done|]. simpl. rewrite IH. simpl.
  destruct (String.eqb_spec (key x) k), (String.eqb_spec (key y) k); try done.
  exfalso. subst. rewrite <- e0 in E.
  pose proof (reflexivity (R:=String.le) (key y)) as Hr. unfold String.le in Hr.
  by rewrite E in Hr.
Qed.

Lemma py_sorted_stable k l :
  List.filter (fun y => String.eqb (key y) k) (py_sorted l) = List.filter (fun y => String.eqb (key y) k) l.
Proof.
  induction l as [|x l IH]; simpl; [done|].
  rewrite insert_by_filter by apply py_sorted_sorted. simpl. by rewrite IH.
Qed.

End PySorted.
