(* ===== verification/LocalFS.v ===== *)
(** * The local file system

    What the plugin does to local files: [Path(p).is_file()] (line 68),
    [Path(d).glob("**/*")] and [is_file()] (lines 82, 93-94), the read
    of a local file by the REST client's deploy, [os.makedirs(d,
    exist_ok=True)] (line 153) and [open(p, "wb").write(b)] (lines
    156-157), and [os.path.exists] and [os.path.isdir], which MLflow's
    download calls before it.  The file system is a finite map from a path, as the list
    of its components, to a file (its bytes) or a directory; the root
    [[]] is a directory and is not stored.  A path string is read with
    [segs] (empty and ["."] components dropped, [".."] removing the
    previous one), relative paths against the root.  Not modelled:
    permissions, symbolic links, file modes. *)

From S2P Require Import Prelude PyStr PosixPath.

Inductive lnode := LFile (content : bytes) | LDir.

#[export] Instance lnode_eq_dec : EqDecision lnode.
Proof. solve_decision. Defined.

Abbreviation fs := (gmap (list string) lnode).

(** [k] names a directory: the root or a stored directory. *)
Definition is_dir_k (m : fs) (k : list string) : bool :=
  match k with [] => true | _ => bool_decide (m !! k = Some LDir) end.

(** [Path(p).is_file()] *)
Definition is_file (m : fs) (p : string) : bool :=
  if m !! segs p is Some (LFile _) then true else false.

(** [open(p, "rb").read()], as the REST client reads the file it deploys. *)
Definition read_file (m : fs) (p : string) : py_exn + bytes :=
  match segs p with
  | [] => inl (IsADirectoryError p)
  | k => match m !! k with
         | Some (LFile c) => inr c
         | Some LDir => inl (IsADirectoryError p)
         | None => inl (FileNotFoundError p)
         end
  end.

(** The prefixes of [k] of length 1 to [length k], shortest first. *)
Definition nonempty_prefixes (k : list string) : list (list string) :=
  (fun n => take n k) <$> seq 1 (length k).

(** [mkdir] of one prefix [q] of the target [k] inside [os.makedirs]. *)
Definition mkdir_step (p : string) (k : list string) (q : list string) : PyM fs py_exn unit :=
  fun m =>
    match m !! q with
    | Some LDir => (inr tt, m)
    | Some (LFile _) =>
        (inl (if decide (q = k) then FileExistsError p else NotADirectoryError p), m)
    | None => (inr tt, <[q := LDir]> m)
    end.

(** [os.makedirs(p, exist_ok=True)]: [mkdir('')] fails; otherwise each
    missing ancestor and the target are created in turn, and an
    existing file on the way stops the call. *)
Definition makedirs (p : string) : PyM fs py_exn unit :=
  if negb (str_truthy p) then py_raise (FileNotFoundError p)
  else let k := segs p in py_for (nonempty_prefixes k) (mkdir_step p k).

(** [with open(p, "wb") as f: f.write(b)] *)
Definition write_file (p : string) (b : bytes) : PyM fs py_exn unit :=
  fun m =>
    match segs p with
    | [] => (inl (IsADirectoryError p), m)
    | k =>
        let parent := removelast k in
        if m !! k is Some LDir then (inl (IsADirectoryError p), m)
        else if is_dir_k m parent then (inr tt, <[k := LFile b]> m)
        else if m !! parent is Some (LFile _) then (inl (NotADirectoryError p), m)
        else (inl (FileNotFoundError p), m)
    end.

(** [os.path.exists(p)]: [os.stat(p)] succeeds; [''] names nothing. *)
Definition path_exists (m : fs) (p : string) : bool :=
  str_truthy p && (if segs p is [] then true else bool_decide (is_Some (m !! segs p))).

(** [os.path.isdir(p)] *)
Definition path_isdir (m : fs) (p : string) : bool :=
  str_truthy p && is_dir_k m (segs p).

(** The entries below directory [k]: the keys that extend it. *)
Definition descendants (m : fs) (k : list string) : list (list string) :=
  List.filter (fun k' => bool_decide (k `prefix_of` k' /\ k <> k')) (map fst (map_to_list m)).

(** [Path(d).glob("**/*")] yields every entry below [d] (hidden ones
    included), in an order the file system chooses; nothing when [d]
    is not a directory.  The enumerations it can produce are the
    permutations of [glob_all]. *)
Definition glob_all (m : fs) (d : string) : list (list string) :=
  if is_dir_k m (segs d) then descendants m (segs d) else [].

Definition glob_order (m : fs) (d : string) (order : list (list string)) : Prop :=
  order ≡ₚ glob_all m d.

(** The files below [d], which [log_artifacts] deploys. *)
Definition files_below (m : fs) (d : string) : list (list string) :=
  List.filter (fun k => if m !! k is Some (LFile _) then true else false) (glob_all m d).

(** ** Lemmas *)

Definition no_file_at (m : fs) (q : list string) : Prop := forall c, m !! q <> Some (LFile c).

(** The directories that [makedirs] adds when it meets no file. *)
Definition add_dirs (qs : list (list string)) (m : fs) : fs := map_ensure LDir qs m.

Lemma add_dirs_lookup (qs : list (list string)) (m : fs) (r : list string) :
  Forall (no_file_at m) qs ->
  add_dirs qs m !! r = if decide (r ∈ qs) then Some LDir else m !! r.
Proof.
  intros Hall. unfold add_dirs. rewrite map_ensure_lookup. case_decide as Hr; [|done].
  rewrite Forall_forall in Hall. specialize (Hall r Hr).
  destruct (m !! r) as [[c|]|] eqn:E; [by destruct (Hall c E)|done|done].
Qed.

Lemma mkdir_step_ok p k q m :
  no_file_at m q -> mkdir_step p k q m = (inr tt, map_ensure LDir [q] m).
Proof.
  intros Hq. unfold mkdir_step, map_ensure. simpl.
  destruct (m !! q) as [[c|]|] eqn:E; [by destruct (Hq c E)|done|done].
Qed.

Lemma py_for_mkdir_ok p k qs m :
  Forall (no_file_at m) qs -> py_for qs (mkdir_step p k) m = (inr tt, add_dirs qs m).
Proof.
  revert m; induction qs as [|q qs IH]; intros m Hall; [done|].
  inversion Hall as [|? ? Hq Hrest]; subst. simpl.
  rewrite (py_run_bind_ok _ _ _ tt (map_ensure LDir [q] m)) by (by apply mkdir_step_ok).
  unfold add_dirs in *. apply IH. eapply Forall_impl; [exact Hrest|]. intros r Hr c.
  change (map_ensure LDir [q] m !! r ≠ Some (LFile c)). rewrite map_ensure_lookup. case_decide; [|apply Hr].
  destruct (m !! r) as [[c'|]|] eqn:E; [by destruct (Hr c' E)|done|done].
Qed.

Lemma take_elem_nonempty_prefixes k : k <> [] -> k ∈ nonempty_prefixes k.
Proof.
  intros Hk. unfold nonempty_prefixes. apply list_elem_of_fmap.
  exists (length k). split; [by rewrite take_ge|].
  apply list_elem_of_In, in_seq. destruct k; [done|]. simpl; lia.
Qed.

(** [os.makedirs(p, exist_ok=True)] with no file on the way creates
    the missing directories, the target included. *)
Lemma makedirs_ok p m :
  str_truthy p = true -> Forall (no_file_at m) (nonempty_prefixes (segs p)) ->
  makedirs p m = (inr tt, add_dirs (nonempty_prefixes (segs p)) m) /\
  is_dir_k (add_dirs (nonempty_prefixes (segs p)) m) (segs p) = true.
Proof.
  intros Hp Hall. unfold makedirs. rewrite Hp. simpl. split; [by apply py_for_mkdir_ok|].
  destruct (segs p) as [|x k] eqn:E; [done|]. unfold is_dir_k.
  rewrite add_dirs_lookup by done. rewrite decide_True; [done|].
  by apply take_elem_nonempty_prefixes.
Qed.

(** [open(p, "wb").write(b)] in an existing directory stores [b] at [p]. *)
Lemma write_file_ok p b m k n :
  segs p = k ++ [n] -> is_dir_k m k = true -> m !! (k ++ [n]) <> Some LDir ->
  write_file p b m = (inr tt, <[k ++ [n] := LFile b]> m).
Proof.
  intros Hs Hd Hn. unfold write_file. rewrite Hs.
  assert (exists x l, k ++ [n] = x :: l) as (x & l & E) by (destruct k; eauto).
  rewrite E. cbv iota beta. rewrite <- E, removelast_last, Hd.
  by destruct (m !! (k ++ [n])) as [[]|].
Qed.

Lemma snoc_not_nonempty_prefix k n : k ++ [n] ∉ nonempty_prefixes k.
Proof.
  unfold nonempty_prefixes. intros (i & Heq & _)%list_elem_of_fmap.
  apply (f_equal length) in Heq. rewrite length_app, length_take in Heq. simpl in Heq. lia.
Qed.

(** [os.makedirs(os.path.dirname(p), exist_ok=True)] then
    [open(p, "wb").write(b)] for [p = h + "/" + n]: the missing
    directories of [h] are created and [b] is stored at [p]. *)
Lemma makedirs_write_ok h n b m :
  plain_name n = true ->
  Forall (no_file_at m) (nonempty_prefixes (segs h)) -> m !! (segs h ++ [n]) <> Some LDir ->
  exists m1, makedirs (dirname (h +:+ String sep n)) m = (inr tt, m1) /\
    write_file (h +:+ String sep n) b m1 =
      (inr tt, <[segs h ++ [n] := LFile b]> (add_dirs (nonempty_prefixes (segs h)) m)).
Proof.
  intros Hn Hpre Hdir. pose proof (plain_name_props n Hn) as (_ & Hs & _).
  assert (segs (dirname (h +:+ String sep n)) = segs h) as Hd by (by apply segs_dirname).
  destruct (makedirs_ok (dirname (h +:+ String sep n)) m) as [Hmk Hisdir];
    [by apply dirname_truthy|by rewrite Hd|].
  rewrite Hd in Hmk, Hisdir. eexists; split; [exact Hmk|].
  apply write_file_ok; [by apply segs_app_plain|done|].
  rewrite add_dirs_lookup by done. rewrite decide_False by apply snoc_not_nonempty_prefix. done.
Qed.

(** Every stored path is made of plain names and the root is not stored. *)
Definition fs_wf (m : fs) : Prop :=
  m !! [] = None /\ forall k n, m !! k = Some n -> Forall (fun x => plain_name x = true) k.

Lemma read_file_key m k c :
  fs_wf m -> m !! k = Some (LFile c) -> read_file m ("/" +:+ str_join sep k) = inr c.
Proof.
  intros [Hroot Hpl] Hk. assert (k <> []) as Hne by (intros ->; congruence).
  unfold read_file. rewrite slash_append, segs_slash_lead, segs_join_plain by eauto.
  destruct k; [done|]. by rewrite Hk.
Qed.

(** A checkable sufficient condition for [fs_wf]. *)
Lemma fs_wf_check (m : fs) :
  m !! [] = None -> forallb (forallb plain_name) (map_to_list m).*1 = true -> fs_wf m.
Proof.
  intros Hr Hall. split; [done|]. intros k n Hk. apply Forall_forall. intros x Hx.
  apply forallb_forall with (x := k) in Hall.
  - apply forallb_forall with (x := x) in Hall; [done|by apply list_elem_of_In].
  - apply list_elem_of_In, list_elem_of_fmap. exists (k, n). split; [done|]. by apply elem_of_map_to_list.
Qed.

(** ** The well-formedness of the tree is kept by every action *)

Lemma fs_wf_insert (m : fs) k n :
  fs_wf m -> k <> [] -> Forall (fun x => plain_name x = true) k -> fs_wf (<[k := n]> m).
Proof.
  intros [Hr Hpl] Hk Hplk. split.
  - by rewrite lookup_insert_ne by congruence.
  - intros k' n'. destruct (decide (k = k')) as [<-|Hne]; [done|].
    rewrite lookup_insert_ne by done. apply Hpl.
Qed.

Lemma nonempty_prefixes_elem (k q : list string) :
  q ∈ nonempty_prefixes k -> q <> [] /\ q `prefix_of` k.
Proof.
  unfold nonempty_prefixes. rewrite list_elem_of_fmap. intros (n & -> & Hn).
  apply list_elem_of_In, in_seq in Hn. split; [|apply prefix_take].
  intros Ht. apply (f_equal length) in Ht. rewrite length_take in Ht. simpl in Ht. lia.
Qed.

Lemma makedirs_wf p : preserves fs_wf (makedirs p).
Proof.
  unfold makedirs. destruct (negb (str_truthy p)); [apply preserves_raise|].
  apply preserves_for_in. intros q Hq%nonempty_prefixes_elem. destruct Hq as [Hne [r Hr]].
  intros m res m' Hwf. unfold mkdir_step. destruct (m !! q) as [[]|]; intros [= _ <-]; try done.
  apply fs_wf_insert; [done|done|]. pose proof (segs_plain_all p) as Hall.
  rewrite Hr in Hall. by apply Forall_app in Hall as [? _].
Qed.

Lemma write_file_wf p b : preserves fs_wf (write_file p b).
Proof.
  intros m res m' Hwf. unfold write_file. pose proof (segs_plain_all p) as Hall.
  destruct (segs p) as [|x k] eqn:E; [by intros [= _ <-]|].
  repeat case_match; intros [= _ <-]; try done; by apply fs_wf_insert.
Qed.

#[export] Hint Resolve makedirs_wf write_file_wf : preserves.

(** The file system actions raise no [RecursionError]. *)
Lemma mkdir_step_avoids p k q : avoids (fun _ : fs => True) (eq RecursionError) (mkdir_step p k q).
Proof.
  apply avoids_run. intros m _. split; [done|]. unfold mkdir_step.
  repeat case_match; simpl; intros ? [= <-]; done.
Qed.

Lemma makedirs_avoids p : avoids (fun _ : fs => True) (eq RecursionError) (makedirs p).
Proof. unfold makedirs. avoid. apply mkdir_step_avoids. Qed.

Lemma write_file_avoids p b : avoids (fun _ : fs => True) (eq RecursionError) (write_file p b).
Proof.
  apply avoids_run. intros m _. split; [done|]. unfold write_file.
  repeat case_match; simpl; intros ? [= <-]; done.
Qed.

#[export] Hint Resolve makedirs_avoids write_file_avoids : avoids.
