(* ===== verification/Artifactory.v ===== *)
(** * The Artifactory REST client and server

    The plugin reaches the server only through three calls of the
    [rtpy] client [self.af.artifacts_and_storage]:
    [deploy_artifact(repo, local, remote)] (lines 71-73, 97-99),
    [retrieve_artifact(repo, path)] (lines 150-152), and
    [folder_info(repo, path)] / [file_info(repo, path)] (lines 124,
    139-141), the last two being the same request
    [GET /api/storage/{repo}/{path}], which answers a folder with its
    [children] and a file with its [size] (a decimal string).  An HTTP
    error status raises [AfApiError].

    The class [ArtifactoryApi] is that interface, with the status of a
    failed request as the error.  The class [ArtifactoryModel] is what
    the plugin's theorems assume of a server: each repository has a
    view, a finite map from a path (its segments) to the bytes of a
    file, and every call is specified against the view.  The in-memory
    server [MemServer] below, which stores folders explicitly as
    Artifactory does, implements the interface, and the file
    [ArtifactoryLaws] proves that it satisfies the model. *)

From S2P Require Import Prelude PyStr PosixPath.

(** An entry of [children]: [{"uri": "/name", "folder": bool}]. *)
Record child := { child_uri : string; child_folder : bool }.

(** The JSON of [GET /api/storage/...], as far as the plugin reads it. *)
Record storage_info := { si_children : option (list child); si_size : option string }.

Class ArtifactoryApi (S : Type) := {
  api_deploy : S -> string -> string -> bytes -> N + S;
  api_retrieve : S -> string -> string -> N + bytes;
  api_storage_info : S -> string -> string -> N + storage_info;
  (** [GET /api/system/ping]: the body of the answer. *)
  api_ping : S -> N + string;
}.

(** ** Views: the files of a repository *)

Abbreviation files := (gmap (list string) bytes).

Definition strict_prefix (k k' : list string) : bool :=
  bool_decide (k `prefix_of` k' /\ k <> k').

(** No file is stored at the root or inside another file, and every
    segment of a path is a plain name. *)
Definition view_wf (v : files) : Prop :=
  v !! [] = None /\
  (forall k1 k2 c1 c2, v !! k1 = Some c1 -> v !! k2 = Some c2 -> strict_prefix k1 k2 = false) /\
  (forall k c, v !! k = Some c -> Forall (fun x => plain_name x = true) k).

Definition view_keys (v : files) : list (list string) := (map_to_list v).*1.

(** A folder: the root, or a strict prefix of a file. *)
Definition is_folder (v : files) (k : list string) : bool :=
  match k with
  | [] => true
  | _ => existsb (strict_prefix k) (view_keys v)
  end.

(** The name below [d] of a key under [d], and whether it is a folder. *)
Definition child_of (d k : list string) : option (string * bool) :=
  if bool_decide (d `prefix_of` k) then
    match drop (length d) k with
    | n :: rest => Some (n, negb (bool_decide (rest = [])))
    | [] => None
    end
  else None.

(** The children of folder [d]: each name once, with its kind. *)
Definition folder_children (v : files) (d : list string) : list (string * bool) :=
  elements (list_to_set (omap (child_of d) (view_keys v)) : gset (string * bool)).

(** A deploy to [k] is accepted when [k] is not the root, no file is a
    strict prefix of [k] and [k] is not a folder. *)
Definition deployable (v : files) (k : list string) : bool :=
  bool_decide (k <> []) &&
  forallb (fun k' => negb (strict_prefix k' k) && negb (strict_prefix k k')) (view_keys v).

(** The [children] field seen as pairs, and the pairs a view prescribes. *)
Definition child_pair (ch : child) : string * bool := (child_uri ch, child_folder ch).

Definition expected_children (v : files) (d : list string) : list (string * bool) :=
  (fun nb => ("/" +:+ nb.1, nb.2)) <$> folder_children v d.

Definition size_string (c : bytes) : string := pretty (N.of_nat (length c)).

Class ArtifactoryModel (S : Type) `{ArtifactoryApi S} := {
  am_inv : S -> Prop;
  am_view : S -> string -> option files;
  am_view_wf s r v : am_inv s -> am_view s r = Some v -> view_wf v;
  am_retrieve_file s r p v c :
    am_inv s -> am_view s r = Some v -> v !! segs p = Some c -> api_retrieve s r p = inr c;
  am_retrieve_missing s r p v :
    am_inv s -> am_view s r = Some v -> v !! segs p = None -> exists e, api_retrieve s r p = inl e;
  am_info_file s r p v c :
    am_inv s -> am_view s r = Some v -> v !! segs p = Some c ->
    api_storage_info s r p = inr {| si_children := None; si_size := Some (size_string c) |};
  am_info_folder s r p v :
    am_inv s -> am_view s r = Some v -> is_folder v (segs p) = true ->
    exists ch, api_storage_info s r p = inr {| si_children := Some ch; si_size := None |} /\
               child_pair <$> ch ≡ₚ expected_children v (segs p);
  am_info_missing s r p v :
    am_inv s -> am_view s r = Some v -> v !! segs p = None -> is_folder v (segs p) = false ->
    exists e, api_storage_info s r p = inl e;
  am_deploy_ok s r p v c :
    am_inv s -> am_view s r = Some v -> deployable v (segs p) = true ->
    exists s', api_deploy s r p c = inr s' /\ am_inv s' /\
               am_view s' r = Some (<[segs p := c]> v) /\
               forall r', r' <> r -> am_view s' r' = am_view s r';
  am_deploy_refused s r p v c :
    am_inv s -> am_view s r = Some v -> deployable v (segs p) = false ->
    exists e, api_deploy s r p c = inl e;
  am_no_repo s r p c :
    am_inv s -> am_view s r = None ->
    (exists e, api_deploy s r p c = inl e) /\ (exists e, api_retrieve s r p = inl e) /\
    (exists e, api_storage_info s r p = inl e);
  (** A server in the invariant is healthy. *)
  am_ping s : am_inv s -> api_ping s = inr "OK";
}.

(** ** Lemmas on views *)

Lemma strict_prefix_spec k k' : strict_prefix k k' = true <-> k `prefix_of` k' /\ k <> k'.
Proof. unfold strict_prefix. by rewrite bool_decide_eq_true. Qed.

Lemma strict_prefix_snoc k n rest : rest <> [] -> strict_prefix (k ++ [n]) (k ++ n :: rest) = true.
Proof.
  intros Hr. apply strict_prefix_spec. split.
  - exists rest. by rewrite <- app_assoc.
  - intros Heq. rewrite <- (app_nil_r (k ++ [n])), <- app_assoc in Heq.
    apply app_inv_head in Heq. simpl in Heq. by injection Heq.
Qed.

Lemma view_keys_spec v k : k ∈ view_keys v <-> is_Some (v !! k).
Proof.
  unfold view_keys. rewrite list_elem_of_fmap. split.
  - intros ([k' c] & -> & Hin). apply elem_of_map_to_list in Hin. by exists c.
  - intros [c Hc]. exists (k, c). split; [done|]. by apply elem_of_map_to_list.
Qed.

Lemma is_folder_spec v k :
  is_folder v k = true <-> k = [] \/ exists k' c, v !! k' = Some c /\ strict_prefix k k' = true.
Proof.
  destruct k as [|x k]; simpl; [naive_solver|].
  rewrite existsb_exists. split.
  - intros (k' & Hin%list_elem_of_In & Hs). apply view_keys_spec in Hin as [c Hc].
    right. eauto.
  - intros [Hnil|(k' & c & Hc & Hs)]; [done|]. exists k'. split; [|done].
    apply list_elem_of_In, view_keys_spec. by exists c.
Qed.

Lemma child_of_spec d k n b :
  child_of d k = Some (n, b) <-> exists rest, k = d ++ n :: rest /\ b = negb (bool_decide (rest = [])).
Proof.
  unfold child_of. case_bool_decide as Hp.
  - destruct Hp as [r ->]. rewrite drop_app_length. split.
    + destruct r as [|n' rest]; [done|]. intros [= -> <-]. by exists rest.
    + intros (rest & Heq & ->). apply app_inv_head in Heq as ->. done.
  - split; [done|]. intros (rest & -> & _). destruct Hp. by exists (n :: rest).
Qed.

#[export] Instance slash_pair_inj : Inj (=) (=) (fun nb : string * bool => ("/" +:+ nb.1, nb.2)).
Proof. intros [n b] [n' b']. simpl. intros [= Hn ->]. rewrite !str_append_nil_l in Hn. by subst. Qed.

Lemma expected_children_elem v d u b :
  (u, b) ∈ expected_children v d <->
  exists n k c, u = "/" +:+ n /\ v !! k = Some c /\ child_of d k = Some (n, b).
Proof.
  unfold expected_children, folder_children. rewrite list_elem_of_fmap. split.
  - intros ([n b'] & Heq & Hin). simpl in Heq. injection Heq as -> ->.
    apply elem_of_elements, elem_of_list_to_set, list_elem_of_omap in Hin as (k & Hk & Hc).
    apply view_keys_spec in Hk as [c Hc']. by exists n, k, c.
  - intros (n & k & c & -> & Hc & Hch). exists (n, b). split; [done|].
    apply elem_of_elements, elem_of_list_to_set, list_elem_of_omap. exists k.
    split; [apply view_keys_spec; by exists c|done].
Qed.

Lemma folder_children_elem v d n b :
  (n, b) ∈ folder_children v d <-> exists k c, v !! k = Some c /\ child_of d k = Some (n, b).
Proof.
  unfold folder_children. rewrite elem_of_elements, elem_of_list_to_set, list_elem_of_omap.
  split.
  - intros (k & Hk & Hc). apply view_keys_spec in Hk as [c Hk]. eauto.
  - intros (k & c & Hk & Hc). exists k. split; [apply view_keys_spec; by exists c|done].
Qed.

Section ViewWf.
Context (v : files) (Hwf : view_wf v) (d : list string).

Lemma folder_child_plain n b : (n, b) ∈ folder_children v d -> plain_name n = true.
Proof.
  intros (k & c & Hk & (rest & -> & _)%child_of_spec)%folder_children_elem.
  destruct Hwf as (_ & _ & Hpl). apply Hpl in Hk.
  apply Forall_app in Hk as [_ Hk]. by inversion Hk.
Qed.

Lemma folder_child_file n : (n, false) ∈ folder_children v d -> exists c, v !! (d ++ [n]) = Some c.
Proof.
  intros (k & c & Hk & (rest & -> & Hb)%child_of_spec)%folder_children_elem.
  destruct rest; [by exists c|done].
Qed.

Lemma folder_child_kind n b b' :
  (n, b) ∈ folder_children v d -> (n, b') ∈ folder_children v d -> b = b'.
Proof.
  assert (forall r : Prop, (n, false) ∈ folder_children v d -> (n, true) ∈ folder_children v d -> r) as Hx.
  { intros r (c & Hc)%folder_child_file
      (k & c' & Hk & (rest & -> & Hb)%child_of_spec)%folder_children_elem.
    destruct rest as [|x rest]; [done|]. destruct Hwf as (_ & Hpre & _).
    specialize (Hpre _ _ _ _ Hc Hk). by rewrite strict_prefix_snoc in Hpre. }
  destruct b, b'; [done|intros; by apply Hx|intros; by apply Hx|done].
Qed.
End ViewWf.

(** ** An in-memory Artifactory *)

Module MemServer.

Inductive rnode := RFile (c : bytes) | RFolder.

#[export] Instance rnode_eq_dec : EqDecision rnode.
Proof. solve_decision. Defined.

Abbreviation store := (gmap (list string) rnode).
Abbreviation server := (gmap string store).

(** The strict non-empty prefixes of [k]: the parent folders. *)
Definition parent_folders (k : list string) : list (list string) :=
  (fun n => take n k) <$> seq 1 (length k - 1).

Definition is_file_node (st : store) (q : list string) : bool :=
  if st !! q is Some (RFile _) then true else false.

(** [PUT /{repo}/{path}]: 404 for an unknown repository, 405 at the
    repository root, 409 when a parent is a file or the target a folder;
    otherwise the parent folders are created and the file stored. *)
Definition deploy (srv : server) (r p : string) (c : bytes) : N + server :=
  match srv !! r with
  | None => inl 404%N
  | Some st =>
      let k := segs p in
      if bool_decide (k = []) then inl 405%N
      else if existsb (is_file_node st) (parent_folders k) then inl 409%N
      else if st !! k is Some RFolder then inl 409%N
      else inr (<[r := <[k := RFile c]> (map_ensure RFolder (parent_folders k) st)]> srv)
  end.

(** [GET /{repo}/{path}] of a file. *)
Definition retrieve (srv : server) (r p : string) : N + bytes :=
  match srv !! r with
  | None => inl 404%N
  | Some st => if st !! segs p is Some (RFile c) then inr c else inl 404%N
  end.

(** The stored entries one level below [d]. *)
Definition stored_children (st : store) (d : list string) : list child :=
  omap (fun kn =>
          match kn with
          | (k, node) =>
              if bool_decide (length k = S (length d) /\ d `prefix_of` k)
              then (fun n => {| child_uri := "/" +:+ n;
                                child_folder := if node is RFolder then true else false |})
                   <$> last k
              else None
          end) (map_to_list st).

(** [GET /api/storage/{repo}/{path}] *)
Definition storage_info_of (srv : server) (r p : string) : N + storage_info :=
  match srv !! r with
  | None => inl 404%N
  | Some st =>
      let k := segs p in
      match k, st !! k with
      | [], _ | _, Some RFolder =>
          inr {| si_children := Some (stored_children st k); si_size := None |}
      | _, Some (RFile c) => inr {| si_children := None; si_size := Some (size_string c) |}
      | _, None => inl 404%N
      end
  end.

(** [GET /api/system/ping]: a running server answers [OK]. *)
Definition ping_of (srv : server) : N + string := inr "OK".

#[export] Instance mem_api : ArtifactoryApi server := {|
  api_deploy := deploy; api_retrieve := retrieve; api_storage_info := storage_info_of;
  api_ping := ping_of |}.

(** The view of a repository: its files. *)
Definition view (srv : server) (r : string) : option files :=
  match srv !! r with
  | Some st => Some (omap (fun n : rnode => if n is RFile c then Some c else None) st : files)
  | None => None
  end.

(** The invariant of a stored repository: nothing at the root, every
    segment a plain name, the parent folders of every file are folders, and every folder holds a
    file below it. *)
Definition store_inv (st : store) : Prop :=
  st !! [] = None /\
  (forall k node, st !! k = Some node -> Forall (fun x => plain_name x = true) k) /\
  (forall k c q, st !! k = Some (RFile c) -> q ∈ parent_folders k -> st !! q = Some RFolder) /\
  (forall k, st !! k = Some RFolder -> exists k' c, strict_prefix k k' = true /\ st !! k' = Some (RFile c)).

Definition server_inv (srv : server) : Prop := forall r st, srv !! r = Some st -> store_inv st.

End MemServer.
