(* ===== verification/ArtifactoryLaws.v ===== *)
(** * The in-memory server satisfies the Artifactory model

    The instance [mem_model] discharges [ArtifactoryModel] for
    [MemServer]: the explicit folders of a stored repository are exactly
    the strict prefixes of its files ([store_inv]), so the children
    the server lists are the children the view prescribes, and a deploy
    that the view allows keeps the invariant and updates the view by one
    insertion. *)

From S2P Require Import Prelude PyStr PosixPath Artifactory.
Import MemServer.

(** ** Prefixes *)

Lemma parent_folders_spec q k : q ∈ parent_folders k <-> q <> [] /\ strict_prefix q k = true.
Proof.
  rewrite strict_prefix_spec. unfold parent_folders. rewrite list_elem_of_fmap. split.
  - intros (n & -> & Hn). apply list_elem_of_In, in_seq in Hn.
    split; [|split; [apply prefix_take|]].
    + destruct k; simpl in *; [lia|]. destruct n; [lia|]. done.
    + intros Heq. apply (f_equal length) in Heq. rewrite length_take in Heq. lia.
  - intros (Hq & [r ->] & Hne). exists (length q). split; [by rewrite take_app_length|].
    apply list_elem_of_In, in_seq. rewrite length_app.
    destruct q; [done|]. destruct r; [by rewrite app_nil_r in Hne|]. simpl; lia.
Qed.

(** ** The view of a store *)

Definition vw (st : store) : files := omap (fun n : rnode => if n is RFile c then Some c else None) st.

Lemma vw_lookup st k : vw st !! k = if st !! k is Some (RFile c) then Some c else None.
Proof. unfold vw. rewrite lookup_omap. by destruct (st !! k) as [[]|]. Qed.

Lemma view_some srv r st : srv !! r = Some st -> view srv r = Some (vw st).
Proof. intros H. unfold view. by rewrite H. Qed.

(** ** Consequences of the store invariant *)

Section StoreInv.
Context (st : store) (Hinv : store_inv st).

Lemma inv_parent_folder k c q :
  st !! k = Some (RFile c) -> q <> [] -> strict_prefix q k = true -> st !! q = Some RFolder.
Proof.
  intros Hk Hq Hs. destruct Hinv as (_ & _ & Hpar & _). apply (Hpar k c); [done|].
  by apply parent_folders_spec.
Qed.

Lemma inv_no_file_below k c q c' :
  st !! k = Some (RFile c) -> strict_prefix q k = true -> st !! q <> Some (RFile c').
Proof.
  intros Hk Hs Hq. destruct (decide (q = [])) as [->|Hne].
  - destruct Hinv as (Hroot & _). congruence.
  - rewrite (inv_parent_folder k c q) in Hq by done. discriminate.
Qed.

Lemma inv_view_wf : view_wf (vw st).
Proof.
  split; [|split].
  - rewrite vw_lookup. destruct Hinv as (-> & _). done.
  - intros k1 k2 c1 c2. rewrite !vw_lookup.
    destruct (st !! k1) as [[d1|]|] eqn:E1; [|done..].
    destruct (st !! k2) as [[d2|]|] eqn:E2; [|done..].
    intros _ _. destruct (strict_prefix k1 k2) eqn:Hs; [|done].
    by destruct (inv_no_file_below k2 d2 k1 d1 E2 Hs E1).
  - intros k c. rewrite vw_lookup. destruct (st !! k) as [[]|] eqn:E; [|done..].
    intros _. destruct Hinv as (_ & Hpl & _). by apply (Hpl k (RFile c0)).
Qed.

Lemma inv_folder_stored k : is_folder (vw st) k = true -> k = [] \/ st !! k = Some RFolder.
Proof.
  destruct (decide (k = [])) as [->|Hne]; [by left|].
  intros [->|(k' & c & Hc & Hs)]%is_folder_spec; [done|right].
  rewrite vw_lookup in Hc. destruct (st !! k') as [[c'|]|] eqn:E; [|done..].
  by apply (inv_parent_folder k' c').
Qed.

Lemma inv_stored_folder k : st !! k = Some RFolder -> is_folder (vw st) k = true.
Proof.
  intros Hk. destruct Hinv as (_ & _ & _ & Hfold). destruct (Hfold k Hk) as (k' & c & Hs & Hc).
  apply is_folder_spec. right. exists k', c. split; [|done]. by rewrite vw_lookup, Hc.
Qed.

End StoreInv.

(** ** Children of a folder *)

Lemma one_below_spec (d k : list string) :
  (length k = S (length d) /\ d `prefix_of` k) <-> exists n, k = d ++ [n].
Proof.
  split.
  - intros [Hl [r ->]]. rewrite length_app in Hl.
    destruct r as [|n [|]]; simpl in Hl; [lia| |lia]. by exists n.
  - intros [n ->]. rewrite length_app; simpl. split; [lia|]. by exists [n].
Qed.

#[local] Instance child_pair_inj : Inj (=) (=) child_pair.
Proof. intros [] []. unfold child_pair. simpl. by intros [= -> ->]. Qed.

Lemma stored_children_elem st d u b :
  (u, b) ∈ child_pair <$> stored_children st d <->
  exists n node, st !! (d ++ [n]) = Some node /\ u = "/" +:+ n /\
                 b = (if node is RFolder then true else false).
Proof.
  unfold stored_children. rewrite list_elem_of_fmap. split.
  - intros (ch & Hch & (kn & Hin & Hg)%list_elem_of_omap). destruct kn as [k node].
    apply elem_of_map_to_list in Hin. simpl in Hg. case_bool_decide as Hk; [|done].
    apply one_below_spec in Hk as [n ->]. rewrite last_snoc in Hg. simpl in Hg.
    injection Hg as <-. unfold child_pair in Hch; simpl in Hch. injection Hch as -> ->.
    by exists n, node.
  - intros (n & node & Hn & -> & ->).
    exists {| child_uri := "/" +:+ n; child_folder := if node is RFolder then true else false |}.
    split; [done|]. apply list_elem_of_omap. exists (d ++ [n], node).
    split; [by apply elem_of_map_to_list|]. simpl.
    rewrite bool_decide_true by (apply one_below_spec; eauto). by rewrite last_snoc.
Qed.

(** The children the server stores are the children of the view. *)
Lemma stored_children_perm st d :
  store_inv st -> child_pair <$> stored_children st d ≡ₚ expected_children (vw st) d.
Proof.
  intros Hinv. apply NoDup_Permutation.
  - apply NoDup_fmap_2; [apply _|]. apply NoDup_omap_keys; [apply NoDup_fst_map_to_list|].
    intros [k node] [k' node'] ch _ _. simpl.
    case_bool_decide as Hk; [|done]. case_bool_decide as Hk'; [|done].
    apply one_below_spec in Hk as [n ->]. apply one_below_spec in Hk' as [n' ->].
    rewrite !last_snoc. simpl. intros [= <-] [= Hn _]. rewrite !str_append_nil_l in Hn. by subst.
  - apply NoDup_fmap_2; [apply _|]. apply NoDup_elements.
  - intros [u b]. rewrite stored_children_elem, expected_children_elem. split.
    + intros (n & node & Hn & -> & ->). destruct node as [c|].
      * exists n, (d ++ [n]), c. split; [done|]. rewrite vw_lookup, Hn. split; [done|].
        apply child_of_spec. by exists [].
      * destruct Hinv as (_ & _ & _ & Hfold). destruct (Hfold _ Hn) as (k' & c & Hs & Hc).
        apply strict_prefix_spec in Hs as [[r ->] Hne].
        destruct r as [|x rest]; [by rewrite app_nil_r in Hne|].
        exists n, ((d ++ [n]) ++ x :: rest), c. split; [done|]. rewrite vw_lookup, Hc.
        split; [done|]. apply child_of_spec. exists (x :: rest). by rewrite <- app_assoc.
    + intros (n & k & c & -> & Hc & (rest & -> & ->)%child_of_spec).
      rewrite vw_lookup in Hc. destruct (st !! (d ++ n :: rest)) as [[c'|]|] eqn:E; [|done..].
      destruct rest as [|x rest'].
      * exists n, (RFile c'). by rewrite E.
      * exists n, RFolder. split; [|done].
        apply (inv_parent_folder st Hinv (d ++ n :: x :: rest') c'); [done|by destruct d|].
        by apply strict_prefix_snoc.
Qed.

(** ** Deploy *)

Lemma deployable_spec v k :
  deployable v k = true <->
  k <> [] /\ forall k' c, v !! k' = Some c -> strict_prefix k' k = false /\ strict_prefix k k' = false.
Proof.
  unfold deployable. rewrite andb_true_iff, bool_decide_eq_true, forallb_forall.
  apply and_iff_compat_l. split.
  - intros H k' c Hc. specialize (H k'). rewrite andb_true_iff, !negb_true_iff in H.
    apply H, list_elem_of_In, view_keys_spec. by exists c.
  - intros H k' Hin%list_elem_of_In. apply view_keys_spec in Hin as [c Hc].
    destruct (H k' c Hc) as [-> ->]. done.
Qed.

Definition deploy_store (st : store) (k : list string) (c : bytes) : store :=
  <[k := RFile c]> (map_ensure RFolder (parent_folders k) st).

Section Deploy.
Context (st : store) (Hinv : store_inv st) (k : list string) (Hdep : deployable (vw st) k = true).
Context (Hplain : Forall (fun x => plain_name x = true) k).

Lemma deploy_no_file_parent q : q ∈ parent_folders k -> is_file_node st q = false.
Proof.
  intros Hq. apply parent_folders_spec in Hq as [_ Hs]. unfold is_file_node.
  destruct (st !! q) as [[c|]|] eqn:E; [|done..]. exfalso.
  apply deployable_spec in Hdep as [_ Hd]. destruct (Hd q c) as [Hs' _]; [by rewrite vw_lookup, E|].
  congruence.
Qed.

Lemma deploy_not_folder : st !! k <> Some RFolder.
Proof.
  intros Hk. apply (inv_stored_folder st Hinv) in Hk.
  apply is_folder_spec in Hk as [->|(k' & c & Hc & Hs)].
  - apply deployable_spec in Hdep as [Hne _]. done.
  - apply deployable_spec in Hdep as [_ Hd]. destruct (Hd k' c Hc) as [_ Hs']. congruence.
Qed.

Lemma deploy_store_lookup (c : bytes) q :
  deploy_store st k c !! q =
    if decide (k = q) then Some (RFile c)
    else if decide (q ∈ parent_folders k) then Some RFolder else st !! q.
Proof.
  unfold deploy_store. destruct (decide (k = q)) as [->|Hne]; [by rewrite lookup_insert_eq|].
  rewrite lookup_insert_ne, map_ensure_lookup by done. case_decide as Hq; [|done].
  pose proof (deploy_no_file_parent q Hq) as Hf. unfold is_file_node in Hf.
  by destruct (st !! q) as [[]|].
Qed.
Lemma deploy_view (c : bytes) : vw (deploy_store st k c) = <[k := c]> (vw st).
Proof.
  apply map_eq. intros q. rewrite vw_lookup, deploy_store_lookup.
  destruct (decide (k = q)) as [->|Hne]; [by rewrite lookup_insert_eq|].
  rewrite lookup_insert_ne, vw_lookup by done. case_decide as Hq; [|done].
  pose proof (deploy_no_file_parent q Hq) as Hf. unfold is_file_node in Hf.
  by destruct (st !! q) as [[]|].
Qed.

Lemma deploy_inv (c : bytes) : store_inv (deploy_store st k c).
Proof.
  pose proof Hinv as (Hroot & Hpl & Hpar & Hfold).
  pose proof Hdep as (Hk & Hd)%deployable_spec.
  split; [|split; [|split]].
  - rewrite deploy_store_lookup. rewrite decide_False by done.
    rewrite decide_False; [done|]. by intros [? _]%parent_folders_spec.
  - intros q node. rewrite deploy_store_lookup.
    destruct (decide (k = q)) as [<-|]; [intros _; apply Hplain|].
    case_decide as Hq; [|apply Hpl]. intros _.
    unfold parent_folders in Hq. apply list_elem_of_fmap in Hq as (i & -> & _).
    by apply Forall_take, Hplain.
  - intros k2 c2 q. rewrite !deploy_store_lookup.
    destruct (decide (k = k2)) as [<-|Hne].
    + intros _ Hq. rewrite decide_False, decide_True by (done || by intros ->; apply parent_folders_spec in Hq as [_ Hs]; apply strict_prefix_spec in Hs as [_ ?]).
      done.
    + case_decide as Hk2; [done|]. intros Hst Hq.
      pose proof (Hpar k2 c2 q Hst Hq) as Hfq.
      destruct (decide (k = q)) as [<-|Hkq].
      * exfalso. apply parent_folders_spec in Hq as [_ Hs].
        destruct (Hd k2 c2) as [_ Hs']; [by rewrite vw_lookup, Hst|congruence].
      * by case_decide.
  - intros q. rewrite deploy_store_lookup.
    destruct (decide (k = q)) as [<-|Hkq]; [done|].
    case_decide as Hq.
    + intros _. exists k, c. split; [by apply parent_folders_spec in Hq as [_ ?]|].
      rewrite deploy_store_lookup. by rewrite decide_True.
    + intros Hst. destruct (Hfold q Hst) as (k' & c' & Hs & Hk').
      destruct (decide (k = k')) as [<-|Hkk'].
      * exists k, c. split; [done|]. rewrite deploy_store_lookup. by rewrite decide_True.
      * exists k', c'. split; [done|]. rewrite deploy_store_lookup, decide_False by done.
        case_decide as Hk'p; [|done].
        pose proof (deploy_no_file_parent k' Hk'p) as Hf. unfold is_file_node in Hf.
        by rewrite Hk' in Hf.
Qed.
End Deploy.

(** ** The laws *)

Lemma view_Some srv r v : view srv r = Some v -> exists st, srv !! r = Some st /\ v = vw st.
Proof. unfold view. destruct (srv !! r) as [st|]; [intros [= <-]; by exists st|done]. Qed.

Lemma view_None srv r : view srv r = None -> srv !! r = None.
Proof. unfold view. by destruct (srv !! r). Qed.

(** Unpack a [view] hypothesis into the stored repository and its invariant. *)
Ltac open_view :=
  match goal with
  | Hi : server_inv ?srv, Hv : view ?srv ?r = Some ?v |- _ =>
      let st := fresh "st" in let Hst := fresh "Hst" in let Hsi := fresh "Hsi" in
      apply view_Some in Hv as (st & Hst & ->);
      pose proof (Hi r st Hst) as Hsi
  end.

Lemma mem_view_wf srv r v : server_inv srv -> view srv r = Some v -> view_wf v.
Proof. intros Hi Hv. open_view. by apply inv_view_wf. Qed.

Lemma mem_retrieve_file srv r p v c :
  server_inv srv -> view srv r = Some v -> v !! segs p = Some c -> retrieve srv r p = inr c.
Proof.
  intros Hi Hv. open_view. rewrite vw_lookup. unfold retrieve. rewrite Hst.
  by destruct (st !! segs p) as [[]|]; [intros [= ->]| |].
Qed.

Lemma mem_retrieve_missing srv r p v :
  server_inv srv -> view srv r = Some v -> v !! segs p = None -> exists e, retrieve srv r p = inl e.
Proof.
  intros Hi Hv. open_view. rewrite vw_lookup. unfold retrieve. rewrite Hst.
  destruct (st !! segs p) as [[]|]; [done|eauto|eauto].
Qed.

Lemma mem_info_file srv r p v c :
  server_inv srv -> view srv r = Some v -> v !! segs p = Some c ->
  storage_info_of srv r p = inr {| si_children := None; si_size := Some (size_string c) |}.
Proof.
  intros Hi Hv. open_view. rewrite vw_lookup. intros Hc. unfold storage_info_of. rewrite Hst.
  destruct (st !! segs p) as [[c'|]|] eqn:E; [|done..]. injection Hc as ->.
  destruct (segs p) as [|x k] eqn:Es; [|by rewrite E].
  destruct Hsi as (Hroot & _). congruence.
Qed.

Lemma mem_info_folder srv r p v :
  server_inv srv -> view srv r = Some v -> is_folder v (segs p) = true ->
  exists ch, storage_info_of srv r p = inr {| si_children := Some ch; si_size := None |} /\
             child_pair <$> ch ≡ₚ expected_children v (segs p).
Proof.
  intros Hi Hv. open_view. intros Hf. unfold storage_info_of. rewrite Hst.
  exists (stored_children st (segs p)). split; [|by apply stored_children_perm].
  apply (inv_folder_stored st Hsi) in Hf as [->|Hk]; [done|].
  destruct (segs p); [done|]. by rewrite Hk.
Qed.

Lemma mem_info_missing srv r p v :
  server_inv srv -> view srv r = Some v -> v !! segs p = None -> is_folder v (segs p) = false ->
  exists e, storage_info_of srv r p = inl e.
Proof.
  intros Hi Hv. open_view. rewrite vw_lookup. intros Hc Hf. unfold storage_info_of. rewrite Hst.
  destruct (segs p) as [|x k] eqn:Es; [done|].
  destruct (st !! (x :: k)) as [[]|] eqn:E; [done| |eauto].
  rewrite <- Es in E. apply (inv_stored_folder st Hsi) in E. rewrite Es in E. congruence.
Qed.

Lemma mem_deploy_ok srv r p v c :
  server_inv srv -> view srv r = Some v -> deployable v (segs p) = true ->
  exists s', deploy srv r p c = inr s' /\ server_inv s' /\
             view s' r = Some (<[segs p := c]> v) /\ forall r', r' <> r -> view s' r' = view srv r'.
Proof.
  intros Hi Hv. open_view. intros Hd. pose proof Hd as (Hk & _)%deployable_spec.
  assert (deploy srv r p c = inr (<[r := deploy_store st (segs p) c]> srv)) as ->.
  { unfold deploy. rewrite Hst, bool_decide_false by done.
    assert (existsb (is_file_node st) (parent_folders (segs p)) = false) as ->.
    { apply not_true_iff_false. intros (q & Hq%list_elem_of_In & Hf)%existsb_exists.
      by rewrite (deploy_no_file_parent st (segs p) Hd q Hq) in Hf. }
    pose proof (deploy_not_folder st Hsi (segs p) Hd (segs_plain_all p)) as Hnf.
    by destruct (st !! segs p) as [[]|]. }
  eexists; split; [reflexivity|]. split; [|split].
  - intros r' st'. destruct (decide (r = r')) as [<-|Hne].
    + rewrite lookup_insert_eq. intros [= <-]. apply deploy_inv; [done|done|apply segs_plain_all].
    + rewrite lookup_insert_ne by done. apply Hi.
  - unfold view. rewrite lookup_insert_eq. rewrite deploy_view; try done. apply segs_plain_all.
  - intros r' Hne. unfold view. by rewrite lookup_insert_ne.
Qed.

Lemma mem_deploy_refused srv r p v c :
  server_inv srv -> view srv r = Some v -> deployable v (segs p) = false ->
  exists e, deploy srv r p c = inl e.
Proof.
  intros Hi Hv. open_view. intros Hd. unfold deploy. rewrite Hst.
  case_bool_decide as Hk; [eauto|].
  destruct (existsb (is_file_node st) (parent_folders (segs p))) eqn:Ex; [eauto|].
  destruct (st !! segs p) as [[]|] eqn:E; [|eauto|]; exfalso;
  (apply not_true_iff_false in Hd; apply Hd, deployable_spec; split; [done|]);
  intros k' c' Hc'; rewrite vw_lookup in Hc'; destruct (st !! k') as [[c''|]|] eqn:E'; try done;
  (split; apply not_true_iff_false; intros Hs;
   [ assert (k' ∈ parent_folders (segs p)) as Hq
       by (apply parent_folders_spec; split; [intros ->; destruct Hsi as (Hr & _); congruence|done]);
     apply not_true_iff_false in Ex; apply Ex, existsb_exists; exists k';
     split; [by apply list_elem_of_In|unfold is_file_node; by rewrite E']
   | rewrite (inv_parent_folder st Hsi k' c'' (segs p)) in E by done; congruence ]).
Qed.

Lemma mem_no_repo srv r p c :
  server_inv srv -> view srv r = None ->
  (exists e, deploy srv r p c = inl e) /\ (exists e, retrieve srv r p = inl e) /\
  (exists e, storage_info_of srv r p = inl e).
Proof.
  intros _ Hv%view_None. unfold deploy, retrieve, storage_info_of. rewrite Hv.
  split; [|split]; eexists; reflexivity.
Qed.

(** The in-memory server is a model of Artifactory. *)
#[export] Instance mem_model : ArtifactoryModel server := {|
  am_inv := server_inv;
  am_view := view;
  am_view_wf := mem_view_wf;
  am_retrieve_file := mem_retrieve_file;
  am_retrieve_missing := mem_retrieve_missing;
  am_info_file := mem_info_file;
  am_info_folder := mem_info_folder;
  am_info_missing := mem_info_missing;
  am_deploy_ok := mem_deploy_ok;
  am_deploy_refused := mem_deploy_refused;
  am_no_repo := mem_no_repo;
  am_ping s _ := eq_refl;
|}.

(** An empty server with the given repositories satisfies the invariant. *)
Lemma empty_repos_inv (rs : list string) : server_inv (list_to_map ((fun r => (r, ∅)) <$> rs)).
Proof.
  intros r st Hst. apply elem_of_list_to_map_2, list_elem_of_fmap in Hst as (r' & Heq & _).
  injection Heq as <- ->.
  split; [done|]. split; [done|]. done.
Qed.

(** ** Reachable servers *)

(** The servers reachable from empty repositories [rs] by accepted deploys. *)
Inductive reachable (rs : list string) : server -> Prop :=
  | reach_init : reachable rs (list_to_map ((fun r => (r, ∅)) <$> rs))
  | reach_deploy srv r p c srv' : reachable rs srv -> deploy srv r p c = inr srv' -> reachable rs srv'.

(** Every accepted deploy keeps the invariant of the server. *)
Theorem deploy_preserves_inv srv r p c srv' :
  server_inv srv -> deploy srv r p c = inr srv' -> server_inv srv'.
Proof.
  intros Hi Hd. destruct (view srv r) as [v|] eqn:Hv.
  - destruct (deployable v (segs p)) eqn:Hdep.
    + destruct (mem_deploy_ok srv r p v c Hi Hv Hdep) as (s' & Hs' & Hinv' & _). rewrite Hd in Hs'. by injection Hs' as ->.
    + destruct (mem_deploy_refused srv r p v c Hi Hv Hdep) as [e He]. congruence.
  - destruct (mem_no_repo srv r p c Hi Hv) as ([e He] & _). congruence.
Qed.

(** Every server reachable from empty repositories by accepted deploys
    satisfies the invariant: by induction on the deploys that reach it. *)
Theorem reachable_inv rs srv : reachable rs srv -> server_inv srv.
Proof.
  induction 1 as [|srv r p c srv' _ IH Hd]; [apply empty_repos_inv|].
  by apply (deploy_preserves_inv srv r p c).
Qed.

(** Deploy when the server accepts, else keep the server (to build
    example servers). *)
Definition deploy_or_keep (srv : server) (r p : string) (c : bytes) : server :=
  match deploy srv r p c with inr s' => s' | inl _ => srv end.

Lemma deploy_or_keep_inv srv r p c : server_inv srv -> server_inv (deploy_or_keep srv r p c).
Proof.
  intros Hi. unfold deploy_or_keep. destruct (deploy srv r p c) eqn:Hd; [done|].
  by apply (deploy_preserves_inv srv r p c).
Qed.

Lemma reachable_inv_witness :
  server_inv (deploy_or_keep (list_to_map [("repo", ∅)]) "repo" "runs/1/model.pkl" [Byte.x31]).
Proof.
  apply (reachable_inv ["repo"]). apply (reach_deploy _ (list_to_map [("repo", ∅)]) "repo" "runs/1/model.pkl" [Byte.x31]); [apply reach_init|].
  reflexivity.
Defined.
