(* ===== verification/Repository.v ===== *)
(** * The repository object and its world

    A call of the plugin runs in a world made of the Artifactory server
    (any [ArtifactoryApi]), the local file system, the process
    environment, the lines printed on standard output and the trace of
    REST requests sent (a ghost record used to state how many requests
    an operation makes).  The object [JFrogArtifactRepository] is a
    record of its attributes, each optional since [__init__] returns
    early without setting some of them (lines 18-41; [__init__] itself
    is [Constructor.init]).  The REST client
    [self.af] is its configuration; the endpoint and the key it holds
    are not checked by the model (authentication is not modelled: every
    request reaches the world's server). *)

From S2P Require Import Prelude PyStr UrlParse LocalFS Artifactory.

(** A request sent to the server. *)
Inductive api_call :=
  | CallDeploy (repo remote : string)
  | CallRetrieve (repo path : string)
  | CallStorageInfo (repo path : string)
  | CallPing.

Record world (S : Type) := {
  w_server : S;
  w_fs : fs;
  w_env : gmap string string;
  w_stdout : list string;
  w_calls : list api_call;
}.
Arguments w_server {S}. Arguments w_fs {S}. Arguments w_env {S}.
Arguments w_stdout {S}. Arguments w_calls {S}.

(** [rtpy.Rtpy({"af_url": ..., "api_key": ...})] *)
Record rtpy_client := { af_url : string; af_api_key : string }.

(** The attributes of a [JFrogArtifactRepository]. *)
Record repo_obj := {
  artifact_uri : string;
  artifactory_repo : option string;
  api_key : option string;
  artifactory_endpoint : option string;
  artifactory_api_key : option string;
  af : option rtpy_client;
}.

Definition mk_obj (uri : string) (repo key endpoint akey : option string) (client : option rtpy_client) :=
  {| artifact_uri := uri; artifactory_repo := repo; api_key := key;
     artifactory_endpoint := endpoint; artifactory_api_key := akey; af := client |}.

(** ** Effects on the world *)

Section Effects.
Context {S : Type} `{!ArtifactoryApi S}.

Definition with_server (w : world S) (s : S) : world S :=
  {| w_server := s; w_fs := w_fs w; w_env := w_env w; w_stdout := w_stdout w; w_calls := w_calls w |}.
Definition with_fs (w : world S) (m : fs) : world S :=
  {| w_server := w_server w; w_fs := m; w_env := w_env w; w_stdout := w_stdout w; w_calls := w_calls w |}.
Definition with_output (w : world S) (line : string) : world S :=
  {| w_server := w_server w; w_fs := w_fs w; w_env := w_env w;
     w_stdout := w_stdout w ++ [line]; w_calls := w_calls w |}.
Definition with_call (w : world S) (c : api_call) : world S :=
  {| w_server := w_server w; w_fs := w_fs w; w_env := w_env w;
     w_stdout := w_stdout w; w_calls := w_calls w ++ [c] |}.

(** [print(a, b, ...)]: the arguments joined by one space. *)
Definition py_print (args : list string) : PyM (world S) py_exn unit :=
  py_modify (fun w => with_output w (str_join space_char args)).

(** Run a local file system action on the world's file system. *)
Definition on_fs {A} (act : PyM fs py_exn A) : PyM (world S) py_exn A :=
  fun w => let '(r, m) := act (w_fs w) in (r, with_fs w m).

(** [self.af] and [self.artifactory_repo], which are missing after an
    early return of [__init__]. *)
Definition get_af (o : repo_obj) : PyM (world S) py_exn rtpy_client :=
  if af o is Some c then py_ret c else py_raise (AttributeError "af").

Definition get_repo (o : repo_obj) : PyM (world S) py_exn string :=
  if artifactory_repo o is Some r then py_ret r else py_raise (AttributeError "artifactory_repo").

(** [af.artifacts_and_storage.deploy_artifact(repo, local, remote)]:
    the client reads the local file, then sends the request. *)
Definition deploy_artifact (repo local remote : string) : PyM (world S) py_exn unit :=
  fun w =>
    match read_file (w_fs w) local with
    | inl e => (inl e, w)
    | inr c =>
        let w1 := with_call w (CallDeploy repo remote) in
        match api_deploy (w_server w) repo remote c with
        | inl st => (inl (AfApiError st), w1)
        | inr s' => (inr tt, with_server w1 s')
        end
    end.

(** [af.artifacts_and_storage.retrieve_artifact(repo, path).content] *)
Definition retrieve_artifact (repo path : string) : PyM (world S) py_exn bytes :=
  fun w =>
    let w1 := with_call w (CallRetrieve repo path) in
    match api_retrieve (w_server w) repo path with
    | inl st => (inl (AfApiError st), w1)
    | inr c => (inr c, w1)
    end.

(** [af.artifacts_and_storage.folder_info] and [file_info]: one request. *)
Definition storage_info (repo path : string) : PyM (world S) py_exn storage_info :=
  fun w =>
    let w1 := with_call w (CallStorageInfo repo path) in
    match api_storage_info (w_server w) repo path with
    | inl st => (inl (AfApiError st), w1)
    | inr i => (inr i, w1)
    end.

(** [af.system_and_configuration.system_health_ping()]: one request. *)
Definition health_ping : PyM (world S) py_exn string :=
  fun w =>
    let w1 := with_call w CallPing in
    match api_ping (w_server w) with
    | inl st => (inl (AfApiError st), w1)
    | inr t => (inr t, w1)
    end.

(** The projections of the updated worlds. *)
Lemma world_output_proj w l :
  w_server (with_output w l) = w_server w /\ w_fs (with_output w l) = w_fs w /\
  w_calls (with_output w l) = w_calls w.
Proof. done. Qed.

Lemma world_call_proj w c :
  w_server (with_call w c) = w_server w /\ w_fs (with_call w c) = w_fs w /\
  w_calls (with_call w c) = w_calls w ++ [c].
Proof. done. Qed.

End Effects.
