(* ===== verification/PathMapper.v ===== *)
(** * Path mapper: the remote paths the operations compute

    Each operation of the plugin first computes a remote path from the
    netloc and the artifact directory of the artifact URI and the
    caller's argument.  The four call sites join them differently:

    - [log_artifact] (lines 59-63): [posixpath.join(netloc, artifact_path, artifact_dir)];
    - [log_artifacts] (lines 84-88): [posixpath.join(netloc, artifact_dir, artifact_path)];
    - [list_artifacts] (lines 111-114): ["/" + netloc + "/" + artifact_dir + "/" + path];
    - [_download_file] (line 148): [posixpath.join(netloc, artifact_dir, remote_file_path)].

    The theorems give the server's segments of each path, and show that
    [log_artifact] with an [artifact_path] uploads to a folder that
    [list_artifacts] and [_download_file] do not read. *)

From S2P Require Import Prelude PyStr PosixPath.

Module PathMapper.

(** [artifact_dir] of [log_artifact] *)
Definition log_artifact_dir (netloc artifact_dir : string) (artifact_path : option string) : string :=
  match artifact_path with
  | Some ap => if str_truthy ap then posix_join netloc [ap; artifact_dir] else posix_join netloc [artifact_dir]
  | None => posix_join netloc [artifact_dir]
  end.

(** [artifact_dir] of [log_artifacts] *)
Definition log_artifacts_dir (netloc artifact_dir : string) (artifact_path : option string) : string :=
  match artifact_path with
  | Some ap => if str_truthy ap then posix_join netloc [artifact_dir; ap] else posix_join netloc [artifact_dir]
  | None => posix_join netloc [artifact_dir]
  end.

(** [full_path] of [list_artifacts] *)
Definition list_full_path (netloc artifact_dir : string) (path : option string) : string :=
  match path with
  | Some p => if str_truthy p then "/" +:+ netloc +:+ "/" +:+ artifact_dir +:+ "/" +:+ p
              else "/" +:+ netloc +:+ "/" +:+ artifact_dir
  | None => "/" +:+ netloc +:+ "/" +:+ artifact_dir
  end.

(** [artifact_path] of [_download_file] *)
Definition download_path (netloc artifact_dir remote_file_path : string) : string :=
  posix_join netloc [artifact_dir; remote_file_path].

(** A relative path component without [".."]. *)
Definition rel_ok (s : string) : Prop := startswith s "/" = false /\ no_dotdot s = true.

(** A plain name is a relative path without [".."]. *)
Lemma plain_rel_ok n : plain_name n = true -> rel_ok n.
Proof.
  intros Hn. destruct (plain_name_props n Hn) as (_ & Hs & _ & Hdd). split.
  - destruct n as [|c t]; [done|]. destruct (startswith (String c t) "/") eqn:E; [|done].
    apply startswith_char in E. subst c. by rewrite str_contains_cons, Ascii.eqb_refl in Hs.
  - unfold no_dotdot. rewrite str_split_no_sep_single by done. simpl. by rewrite Hdd.
Qed.

(** Joining a plain name adds one segment. *)
Lemma segs_join_name d n : plain_name n = true -> segs (posix_join d [n]) = segs d ++ [n].
Proof.
  intros Hn. rewrite segs_posix_join by (repeat constructor; apply (plain_rel_ok n Hn)).
  simpl. by rewrite (segs_plain n Hn), app_nil_r.
Qed.

Section Segments.
Context (netloc dir : string) (Hdir : rel_ok dir).

Lemma segs_log_artifact_dir_sub ap :
  rel_ok ap -> str_truthy ap = true ->
  segs (log_artifact_dir netloc dir (Some ap)) = segs netloc ++ segs ap ++ segs dir.
Proof.
  intros Hap Ht. unfold log_artifact_dir. rewrite Ht, segs_posix_join by (repeat constructor; apply Hap || apply Hdir).
  simpl. by rewrite app_nil_r.
Qed.

Lemma segs_log_artifacts_dir_sub ap :
  rel_ok ap -> str_truthy ap = true ->
  segs (log_artifacts_dir netloc dir (Some ap)) = segs netloc ++ segs dir ++ segs ap.
Proof.
  intros Hap Ht. unfold log_artifacts_dir. rewrite Ht, segs_posix_join by (repeat constructor; apply Hap || apply Hdir).
  simpl. by rewrite app_nil_r.
Qed.

Lemma segs_log_dir_none :
  segs (log_artifact_dir netloc dir None) = segs netloc ++ segs dir /\
  segs (log_artifacts_dir netloc dir None) = segs netloc ++ segs dir.
Proof.
  unfold log_artifact_dir, log_artifacts_dir.
  rewrite segs_posix_join by (repeat constructor; apply Hdir). simpl. by rewrite app_nil_r.
Qed.

Lemma segs_list_full_path_sub p :
  no_dotdot p = true -> str_truthy p = true ->
  segs (list_full_path netloc dir (Some p)) = segs netloc ++ segs dir ++ segs p.
Proof.
  intros Hp Ht. unfold list_full_path. rewrite Ht, !slash_append, segs_slash_lead.
  rewrite !segs_slash_app; [done|done|]. rewrite no_dotdot_app_sep, Hp. by destruct Hdir as [_ ->].
Qed.

Lemma segs_list_full_path_root p :
  str_truthy p = false ->
  segs (list_full_path netloc dir (Some p)) = segs netloc ++ segs dir /\
  segs (list_full_path netloc dir None) = segs netloc ++ segs dir.
Proof.
  intros Hf. unfold list_full_path. rewrite Hf, !slash_append, segs_slash_lead, segs_slash_app by apply Hdir.
  done.
Qed.

Lemma segs_download_path r :
  rel_ok r -> segs (download_path netloc dir r) = segs netloc ++ segs dir ++ segs r.
Proof.
  intros Hr. unfold download_path. rewrite segs_posix_join by (repeat constructor; apply Hr || apply Hdir).
  simpl. by rewrite app_nil_r.
Qed.

(** C25: With an artifact_path, the folder log_artifact uploads to is the folder
    list_artifacts(artifact_path) reads only when the segments of artifact_path and of the artifact
    directory commute. *)
Theorem log_artifact_list_mismatch ap :
  rel_ok ap -> str_truthy ap = true ->
  segs (log_artifact_dir netloc dir (Some ap)) = segs (list_full_path netloc dir (Some ap)) <->
  segs ap ++ segs dir = segs dir ++ segs ap.
Proof.
  intros Hap Ht. rewrite segs_log_artifact_dir_sub, segs_list_full_path_sub by (apply Hap || done).
  split; [apply app_inv_head|by intros ->].
Qed.

(** C26: log_artifacts(d, artifact_path) uploads into the server folder that
    list_artifacts(artifact_path) reads, for every relative artifact_path. *)
Theorem log_artifacts_list_agree ap :
  rel_ok ap -> str_truthy ap = true ->
  segs (log_artifacts_dir netloc dir (Some ap)) = segs (list_full_path netloc dir (Some ap)).
Proof.
  intros [Hs Hd] Ht. rewrite segs_log_artifacts_dir_sub, segs_list_full_path_sub by done. done.
Qed.

End Segments.

Lemma log_artifact_list_mismatch_witness :
  segs (log_artifact_dir "host" "exp/run" (Some "models")) = segs (list_full_path "host" "exp/run" (Some "models")) <->
  segs "models" ++ segs "exp/run" = segs "exp/run" ++ segs "models".
Proof.
  refine (log_artifact_list_mismatch "host" "exp/run" _ "models" _ _);
    repeat split; reflexivity.
Defined.

Lemma log_artifacts_list_agree_witness :
  segs (log_artifacts_dir "host" "exp/run" (Some "models")) = segs (list_full_path "host" "exp/run" (Some "models")).
Proof. refine (log_artifacts_list_agree "host" "exp/run" _ "models" _ _); repeat split; reflexivity. Defined.

(** For instance: *)
Example log_artifact_list_mismatch_example :
  segs (log_artifact_dir "host" "exp/run" (Some "models")) = ["host"; "models"; "exp"; "run"] /\
  segs (list_full_path "host" "exp/run" (Some "models")) = ["host"; "exp"; "run"; "models"].
Proof. split; reflexivity. Qed.

End PathMapper.
