(* ===== verification/Lister.v ===== *)
(** * Directory lister: [_list_files] and [list_artifacts]

    [_list_files(directory, parent)] (lines 123-143) asks the server for
    the storage info of [directory]; without a [children] field it
    yields nothing, otherwise it yields, for each child in the server's
    order, a directory entry named by the child's base name, or a file
    entry named [parent + "/" + name] (or [name] when [parent is None])
    whose size is [int(...)] of a second storage-info request.
    [list_artifacts(path)] (lines 107-121) consumes the generator and
    sorts the entries by path.

    [Lister.list_spec] states the result against an [ArtifactoryModel]
    server: the entries the view prescribes, sorted; the other theorems
    cover the error paths and what the code does at the edges (directory
    entries are not prefixed with [parent], [path=""] gives file paths
    with a leading slash). *)

From Stdlib Require Import Sorted.
From S2P Require Import Prelude PyStr PosixPath PyInt PySort ArtifactoryUri Artifactory ArtifactoryLaws Repository PathMapper.

Module Lister.

(** [mlflow.entities.FileInfo(path, is_dir, file_size)] *)
Record file_info := { fi_path : string; fi_is_dir : bool; fi_file_size : option Z }.

Section Lister.
Context {S : Type} `{!ArtifactoryApi S}.

(** [sub_directory_rel = os.path.basename(file["uri"])] *)
Definition sub_directory_rel (file : child) : string := basename (child_uri file).

(** [file_name = "/" + os.path.basename(file["uri"])] *)
Definition file_name (file : child) : string := "/" +:+ basename (child_uri file).

(** [file_rel_path]: the base name when [parent is None], otherwise
    [parent + file_name]. *)
Definition file_rel_path (parent : option string) (file : child) : string :=
  match parent with
  | None => basename (child_uri file)
  | Some p => p +:+ file_name file
  end.

(** [size = int(r_file["size"])]: a reply without a size raises [KeyError]. *)
Definition file_size (r_file : Artifactory.storage_info) : py_exn + Z :=
  match si_size r_file with
  | None => inl (KeyError "size")
  | Some sz => py_int sz
  end.

(** The body of the [for file in listdir] loop for one child. *)
Definition list_child (o : repo_obj) (directory : string) (parent : option string) (file : child)
    : PyM (world S) py_exn file_info :=
  if child_folder file then
    py_ret {| fi_path := sub_directory_rel file; fi_is_dir := true; fi_file_size := None |}
  else
    let* _ := get_af o in
    let* repo := get_repo o in
    let* r_file := storage_info repo (directory +:+ file_name file) in
    let* size := py_lift (file_size r_file) in
    py_ret {| fi_path := file_rel_path parent file; fi_is_dir := false; fi_file_size := Some size |}.

(** [_list_files(directory, parent)], run to completion. *)
Definition list_files (o : repo_obj) (directory : string) (parent : option string)
    : PyM (world S) py_exn (list file_info) :=
  let* _ := get_af o in
  let* repo := get_repo o in
  let* r := storage_info repo directory in
  match si_children r with
  | None => py_ret []
  | Some listdir => py_map (list_child o directory parent) listdir
  end.

(** [sorted(infos, key=lambda f: f.path)] *)
Definition sort_by_path (infos : list file_info) : list file_info := py_sorted fi_path infos.

(** [list_artifacts(path)] *)
Definition list_artifacts (o : repo_obj) (path : option string)
    : PyM (world S) py_exn (list file_info) :=
  let* '(netloc, artifact_dir) := py_lift (UriResolver.parse_artifactory_uri (artifact_uri o)) in
  let full_path := PathMapper.list_full_path netloc artifact_dir path in
  let* _ := py_print ["full_path: "; full_path] in
  let* infos := list_files o full_path path in
  py_ret (sort_by_path infos).

End Lister.

(** ** The listing against a model of the server *)

Lemma pretty_N_Z x : pretty (Z.of_N x) = pretty x.
Proof. by destruct x. Qed.

(** [int(r_file["size"])] of the size the server reports. *)
Lemma py_int_size c : py_int (size_string c) = inr (Z.of_nat (length c)).
Proof.
  unfold size_string. rewrite <- pretty_N_Z. change (pretty (Z.of_N (N.of_nat (length c))))
    with (py_str_int (Z.of_N (N.of_nat (length c)))). by rewrite py_int_pretty, nat_N_Z.
Qed.

Lemma basename_slash n : plain_name n = true -> basename ("/" +:+ n) = n.
Proof.
  intros (_ & Hs & _)%plain_name_props. rewrite slash_append.
  change (String sep n) with ("" +:+ String sep n). by apply basename_app_sep.
Qed.

Section ListSpec.
Context {S : Type} `{ArtifactoryModel S}.

(** The entry the code builds for a child [(name, is_folder)] of [d]. *)
Definition entry_of (v : files) (d : list string) (parent : option string) (nb : string * bool) : file_info :=
  if nb.2 then {| fi_path := nb.1; fi_is_dir := true; fi_file_size := None |}
  else {| fi_path := match parent with None => nb.1 | Some p => p +:+ "/" +:+ nb.1 end;
          fi_is_dir := false;
          fi_file_size := Some (Z.of_nat (length (default [] (v !! (d ++ [nb.1]))))) |}.

(** What [list_artifacts] returns for the folder [d] of view [v]. *)
Definition expected_listing (v : files) (d : list string) (parent : option string) : list file_info :=
  py_sorted fi_path (entry_of v d parent <$> folder_children v d).

(** The calls leave the server and the local files as they were. *)
Definition stable (w0 w : world S) : Prop := w_server w = w_server w0 /\ w_fs w = w_fs w0.

Context (o : repo_obj) (cl : rtpy_client) (repo : string) (w0 : world S) (v : files).
Context (Hinv : am_inv (w_server w0)) (Hview : am_view (w_server w0) repo = Some v).
Context (Haf : af o = Some cl) (Hrepo : artifactory_repo o = Some repo).

Lemma list_child_ok dir parent ch n b w :
  child_pair ch = ("/" +:+ n, b) -> (n, b) ∈ folder_children v (segs dir) -> stable w0 w ->
  exists w', list_child o dir parent ch w = (inr (entry_of v (segs dir) parent (n, b)), w') /\ stable w0 w'.
Proof.
  intros Hch Hn Hw. pose proof (am_view_wf _ _ _ Hinv Hview) as Hwf.
  pose proof (folder_child_plain v Hwf _ _ _ Hn) as Hpl.
  destruct ch as [u fb]. unfold child_pair in Hch. simpl in Hch. injection Hch as -> ->.
  unfold list_child, sub_directory_rel, file_rel_path, file_name. cbn [child_uri child_folder].
  rewrite basename_slash by done.
  destruct b; [by exists w|].
  destruct (folder_child_file v _ _ Hn) as [c Hc].
  unfold get_af, get_repo. rewrite Haf, Hrepo. cbn [py_bind py_ret].
  destruct Hw as [Hs Hf].
  assert (api_storage_info (w_server w) repo (dir +:+ "/" +:+ n) =
          inr {| si_children := None; si_size := Some (size_string c) |}) as Hi.
  { rewrite Hs. apply (am_info_file _ _ _ v); [done|done|].
    by rewrite slash_append, segs_app_plain. }
  unfold storage_info, py_bind. rewrite Hi. cbn -[py_int].
  rewrite py_int_size. eexists; split; [unfold entry_of; simpl; rewrite Hc; reflexivity|]. by split.
Qed.
(** A child the server lists is a child of the view. *)
Lemma listed_child dir ch ch' :
  child_pair <$> ch ≡ₚ expected_children v (segs dir) -> ch' ∈ ch ->
  exists n b, child_pair ch' = ("/" +:+ n, b) /\ (n, b) ∈ folder_children v (segs dir).
Proof.
  intros Hperm Hin. assert (child_pair ch' ∈ expected_children v (segs dir)) as Hx.
  { rewrite <- Hperm. by apply list_elem_of_fmap_2. }
  unfold expected_children in Hx. apply list_elem_of_fmap in Hx as ([n b] & Heq & Hn).
  exists n, b. by split.
Qed.

Definition strip_pair (ub : string * bool) : string * bool := (basename ub.1, ub.2).

(** [_list_files] on a folder of the view yields its entries, in the
    order the server lists the children. *)
Lemma list_files_ok dir parent w :
  stable w0 w -> is_folder v (segs dir) = true ->
  exists infos w', list_files o dir parent w = (inr infos, w') /\
    infos ≡ₚ entry_of v (segs dir) parent <$> folder_children v (segs dir) /\ stable w0 w'.
Proof.
  intros Hw Hf. pose proof (am_view_wf _ _ _ Hinv Hview) as Hwf.
  destruct (am_info_folder _ _ dir v Hinv Hview Hf) as (ch & Hi & Hperm).
  unfold list_files, get_af, get_repo. rewrite Haf, Hrepo. cbn [py_bind py_ret].
  unfold storage_info, py_bind. destruct Hw as [Hs Hfs]. rewrite Hs, Hi. cbn [si_children].
  set (g := fun c => entry_of v (segs dir) parent (strip_pair (child_pair c))).
  destruct (py_map_ok (list_child o dir parent) g (stable w0) ch
              (with_call w (CallStorageInfo repo dir))) as (w' & Hm & Hw').
  { done. }
  { intros x w1 Hx Hw. destruct (listed_child dir ch x Hperm Hx) as (n & b & Hxp & Hn).
    destruct (list_child_ok dir parent x n b w1 Hxp Hn Hw) as (w2 & Hrun & Hw2).
    exists w2. split; [|done]. rewrite Hrun. subst g. cbn beta. rewrite Hxp.
    unfold strip_pair. simpl. by rewrite basename_slash by (eapply folder_child_plain; eauto). }
  exists (g <$> ch), w'. split; [done|]. split; [|done].
  assert (g <$> ch = (fun ub => entry_of v (segs dir) parent (strip_pair ub)) <$> (child_pair <$> ch))
    as -> by (rewrite <- list_fmap_compose; reflexivity).
  rewrite Hperm. unfold expected_children. rewrite <- list_fmap_compose.
  apply reflexive_eq, list_fmap_ext. intros i [n b] Hn%list_elem_of_lookup_2.
  unfold compose, strip_pair. simpl. by rewrite basename_slash by (eapply folder_child_plain; eauto).
Qed.
(** Entry paths are distinct, so sorting them has one result. *)
Lemma entry_paths_inj d parent x y :
  x ∈ entry_of v d parent <$> folder_children v d -> y ∈ entry_of v d parent <$> folder_children v d ->
  fi_path x = fi_path y -> x = y.
Proof.
  pose proof (am_view_wf _ _ _ Hinv Hview) as Hwf.
  intros ([n b] & -> & Hn)%list_elem_of_fmap ([n' b'] & -> & Hn')%list_elem_of_fmap.
  pose proof (folder_child_plain v Hwf _ _ _ Hn) as (_ & Hs & _)%plain_name_props.
  pose proof (folder_child_plain v Hwf _ _ _ Hn') as (_ & Hs' & _)%plain_name_props.
  assert (forall (p m : string), str_contains sep (p +:+ "/" +:+ m) = true) as Hsl.
  { intros p m. rewrite slash_append, str_contains_append, str_contains_cons.
    unfold sep. rewrite Ascii.eqb_refl. by rewrite orb_true_r. }
  unfold entry_of. destruct b, b'; simpl.
  - by intros ->.
  - destruct parent as [p|]; simpl; intros Heq.
    + exfalso. rewrite Heq, Hsl in Hs. done.
    + subst. by pose proof (folder_child_kind v Hwf d _ _ _ Hn Hn').
  - destruct parent as [p|]; simpl; intros Heq.
    + exfalso. rewrite <- Heq, Hsl in Hs'. done.
    + subst. by pose proof (folder_child_kind v Hwf d _ _ _ Hn Hn').
  - destruct parent as [p|]; simpl; intros Heq.
    + apply (inj (String.append p)) in Heq. rewrite !slash_append in Heq. injection Heq as ->. done.
    + by subst.
Qed.

(** [list_artifacts(path)] on a folder of the view returns the
    entries of the folder, sorted by path, and changes neither the
    server nor the local files. *)
Lemma list_artifacts_listing path netloc adir :
  UriResolver.parse_artifactory_uri (artifact_uri o) = inr (netloc, adir) ->
  is_folder v (segs (PathMapper.list_full_path netloc adir path)) = true ->
  exists w', list_artifacts o path w0 =
    (inr (expected_listing v (segs (PathMapper.list_full_path netloc adir path)) path), w') /\
    stable w0 w'.
Proof.
  intros Hparse Hf. unfold list_artifacts, py_lift. rewrite py_run_bind, Hparse.
  cbv iota beta. unfold py_print, py_modify. rewrite py_run_bind.
  set (full := PathMapper.list_full_path netloc adir path).
  destruct (list_files_ok full path (with_output w0 (str_join space_char ["full_path: "; full])))
    as (infos & w' & Hrun & Hperm & Hw'); [done|done|].
  rewrite py_run_bind, Hrun. exists w'. split; [|done]. unfold py_ret. do 2 f_equal.
  unfold expected_listing. symmetry. apply py_sorted_unique.
  - intros x y Hx Hy. rewrite Hperm in Hx, Hy. by apply (entry_paths_inj (segs full) path).
  - apply py_sorted_sorted.
  - by rewrite py_sorted_perm.
Qed.

(** C1: list_artifacts(path) on a folder of the repository returns the folder's entries (folders
    without a size, files with the size of their bytes, file paths prefixed by path), sorted by path
    whatever order the server lists them in, and leaves the server and the local files unchanged. *)
Theorem list_artifacts_spec path netloc adir :
  UriResolver.parse_artifactory_uri (artifact_uri o) = inr (netloc, adir) ->
  is_folder v (segs (PathMapper.list_full_path netloc adir path)) = true ->
  exists w', list_artifacts o path w0 =
    (inr (expected_listing v (segs (PathMapper.list_full_path netloc adir path)) path), w') /\
    stable w0 w'.
Proof. apply list_artifacts_listing. Qed.
(** Every entry of a listing is well formed: a folder carries no size,
    a file a non-negative one. *)
Definition entry_wf (e : file_info) : Prop :=
  (fi_is_dir e = true /\ fi_file_size e = None) \/
  (fi_is_dir e = false /\ exists n, fi_file_size e = Some n /\ (0 <= n)%Z).

Lemma expected_listing_wf d parent : Forall entry_wf (expected_listing v d parent).
Proof.
  unfold expected_listing. apply Forall_forall. intros e He.
  rewrite py_sorted_perm in He. apply list_elem_of_fmap in He as ([n b] & -> & _).
  unfold entry_of, entry_wf. destruct b; simpl; [by left|]. right. split; [done|]. eexists. split; [done|]. lia.
Qed.

(** C8: For a folder, list_artifacts returns a list sorted by path in which every folder entry has
    no size and every file entry a non-negative size. *)
Theorem list_artifacts_sorted_wf path netloc adir :
  UriResolver.parse_artifactory_uri (artifact_uri o) = inr (netloc, adir) ->
  is_folder v (segs (PathMapper.list_full_path netloc adir path)) = true ->
  exists infos w', list_artifacts o path w0 = (inr infos, w') /\
    Sorted (key_le fi_path) infos /\ Forall entry_wf infos.
Proof.
  intros Hp Hf. destruct (list_artifacts_listing path netloc adir Hp Hf) as (w' & E & _).
  eexists _, w'. split; [exact E|]. split; [apply py_sorted_sorted|apply expected_listing_wf].
Qed.

(** The steps of [list_artifacts] before [_list_files]. *)
Lemma list_artifacts_unfold path netloc adir :
  UriResolver.parse_artifactory_uri (artifact_uri o) = inr (netloc, adir) ->
  list_artifacts o path w0 =
    let full := PathMapper.list_full_path netloc adir path in
    (let* infos := list_files o full path in py_ret (py_sorted fi_path infos))
      (with_output w0 (str_join space_char ["full_path: "; full])).
Proof. intros Hparse. unfold list_artifacts, py_lift. rewrite py_run_bind, Hparse. reflexivity. Qed.

(** [list_artifacts(path)] where [path] names a file: the storage info
    has no [children], so the listing is empty. *)
Lemma list_file_empty path netloc adir c :
  UriResolver.parse_artifactory_uri (artifact_uri o) = inr (netloc, adir) ->
  v !! segs (PathMapper.list_full_path netloc adir path) = Some c ->
  exists w', list_artifacts o path w0 = (inr [], w') /\ stable w0 w'.
Proof.
  intros Hparse Hc. rewrite (list_artifacts_unfold path netloc adir Hparse). cbv zeta.
  unfold list_files, get_af, get_repo. rewrite Haf, Hrepo. cbn [py_bind py_ret].
  unfold storage_info, py_bind, py_ret. cbv beta iota zeta. rewrite (proj1 (world_output_proj _ _)).
  rewrite (am_info_file _ _ _ v c Hinv Hview Hc). simpl. eexists; split; [reflexivity|done].
Qed.

(** [list_artifacts(path)] where [path] names nothing: the client's error. *)
Lemma list_missing_error path netloc adir :
  UriResolver.parse_artifactory_uri (artifact_uri o) = inr (netloc, adir) ->
  v !! segs (PathMapper.list_full_path netloc adir path) = None ->
  is_folder v (segs (PathMapper.list_full_path netloc adir path)) = false ->
  exists st w', list_artifacts o path w0 = (inl (AfApiError st), w') /\ stable w0 w'.
Proof.
  intros Hparse Hc Hf. rewrite (list_artifacts_unfold path netloc adir Hparse). cbv zeta.
  unfold list_files, get_af, get_repo. rewrite Haf, Hrepo. cbn [py_bind py_ret].
  unfold storage_info, py_bind, py_ret. cbv beta iota zeta. rewrite (proj1 (world_output_proj _ _)).
  destruct (am_info_missing _ _ _ v Hinv Hview Hc Hf) as [e ->].
  eexists _, _; split; [reflexivity|done].
Qed.

(** list_artifacts(path) where path names a file returns an empty list (the storage info has no
    children) and changes nothing. *)
Theorem list_artifacts_of_file path netloc adir c :
  UriResolver.parse_artifactory_uri (artifact_uri o) = inr (netloc, adir) ->
  v !! segs (PathMapper.list_full_path netloc adir path) = Some c ->
  exists w', list_artifacts o path w0 = (inr [], w') /\ stable w0 w'.
Proof. apply list_file_empty. Qed.

(** C27: list_artifacts(path) where path names nothing on the server propagates the client's
    AfApiError. *)
Theorem list_artifacts_missing path netloc adir :
  UriResolver.parse_artifactory_uri (artifact_uri o) = inr (netloc, adir) ->
  v !! segs (PathMapper.list_full_path netloc adir path) = None ->
  is_folder v (segs (PathMapper.list_full_path netloc adir path)) = false ->
  exists st w', list_artifacts o path w0 = (inl (AfApiError st), w') /\ stable w0 w'.
Proof. apply list_missing_error. Qed.

(** Whatever [path] names, [list_artifacts(path)] changes nothing, and
    either raises the client's error or returns entries whose folders
    are folders of the listed directory. *)
Lemma list_artifacts_cases path netloc adir :
  UriResolver.parse_artifactory_uri (artifact_uri o) = inr (netloc, adir) ->
  exists r w', list_artifacts o path w0 = (r, w') /\ stable w0 w' /\
    match r with
    | inl e => exists st, e = AfApiError st
    | inr infos => forall fi, fi ∈ infos -> fi_is_dir fi = true ->
        (fi_path fi, true) ∈ folder_children v (segs (PathMapper.list_full_path netloc adir path))
    end.
Proof.
  intros Hparse. set (d := segs (PathMapper.list_full_path netloc adir path)).
  destruct (is_folder v d) eqn:Hf.
  - destruct (list_artifacts_listing path netloc adir Hparse Hf) as (w' & E & Hs).
    exists (inr (expected_listing v d path)), w'. do 2 (split; [done|]).
    intros fi Hfi Hdir. unfold expected_listing in Hfi. rewrite py_sorted_perm in Hfi.
    apply list_elem_of_fmap in Hfi as ([n [|]] & -> & Hn); [done|done].
  - destruct (v !! d) as [c|] eqn:Hc.
    + destruct (list_file_empty path netloc adir c Hparse Hc) as (w' & E & Hs).
      exists (inr []), w'. do 2 (split; [done|]). by intros ? ?%not_elem_of_nil.
    + destruct (list_missing_error path netloc adir Hparse Hc Hf) as (st & w' & E & Hs).
      exists (inl (AfApiError st)), w'. do 2 (split; [done|]). by exists st.
Qed.
End ListSpec.

(** Listing is idempotent: a second list_artifacts(path) on the unchanged server returns the
    same entries in the same order, and neither call changes the server or the local files. *)
Theorem list_artifacts_idempotent {S} `{ArtifactoryModel S} o cl repo (w0 : world S) v path netloc adir :
  am_inv (w_server w0) -> am_view (w_server w0) repo = Some v ->
  af o = Some cl -> artifactory_repo o = Some repo ->
  UriResolver.parse_artifactory_uri (artifact_uri o) = inr (netloc, adir) ->
  is_folder v (segs (PathMapper.list_full_path netloc adir path)) = true ->
  exists infos w1 w2, list_artifacts o path w0 = (inr infos, w1) /\
    list_artifacts o path w1 = (inr infos, w2) /\ stable w0 w2.
Proof.
  intros Hi Hv Haf Hr Hp Hf.
  destruct (list_artifacts_listing o cl repo w0 v Hi Hv Haf Hr path netloc adir Hp Hf) as (w1 & E1 & Hs1 & Hfs1).
  rewrite <- Hs1 in Hi, Hv.
  destruct (list_artifacts_listing o cl repo w1 v Hi Hv Haf Hr path netloc adir Hp Hf) as (w2 & E2 & Hs2 & Hfs2).
  eexists _, w1, w2. split; [exact E1|]. split; [exact E2|]. split; congruence.
Qed.

(** Without [self.af] (after [__init__] returned early because a
    [repo_name] was given) every listing raises [AttributeError]. *)
Theorem list_artifacts_no_client {S} `{!ArtifactoryApi S} (o : repo_obj) path netloc adir (w : world S) :
  UriResolver.parse_artifactory_uri (artifact_uri o) = inr (netloc, adir) -> af o = None ->
  fst (list_artifacts o path w) = inl (AttributeError "af").
Proof.
  intros Hparse Haf. unfold list_artifacts, py_lift. rewrite py_run_bind, Hparse. simpl.
  unfold list_files, get_af. rewrite Haf. reflexivity.
Qed.

End Lister.

(** ** What the code does at the edges, on a concrete server *)

Module ListerExamples.
Import MemServer Lister.

Definition client : rtpy_client := {| af_url := "https://af.example/artifactory"; af_api_key := "key" |}.
Definition obj : repo_obj := mk_obj "artifactory://host/exp" (Some "repo") None None None (Some client).

(** A repository with [host/exp/model.pkl], [host/exp/weights/a.bin]
    and [host/exp/weights/sub/b.bin]. *)
Definition srv : server :=
  let s0 : server := list_to_map [("repo", ∅)] in
  let put s p c := deploy_or_keep s "repo" p c in
  put (put (put s0 "host/exp/model.pkl" [Byte.x41]) "host/exp/weights/a.bin" [Byte.x41; Byte.x42])
      "host/exp/weights/sub/b.bin" [Byte.x43].

Lemma srv_inv : server_inv srv.
Proof. repeat apply deploy_or_keep_inv. apply (empty_repos_inv ["repo"]). Qed.

(** The files of [repo]. *)
Definition v0 : files := default ∅ (view srv "repo").

Definition w0 : world server := {| w_server := srv; w_fs := ∅; w_env := ∅; w_stdout := []; w_calls := [] |}.

(** On a repository with a file model.pkl and a folder weights, list_artifacts() returns the
    file with its size and the folder without one, sorted by path. *)
Example list_root_example :
  fst (list_artifacts obj None w0) =
  inr [{| fi_path := "model.pkl"; fi_is_dir := false; fi_file_size := Some 1%Z |};
       {| fi_path := "weights"; fi_is_dir := true; fi_file_size := None |}].
Proof. vm_compute. reflexivity. Qed.

(** list_artifacts('weights') reports the file as weights/a.bin but the sub-folder as sub, not
    weights/sub. *)
Example list_subdir_not_prefixed :
  fst (list_artifacts obj (Some "weights") w0) =
  inr [{| fi_path := "sub"; fi_is_dir := true; fi_file_size := None |};
       {| fi_path := "weights/a.bin"; fi_is_dir := false; fi_file_size := Some 2%Z |}].
Proof. vm_compute. reflexivity. Qed.

(** list_artifacts('') lists the root folder but reports file paths with a leading slash,
    because parent is '' and not None. *)
Example list_empty_path_leading_slash :
  fst (list_artifacts obj (Some "") w0) =
  inr [{| fi_path := "/model.pkl"; fi_is_dir := false; fi_file_size := Some 1%Z |};
       {| fi_path := "weights"; fi_is_dir := true; fi_file_size := None |}].
Proof. vm_compute. reflexivity. Qed.

(** One request for the folder and one per file. *)
Example list_root_requests :
  w_calls (snd (list_artifacts obj None w0)) =
  [CallStorageInfo "repo" "/host/exp"; CallStorageInfo "repo" "/host/exp/model.pkl"].
Proof. vm_compute. reflexivity. Qed.

(** A server that lists [b.txt], [a.txt] and the folder [c] of
    [/host/exp] in that order and reports [bsize] as the size of [b.txt]. *)
Definition fixed_api (bsize : string) : ArtifactoryApi unit := {|
  api_deploy s r p c := inl 405%N;
  api_retrieve s r p := inl 404%N;
  api_storage_info s r p :=
    if String.eqb p "/host/exp" then
      inr {| si_children := Some [{| child_uri := "/b.txt"; child_folder := false |};
                                   {| child_uri := "/a.txt"; child_folder := false |};
                                   {| child_uri := "/c"; child_folder := true |}];
             si_size := None |}
    else if String.eqb p "/host/exp/b.txt" then inr {| si_children := None; si_size := Some bsize |}
    else inr {| si_children := None; si_size := Some "3" |};
  api_ping s := inr "OK" |}.

Definition wu : world unit := {| w_server := tt; w_fs := ∅; w_env := ∅; w_stdout := []; w_calls := [] |}.

(** Entries that the server returns out of order (b.txt, a.txt, folder c) come back sorted by
    path: a.txt, b.txt, c. *)
Example list_sorts_server_order :
  fst (@list_artifacts unit (fixed_api "4") obj None wu) =
  inr [{| fi_path := "a.txt"; fi_is_dir := false; fi_file_size := Some 3%Z |};
       {| fi_path := "b.txt"; fi_is_dir := false; fi_file_size := Some 4%Z |};
       {| fi_path := "c"; fi_is_dir := true; fi_file_size := None |}].
Proof. vm_compute. reflexivity. Qed.

(** The size string from the server is passed to int() unchecked: a server reporting -5 for a
    file yields an entry with a negative size. *)
Example list_negative_size :
  fst (@list_artifacts unit (fixed_api "-5") obj None wu) =
  inr [{| fi_path := "a.txt"; fi_is_dir := false; fi_file_size := Some 3%Z |};
       {| fi_path := "b.txt"; fi_is_dir := false; fi_file_size := Some (-5)%Z |};
       {| fi_path := "c"; fi_is_dir := true; fi_file_size := None |}].
Proof. vm_compute. reflexivity. Qed.

Lemma list_artifacts_sorted_wf_witness :
  exists infos w', list_artifacts obj None w0 = (inr infos, w') /\
    Sorted (key_le fi_path) infos /\ Forall entry_wf infos.
Proof.
  refine (list_artifacts_sorted_wf obj client "repo" w0 v0 srv_inv eq_refl _ _ None "host" "exp" _ _);
    vm_compute; reflexivity.
Defined.

Lemma list_artifacts_idempotent_witness :
  exists infos w1 w2, list_artifacts obj None w0 = (inr infos, w1) /\
    list_artifacts obj None w1 = (inr infos, w2) /\ stable w0 w2.
Proof.
  refine (list_artifacts_idempotent obj client "repo" w0 v0 None "host" "exp" srv_inv eq_refl _ _ _ _);
    vm_compute; reflexivity.
Defined.

Lemma list_artifacts_spec_witness :
  exists w', list_artifacts obj None w0 =
    (inr (expected_listing v0 (segs (PathMapper.list_full_path "host" "exp" None)) None), w') /\ stable w0 w'.
Proof.
  refine (list_artifacts_spec obj client "repo" w0 v0 srv_inv eq_refl _ _ None "host" "exp" _ _);
    vm_compute; reflexivity.
Defined.

Lemma list_artifacts_of_file_witness :
  exists w', list_artifacts obj (Some "model.pkl") w0 = (inr [], w') /\ stable w0 w'.
Proof.
  refine (list_artifacts_of_file obj client "repo" w0 v0 srv_inv eq_refl _ _ (Some "model.pkl") "host" "exp" [Byte.x41] _ _);
    vm_compute; reflexivity.
Defined.

Lemma list_artifacts_missing_witness :
  exists st w', list_artifacts obj (Some "nothing") w0 = (inl (AfApiError st), w') /\ stable w0 w'.
Proof.
  refine (list_artifacts_missing obj client "repo" w0 v0 srv_inv eq_refl _ _ (Some "nothing") "host" "exp" _ _ _);
    vm_compute; reflexivity.
Defined.

End ListerExamples.
