(* ===== verification/Transfer.v ===== *)
(** * Transfer driver: [log_artifact], [log_artifacts], [_download_file],
    [delete_artifacts]

    The uploads (lines 57-105) compute the remote folder with the path
    mapper, print it, and deploy each local regular file to
    [folder/<file name>], turning the client's [AfApiError] into a
    [RuntimeError]; [log_artifact] does nothing when its argument is not
    a regular file.  [log_artifacts] deploys every regular file that
    [Path(local_dir).glob("**/*")] yields, in the file system's order,
    all to the same folder (the sub-directories are not kept), and stops
    at the first failure.  [_download_file] (lines 145-157) retrieves the
    remote file, creates the parent directories of the local path and
    writes the bytes there.  [delete_artifacts] (lines 159-160) raises.

    Python's [str] of a [Path] from the [glob] is modelled as the
    absolute path of the entry, and [str] of an [AfApiError] (printed by
    the handler) as its status; both only reach standard output and
    error messages. *)

From S2P Require Import Prelude PyStr PosixPath LocalFS ArtifactoryUri Artifactory ArtifactoryLaws Repository PathMapper.

Module Transfer.

(** The message of the [RuntimeError] of an upload; [indent] is the
    indentation of the second line of the f-string in the source. *)
Definition upload_error_msg (indent : nat) (local_file repo remote_file : string) : string :=
  "Unable to log " +:+ local_file +:+ " to repository" +:+
  String newline_char (spaces indent +:+ repo +:+ " with target destination " +:+ remote_file).

Definition exn_str (e : py_exn) : string :=
  match e with AfApiError st => pretty st | _ => "" end.

(** [remote_file = posixpath.join(artifact_dir, Path(local_file).name)] in [log_artifact]. *)
Definition remote_file_of (artifact_dir local_file : string) : string :=
  posix_join artifact_dir [path_name local_file].

(** [remote_file = posixpath.join(artifact_dir, local_file.name)] in
    [log_artifacts], for the glob result at the key [k]. *)
Definition entry_remote_file (artifact_dir : string) (k : list string) : string :=
  posix_join artifact_dir [default "" (last k)].

(** The absolute path of a local entry, [str(local_file)]. *)
Definition path_of_key (k : list string) : string := "/" +:+ str_join sep k.

Section Transfer.
Context {S : Type} `{!ArtifactoryApi S}.

(** [try: deploy_artifact(...) except self.af.AfApiError as error:
        print(error); raise RuntimeError(...)] *)
Definition deploy_or_raise (indent : nat) (repo local_file remote_file : string) : PyM (world S) py_exn unit :=
  py_try (deploy_artifact repo local_file remote_file)
    (fun e => match e with
              | AfApiError _ =>
                  let* _ := py_print [exn_str e] in
                  py_raise (RuntimeError (upload_error_msg indent local_file repo remote_file))
              | _ => py_raise e
              end).

(** [log_artifact(local_file, artifact_path=None)] *)
Definition log_artifact (o : repo_obj) (local_file : string) (artifact_path : option string)
    : PyM (world S) py_exn unit :=
  let* '(netloc, artifact_dir0) := py_lift (UriResolver.parse_artifactory_uri (artifact_uri o)) in
  let artifact_dir := PathMapper.log_artifact_dir netloc artifact_dir0 artifact_path in
  let* _ := py_print ["artifact_dir: "; artifact_dir] in
  let* _ := py_print ["local_file: "; local_file] in
  let* w := py_get in
  if is_file (w_fs w) local_file then
    let remote_file := remote_file_of artifact_dir local_file in
    let* _ := get_af o in
    let* repo := get_repo o in
    deploy_or_raise 24 repo local_file remote_file
  else py_ret tt.

(** The body of the loop of [log_artifacts] for one entry [k]. *)
Definition log_entry (o : repo_obj) (artifact_dir : string) (k : list string) : PyM (world S) py_exn unit :=
  let* w := py_get in
  if w_fs w !! k is Some (LFile _) then
    let remote_file := entry_remote_file artifact_dir k in
    let* _ := get_af o in
    let* repo := get_repo o in
    deploy_or_raise 28 repo (path_of_key k) remote_file
  else py_ret tt.

(** [log_artifacts(local_dir, artifact_path=None)] when the [glob]
    enumerates the entries in [order]. *)
Definition log_artifacts_in (order : list (list string)) (o : repo_obj) (local_dir : string)
    (artifact_path : option string) : PyM (world S) py_exn unit :=
  let* '(netloc, artifact_dir0) := py_lift (UriResolver.parse_artifactory_uri (artifact_uri o)) in
  let artifact_dir := PathMapper.log_artifacts_dir netloc artifact_dir0 artifact_path in
  let* _ := py_print ["artifact_dir: "; artifact_dir] in
  let* _ := py_print ["local_dir: "; local_dir] in
  py_for order (log_entry o artifact_dir).

(** [log_artifacts] with the enumeration order of [glob_all]. *)
Definition log_artifacts (o : repo_obj) (local_dir : string) (artifact_path : option string)
    : PyM (world S) py_exn unit :=
  fun w => log_artifacts_in (glob_all (w_fs w) local_dir) o local_dir artifact_path w.

(** [os.makedirs(os.path.dirname(local_path), exist_ok=True)], then
    [with open(local_path, "wb") as artifact: artifact.write(r.content)]. *)
Definition save_file (local_path : string) (content : bytes) : PyM (world S) py_exn unit :=
  let* _ := on_fs (makedirs (dirname local_path)) in
  on_fs (write_file local_path content).

(** [_download_file(remote_file_path, local_path)] *)
Definition download_file (o : repo_obj) (remote_file_path local_path : string) : PyM (world S) py_exn unit :=
  let* '(netloc, artifact_dir) := py_lift (UriResolver.parse_artifactory_uri (artifact_uri o)) in
  let* _ := py_print ["local_path: "; local_path] in
  let artifact_path := PathMapper.download_path netloc artifact_dir remote_file_path in
  let* _ := py_print ["artifact_path: "; artifact_path] in
  let* _ := get_af o in
  let* repo := get_repo o in
  let* content := retrieve_artifact repo artifact_path in
  save_file local_path content.

(** [delete_artifacts(artifact_path=None)] *)
Definition delete_artifacts (o : repo_obj) (artifact_path : option string) : PyM (world S) py_exn unit :=
  py_raise (MlflowException "delete_artifacts not implemented yet").

(** ** Running the common prefix *)

Definition printed2 (w : world S) (l1 l2 : string) : world S := with_output (with_output w l1) l2.

Lemma printed2_proj w l1 l2 :
  w_server (printed2 w l1 l2) = w_server w /\ w_fs (printed2 w l1 l2) = w_fs w /\
  w_calls (printed2 w l1 l2) = w_calls w.
Proof. done. Qed.

Lemma log_artifact_unfold o f ap netloc d0 w :
  UriResolver.parse_artifactory_uri (artifact_uri o) = inr (netloc, d0) ->
  let dir := PathMapper.log_artifact_dir netloc d0 ap in
  let w1 := printed2 w (str_join space_char ["artifact_dir: "; dir]) (str_join space_char ["local_file: "; f]) in
  log_artifact o f ap w =
    (if is_file (w_fs w) f then
      (let* _ := get_af o in let* repo := get_repo o in
       deploy_or_raise 24 repo f (posix_join dir [path_name f]))
    else py_ret tt) w1.
Proof. intros Hp. unfold log_artifact, py_lift. rewrite py_run_bind, Hp. reflexivity. Qed.

(** C30: log_artifact of a path that is not a regular file only prints: no request, no change to the
    server or the local files. *)
Theorem log_artifact_not_file o f ap netloc d0 w :
  UriResolver.parse_artifactory_uri (artifact_uri o) = inr (netloc, d0) -> is_file (w_fs w) f = false ->
  exists w', log_artifact o f ap w = (inr tt, w') /\
    w_server w' = w_server w /\ w_fs w' = w_fs w /\ w_calls w' = w_calls w.
Proof. intros Hp Hf. rewrite (log_artifact_unfold o f ap netloc d0 w Hp). cbv zeta. rewrite Hf. by eexists. Qed.

Lemma read_file_is_file m f c : read_file m f = inr c -> is_file m f = true.
Proof.
  unfold read_file, is_file. destruct (segs f); [done|].
  by destruct (m !! _) as [[]|].
Qed.

End Transfer.

(** ** [log_artifacts]: one request per regular file *)

Section LogArtifacts.
Context {S : Type} `{!ArtifactoryApi S}.
(** The server accepts every deploy. *)
Context (Hok : forall s r p c, exists s', api_deploy s r p c = inr s').
Context (o : repo_obj) (cl : rtpy_client) (repo : string).
Context (Haf : af o = Some cl) (Hrepo : artifactory_repo o = Some repo).

Definition is_file_key (m : fs) (k : list string) : bool :=
  if m !! k is Some (LFile _) then true else false.

(** The request for the local file [k] of [log_artifacts]. *)
Definition call_of (dir : string) (k : list string) : api_call :=
  CallDeploy repo (entry_remote_file dir k).

(** The requests [log_artifacts] sends for the entries [l]. *)
Definition deploy_calls (m : fs) (dir : string) (l : list (list string)) : list api_call :=
  call_of dir <$> List.filter (is_file_key m) l.

Lemma deploy_or_raise_ok indent r f remote c s' (w : world S) :
  read_file (w_fs w) f = inr c -> api_deploy (w_server w) r remote c = inr s' ->
  deploy_or_raise indent r f remote w = (inr tt, with_server (with_call w (CallDeploy r remote)) s').
Proof. intros Hr Hd. unfold deploy_or_raise, py_try, deploy_artifact. by rewrite Hr, Hd. Qed.

Lemma deploy_or_raise_err indent r f remote c st (w : world S) :
  read_file (w_fs w) f = inr c -> api_deploy (w_server w) r remote c = inl st ->
  deploy_or_raise indent r f remote w =
    (inl (RuntimeError (upload_error_msg indent f r remote)),
     with_output (with_call w (CallDeploy r remote)) (str_join space_char [pretty st])).
Proof. intros Hr Hd. unfold deploy_or_raise, py_try, deploy_artifact. by rewrite Hr, Hd. Qed.

Lemma log_entry_file dir k c (w : world S) :
  w_fs w !! k = Some (LFile c) ->
  log_entry o dir k w = deploy_or_raise 28 repo (path_of_key k) (entry_remote_file dir k) w.
Proof. intros E. unfold log_entry, py_get, get_af, get_repo, py_bind. by rewrite E, Haf, Hrepo. Qed.

Lemma log_entry_other dir k (w : world S) :
  is_file_key (w_fs w) k = false -> log_entry o dir k w = (inr tt, w).
Proof. unfold is_file_key, log_entry, py_get, py_bind. by destruct (w_fs w !! k) as [[]|]. Qed.

Lemma log_entries_ok dir (l : list (list string)) (w : world S) :
  fs_wf (w_fs w) ->
  exists w', py_for l (log_entry o dir) w = (inr tt, w') /\ w_fs w' = w_fs w /\
    w_calls w' = w_calls w ++ deploy_calls (w_fs w) dir l.
Proof.
  intros Hwf. revert w Hwf. induction l as [|k l IH]; intros w Hwf.
  - exists w. simpl. by rewrite app_nil_r.
  - simpl. rewrite py_run_bind. unfold deploy_calls. simpl.
    destruct (is_file_key (w_fs w) k) eqn:Ek.
    + unfold is_file_key in Ek. destruct (w_fs w !! k) as [[c|]|] eqn:E; try discriminate.
      destruct (Hok (w_server w) repo (entry_remote_file dir k) c) as [s' Hs'].
      rewrite (log_entry_file _ _ c), (deploy_or_raise_ok _ _ _ _ c s') by (done || by apply read_file_key).
      destruct (IH (with_server (with_call w (CallDeploy repo (entry_remote_file dir k))) s') Hwf)
        as (w' & Hrun & Hfs & Hcalls).
      exists w'. split; [exact Hrun|]. split; [done|]. rewrite Hcalls. simpl. by rewrite <- app_assoc.
    + rewrite log_entry_other by done. exact (IH w Hwf).
Qed.

Lemma log_entries_abort dir (l : list (list string)) (w w' : world S) e :
  fs_wf (w_fs w) -> py_for l (log_entry o dir) w = (inl e, w') ->
  exists pre k post, List.filter (is_file_key (w_fs w)) l = pre ++ k :: post /\
    w_fs w' = w_fs w /\ w_calls w' = w_calls w ++ (call_of dir <$> pre ++ [k]) /\
    e = RuntimeError (upload_error_msg 28 (path_of_key k) repo (entry_remote_file dir k)).
Proof.
  intros Hwf. revert w Hwf. induction l as [|k l IH]; intros w Hwf Hrun; [done|].
  simpl in Hrun |- *. rewrite py_run_bind in Hrun.
  destruct (is_file_key (w_fs w) k) eqn:Ek.
  - unfold is_file_key in Ek. destruct (w_fs w !! k) as [[c|]|] eqn:E; try discriminate.
    rewrite (log_entry_file _ _ c) in Hrun by done.
    destruct (api_deploy (w_server w) repo (entry_remote_file dir k) c) as [st|s'] eqn:Hd.
    + rewrite (deploy_or_raise_err _ _ _ _ c st) in Hrun by (done || by apply read_file_key).
      injection Hrun as <- <-. exists [], k, (List.filter (is_file_key (w_fs w)) l). done.
    + rewrite (deploy_or_raise_ok _ _ _ _ c s') in Hrun by (done || by apply read_file_key).
      apply IH in Hrun; [|exact Hwf]. destruct Hrun as (pre & k' & post & Hf & Hfs & Hc & He).
      simpl in Hf, Hfs, Hc. exists (k :: pre), k', post. rewrite Hf, Hfs, Hc, He. split; [done|]. split; [done|].
      split; [|done]. simpl. by rewrite <- app_assoc.
  - rewrite log_entry_other in Hrun by done. exact (IH w Hwf Hrun).
Qed.

Lemma log_artifacts_in_unfold order local_dir ap netloc d0 (w : world S) :
  UriResolver.parse_artifactory_uri (artifact_uri o) = inr (netloc, d0) ->
  let dir := PathMapper.log_artifacts_dir netloc d0 ap in
  log_artifacts_in order o local_dir ap w =
    py_for order (log_entry o dir)
      (printed2 w (str_join space_char ["artifact_dir: "; dir]) (str_join space_char ["local_dir: "; local_dir])).
Proof. intros Hp. unfold log_artifacts_in, py_lift. by rewrite py_run_bind, Hp. Qed.

(** C4: log_artifacts(local_dir) sends exactly one deploy per regular file below local_dir, at any
    depth and in the glob's order, each to <artifact_dir>/<file name>, and leaves the local files
    unchanged, when the server accepts every deploy (a refused one is C10). *)
Theorem log_artifacts_one_deploy_per_file order local_dir ap netloc d0 (w : world S) :
  UriResolver.parse_artifactory_uri (artifact_uri o) = inr (netloc, d0) ->
  fs_wf (w_fs w) -> glob_order (w_fs w) local_dir order ->
  exists w', log_artifacts_in order o local_dir ap w = (inr tt, w') /\ w_fs w' = w_fs w /\
    w_calls w' = w_calls w ++ deploy_calls (w_fs w) (PathMapper.log_artifacts_dir netloc d0 ap) order /\
    length (deploy_calls (w_fs w) (PathMapper.log_artifacts_dir netloc d0 ap) order) =
    length (files_below (w_fs w) local_dir).
Proof.
  intros Hp Hwf Hord. rewrite (log_artifacts_in_unfold _ _ _ _ _ _ Hp).
  match goal with |- exists w', py_for _ _ ?w1 = _ /\ _ =>
    destruct (log_entries_ok (PathMapper.log_artifacts_dir netloc d0 ap) order w1 Hwf)
      as (w' & Hrun & Hfs & Hc) end.
  exists w'. split; [exact Hrun|]. split; [exact Hfs|]. split; [exact Hc|].
  unfold deploy_calls, files_below. rewrite length_fmap. by rewrite Hord.
Qed.

(** C10: When a deploy of log_artifacts is refused, the loop stops at that file: the requests sent
    are those of the files before it and its own, and the RuntimeError names that file and its
    destination. *)
Theorem log_artifacts_abort order local_dir ap netloc d0 (w w' : world S) e :
  UriResolver.parse_artifactory_uri (artifact_uri o) = inr (netloc, d0) ->
  fs_wf (w_fs w) -> log_artifacts_in order o local_dir ap w = (inl e, w') ->
  let dir := PathMapper.log_artifacts_dir netloc d0 ap in
  exists pre k post, List.filter (is_file_key (w_fs w)) order = pre ++ k :: post /\
    w_fs w' = w_fs w /\ w_calls w' = w_calls w ++ (call_of dir <$> pre ++ [k]) /\
    e = RuntimeError (upload_error_msg 28 (path_of_key k) repo (entry_remote_file dir k)).
Proof.
  intros Hp Hwf Hrun dir. rewrite (log_artifacts_in_unfold _ _ _ _ _ _ Hp) in Hrun.
  by apply log_entries_abort in Hrun.
Qed.
End LogArtifacts.

(** ** Uploads against a model of the server *)

Section ModelUpload.
Context {S : Type} `{ArtifactoryModel S}.

Lemma deploy_artifact_ok (w : world S) repo f remote c v :
  am_inv (w_server w) -> am_view (w_server w) repo = Some v ->
  read_file (w_fs w) f = inr c -> deployable v (segs remote) = true ->
  exists s', deploy_artifact repo f remote w = (inr tt, with_server (with_call w (CallDeploy repo remote)) s') /\
    am_inv s' /\ am_view s' repo = Some (<[segs remote := c]> v) /\
    forall r', r' <> repo -> am_view s' r' = am_view (w_server w) r'.
Proof.
  intros Hinv Hv Hr Hd. destruct (am_deploy_ok _ _ remote v c Hinv Hv Hd) as (s' & Hdep & Hs').
  exists s'. split; [|done]. unfold deploy_artifact. by rewrite Hr, Hdep.
Qed.

Lemma deploy_artifact_refused (w : world S) repo f remote c v :
  am_inv (w_server w) -> am_view (w_server w) repo = Some v ->
  read_file (w_fs w) f = inr c -> deployable v (segs remote) = false ->
  exists st, deploy_artifact repo f remote w = (inl (AfApiError st), with_call w (CallDeploy repo remote)).
Proof.
  intros Hinv Hv Hr Hd. destruct (am_deploy_refused _ _ remote v c Hinv Hv Hd) as (st & Hdep).
  exists st. unfold deploy_artifact. by rewrite Hr, Hdep.
Qed.

Context (o : repo_obj) (cl : rtpy_client) (repo : string) (w : world S) (v : files).
Context (Hinv : am_inv (w_server w)) (Hview : am_view (w_server w) repo = Some v).
Context (Haf : af o = Some cl) (Hrepo : artifactory_repo o = Some repo).

(** [log_artifact] of a regular file stores its bytes at
    [<log_artifact_dir>/<file name>]: the view gains that file, one
    request is sent, the local files are unchanged. *)
Lemma log_artifact_deploys f ap netloc d0 c :
  UriResolver.parse_artifactory_uri (artifact_uri o) = inr (netloc, d0) ->
  read_file (w_fs w) f = inr c ->
  deployable v (segs (posix_join (PathMapper.log_artifact_dir netloc d0 ap) [path_name f])) = true ->
  exists w', log_artifact o f ap w = (inr tt, w') /\ am_inv (w_server w') /\
    am_view (w_server w') repo =
      Some (<[segs (posix_join (PathMapper.log_artifact_dir netloc d0 ap) [path_name f]) := c]> v) /\
    w_fs w' = w_fs w /\
    w_calls w' = w_calls w ++ [CallDeploy repo (posix_join (PathMapper.log_artifact_dir netloc d0 ap) [path_name f])].
Proof.
  intros Hp Hr Hd. rewrite (log_artifact_unfold o f ap netloc d0 w Hp). cbv zeta.
  rewrite (read_file_is_file _ _ _ Hr). unfold get_af, get_repo. rewrite Haf, Hrepo. cbn [py_bind py_ret].
  set (w1 := printed2 w _ _).
  destruct (deploy_artifact_ok w1 repo f _ c v Hinv Hview Hr Hd) as (s' & Hdep & Hs' & Hv' & _).
  unfold deploy_or_raise, py_try. rewrite Hdep. eexists; split; [reflexivity|]. done.
Qed.

(** C5: log_artifact(f, artifact_path) of a regular file that the server accepts stores the bytes of
    f at <netloc>/<artifact_path>/<artifact_dir>/<name of f>, sends one deploy request, keeps the
    server invariant and leaves the local files unchanged. *)
Theorem log_artifact_ok f ap netloc d0 c :
  UriResolver.parse_artifactory_uri (artifact_uri o) = inr (netloc, d0) ->
  read_file (w_fs w) f = inr c ->
  deployable v (segs (posix_join (PathMapper.log_artifact_dir netloc d0 ap) [path_name f])) = true ->
  exists w', log_artifact o f ap w = (inr tt, w') /\ am_inv (w_server w') /\
    am_view (w_server w') repo =
      Some (<[segs (posix_join (PathMapper.log_artifact_dir netloc d0 ap) [path_name f]) := c]> v) /\
    w_fs w' = w_fs w /\
    w_calls w' = w_calls w ++ [CallDeploy repo (posix_join (PathMapper.log_artifact_dir netloc d0 ap) [path_name f])].
Proof. apply log_artifact_deploys. Qed.

(** C20: When the server refuses the deploy, log_artifact raises RuntimeError with the message of
    the source (file, repository, destination) and the server and local files are unchanged. *)
Theorem log_artifact_refused f ap netloc d0 c :
  UriResolver.parse_artifactory_uri (artifact_uri o) = inr (netloc, d0) ->
  read_file (w_fs w) f = inr c ->
  deployable v (segs (posix_join (PathMapper.log_artifact_dir netloc d0 ap) [path_name f])) = false ->
  exists w', log_artifact o f ap w =
    (inl (RuntimeError (upload_error_msg 24 f repo
            (posix_join (PathMapper.log_artifact_dir netloc d0 ap) [path_name f]))), w') /\
    w_server w' = w_server w /\ w_fs w' = w_fs w.
Proof.
  intros Hp Hr Hd. rewrite (log_artifact_unfold o f ap netloc d0 w Hp). cbv zeta.
  rewrite (read_file_is_file _ _ _ Hr). unfold get_af, get_repo. rewrite Haf, Hrepo. cbn [py_bind py_ret].
  set (w1 := printed2 w _ _).
  destruct (deploy_artifact_refused w1 repo f _ c v Hinv Hview Hr Hd) as (st & Hdep).
  unfold deploy_or_raise, py_try. rewrite Hdep. cbn. eexists; split; [reflexivity|]. done.
Qed.
(** ** Download *)

Lemma download_unfold rp lp netloc d0 :
  UriResolver.parse_artifactory_uri (artifact_uri o) = inr (netloc, d0) ->
  let ap := PathMapper.download_path netloc d0 rp in
  download_file o rp lp w =
    (let* content := retrieve_artifact repo ap in
     let* _ := on_fs (makedirs (dirname lp)) in
     on_fs (write_file lp content))
      (printed2 w (str_join space_char ["local_path: "; lp]) (str_join space_char ["artifact_path: "; ap])).
Proof.
  intros Hp. unfold download_file, py_lift. rewrite py_run_bind, Hp. cbv beta iota zeta.
  unfold get_af, get_repo. rewrite Haf, Hrepo. reflexivity.
Qed.

(** [_download_file(rp, h + "/" + n)] writes the bytes of the remote
    file at [h/n], creating the missing directories of [h] first; the
    server is unchanged. *)
Lemma download_file_writes rp h n netloc d0 c :
  UriResolver.parse_artifactory_uri (artifact_uri o) = inr (netloc, d0) ->
  v !! segs (PathMapper.download_path netloc d0 rp) = Some c ->
  plain_name n = true ->
  Forall (no_file_at (w_fs w)) (nonempty_prefixes (segs h)) ->
  w_fs w !! (segs h ++ [n]) <> Some LDir ->
  exists w', download_file o rp (h +:+ "/" +:+ n) w = (inr tt, w') /\
    w_fs w' = <[segs h ++ [n] := LFile c]> (add_dirs (nonempty_prefixes (segs h)) (w_fs w)) /\
    w_server w' = w_server w.
Proof.
  intros Hp Hc Hn Hpre Hdir. rewrite (download_unfold rp _ netloc d0 Hp). cbv zeta.
  unfold retrieve_artifact, py_bind. rewrite (proj1 (printed2_proj _ _ _)).
  rewrite (am_retrieve_file _ _ _ v c Hinv Hview Hc).
  destruct (makedirs_write_ok h n c (w_fs w) Hn Hpre Hdir) as (m1 & Hmk & Hwr).
  unfold on_fs. rewrite slash_append. cbn [w_fs printed2 with_output with_call].
  rewrite Hmk. cbn [w_fs with_fs]. rewrite Hwr. eexists; split; [reflexivity|]. done.
Qed.

(** C6: _download_file(rp, h/n) retrieves <netloc>/<artifact_dir>/rp, creates the missing
    directories of h and writes the retrieved bytes to h/n; the server is unchanged. *)
Theorem download_file_ok rp h n netloc d0 c :
  UriResolver.parse_artifactory_uri (artifact_uri o) = inr (netloc, d0) ->
  v !! segs (PathMapper.download_path netloc d0 rp) = Some c ->
  plain_name n = true ->
  Forall (no_file_at (w_fs w)) (nonempty_prefixes (segs h)) ->
  w_fs w !! (segs h ++ [n]) <> Some LDir ->
  exists w', download_file o rp (h +:+ "/" +:+ n) w = (inr tt, w') /\
    w_fs w' = <[segs h ++ [n] := LFile c]> (add_dirs (nonempty_prefixes (segs h)) (w_fs w)) /\
    w_server w' = w_server w.
Proof. apply download_file_writes. Qed.

(** C28: _download_file to a local path without a directory part retrieves the file and then raises
    FileNotFoundError from os.makedirs(''), before writing anything. *)
Theorem download_file_bare_name rp n netloc d0 c :
  UriResolver.parse_artifactory_uri (artifact_uri o) = inr (netloc, d0) ->
  v !! segs (PathMapper.download_path netloc d0 rp) = Some c ->
  str_contains sep n = false ->
  exists w', download_file o rp n w = (inl (FileNotFoundError ""), w') /\
    w_fs w' = w_fs w /\
    w_calls w' = w_calls w ++ [CallRetrieve repo (PathMapper.download_path netloc d0 rp)].
Proof.
  intros Hp Hc Hn. rewrite (download_unfold rp _ netloc d0 Hp). cbv zeta.
  unfold retrieve_artifact, py_bind. rewrite (proj1 (printed2_proj _ _ _)).
  rewrite (am_retrieve_file _ _ _ v c Hinv Hview Hc).
  unfold on_fs. rewrite (dirname_no_sep n Hn). eexists; split; [reflexivity|]. done.
Qed.

(** A transfer of a path the server does not hold raises the client's
    error after the retrieval, before any local directory is made. *)
Lemma download_file_fails rp lp netloc d0 :
  UriResolver.parse_artifactory_uri (artifact_uri o) = inr (netloc, d0) ->
  v !! segs (PathMapper.download_path netloc d0 rp) = None ->
  exists st w', download_file o rp lp w = (inl (AfApiError st), w') /\
    w_server w' = w_server w /\ w_fs w' = w_fs w.
Proof.
  intros Hp Hc. rewrite (download_unfold rp _ netloc d0 Hp). cbv zeta.
  unfold retrieve_artifact, py_bind. rewrite (proj1 (printed2_proj _ _ _)).
  destruct (am_retrieve_missing _ _ _ v Hinv Hview Hc) as [st ->].
  eexists _, _; split; [reflexivity|]. done.
Qed.

(** C29: _download_file of a remote path that is not a file raises the client's AfApiError and
    leaves the local files unchanged. *)
Theorem download_file_missing rp lp netloc d0 :
  UriResolver.parse_artifactory_uri (artifact_uri o) = inr (netloc, d0) ->
  v !! segs (PathMapper.download_path netloc d0 rp) = None ->
  exists st w', download_file o rp lp w = (inl (AfApiError st), w') /\ w_fs w' = w_fs w.
Proof.
  intros Hp Hc. destruct (download_file_fails rp lp netloc d0 Hp Hc) as (st & w' & E & _ & Hfs). eauto.
Qed.
End ModelUpload.

(** ** [log_artifacts] against a model of the server *)

(** The name a local entry is uploaded under. *)
Definition name_of (k : list string) : string := default "" (last k).

(** The keys and contents [log_artifacts] stores, in the order of [l]. *)
Definition uploads (dir : string) (m : fs) (l : list (list string)) : list (list string * bytes) :=
  omap (fun k => if m !! k is Some (LFile c) then Some (segs dir ++ [name_of k], c) else None) l.

(** Storing the uploads one after the other in the view [v]. *)
Definition apply_uploads (ups : list (list string * bytes)) (v : files) : files :=
  fold_left (fun v kc => <[kc.1 := kc.2]> v) ups v.

Lemma uploads_cons dir m k l :
  uploads dir m (k :: l) =
    (if m !! k is Some (LFile c) then [(segs dir ++ [name_of k], c)] else []) ++ uploads dir m l.
Proof. unfold uploads. simpl. by destruct (m !! k) as [[]|]. Qed.

Lemma uploads_keys dir m l :
  (uploads dir m l).*1 = (fun k => segs dir ++ [name_of k]) <$> List.filter (is_file_key m) l.
Proof.
  induction l as [|k l IH]; [done|]. rewrite uploads_cons, fmap_app, IH. cbn [List.filter].
  unfold is_file_key. by destruct (m !! k) as [[]|].
Qed.

#[export] Instance uploads_perm dir m : Proper ((≡ₚ) ==> (≡ₚ)) (uploads dir m).
Proof.
  intros l l' Hp. induction Hp as [|k l l' _ IH|k k' l|l l' l'' _ IH1 _ IH2].
  - done.
  - rewrite !uploads_cons. by rewrite IH.
  - rewrite !uploads_cons. destruct (m !! k) as [[]|], (m !! k') as [[]|]; simpl; try done; constructor.
  - by rewrite IH1.
Qed.

(** With distinct keys, the order of the uploads does not matter. *)
Lemma apply_uploads_perm ups ups' v :
  NoDup ups.*1 -> ups ≡ₚ ups' -> apply_uploads ups v = apply_uploads ups' v.
Proof.
  intros Hnd Hp. revert v Hnd. unfold apply_uploads.
  induction Hp as [|x l l' _ IH|x y l|l l' l'' Hp1 IH1 _ IH2]; intros v Hnd; simpl.
  - done.
  - apply IH. by inversion Hnd.
  - f_equal. inversion Hnd as [|? ? Hy _]. apply insert_insert_ne. intros Heq. apply Hy. rewrite Heq. left.
  - rewrite (IH1 v Hnd). apply IH2. by rewrite <- Hp1.
Qed.

Lemma strict_prefix_same_length (k k' : list string) : length k = length k' -> strict_prefix k k' = false.
Proof.
  intros Hlen. destruct (strict_prefix k k') eqn:E; [|done].
  apply strict_prefix_spec in E as [[r ->] Hne]. rewrite length_app in Hlen.
  destruct r; [by rewrite app_nil_r in Hne|simpl in Hlen; lia].
Qed.

(** Storing a key keeps the keys of the same length deployable. *)
Lemma deployable_insert_same_length v k1 c k2 :
  deployable v k2 = true -> length k1 = length k2 -> deployable (<[k1 := c]> v) k2 = true.
Proof.
  rewrite !deployable_spec. intros [Hne Hk] Hlen. split; [done|]. intros k' c'.
  destruct (decide (k1 = k')) as [<-|Hne']; [|rewrite lookup_insert_ne by done; apply Hk].
  intros _. split; by apply strict_prefix_same_length.
Qed.

Section LogArtifactsModel.
Context {S : Type} `{ArtifactoryModel S}.
Context (o : repo_obj) (cl : rtpy_client) (repo : string).
Context (Haf : af o = Some cl) (Hrepo : artifactory_repo o = Some repo).

Lemma log_entries_model dir (l : list (list string)) (w : world S) v :
  am_inv (w_server w) -> am_view (w_server w) repo = Some v -> fs_wf (w_fs w) ->
  (forall kc, kc ∈ uploads dir (w_fs w) l -> deployable v kc.1 = true) ->
  exists w', py_for l (log_entry o dir) w = (inr tt, w') /\ am_inv (w_server w') /\
    am_view (w_server w') repo = Some (apply_uploads (uploads dir (w_fs w) l) v) /\ w_fs w' = w_fs w.
Proof.
  revert w v. induction l as [|k l IH]; intros w v Hi Hv Hwf Hdep; [by exists w|].
  rewrite uploads_cons in Hdep |- *. cbn [py_for]. rewrite py_run_bind.
  destruct (w_fs w !! k) as [[c|]|] eqn:E.
  2,3: rewrite log_entry_other by (unfold is_file_key; by rewrite E); by apply IH.
  pose proof Hwf as [Hroot Hpl]. pose proof (Hpl k _ E) as Hplk.
  assert (k <> []) as Hk by (intros ->; congruence).
  assert (plain_name (name_of k) = true) as Hn.
  { unfold name_of. destruct (last k) eqn:Hl; [|by apply last_None in Hl].
    apply last_Some_elem_of in Hl. by eapply Forall_forall in Hplk. }
  assert (deployable v (segs (posix_join dir [name_of k])) = true) as Hd.
  { rewrite PathMapper.segs_join_name by done. apply (Hdep (segs dir ++ [name_of k], c)). by left. }
  destruct (deploy_artifact_ok w repo (path_of_key k) (posix_join dir [name_of k]) c v Hi Hv
              (read_file_key _ k c Hwf E) Hd) as (s' & Hrun & Hi' & Hv' & _).
  rewrite (log_entry_file o cl repo Haf Hrepo _ k c) by done.
  unfold deploy_or_raise, py_try. change (entry_remote_file dir k) with (posix_join dir [name_of k]). rewrite Hrun.
  rewrite PathMapper.segs_join_name in Hv' by done.
  destruct (IH (with_server (with_call w (CallDeploy repo (posix_join dir [name_of k]))) s')
              (<[segs dir ++ [name_of k] := c]> v) Hi' Hv' Hwf) as (w' & Hr & Hi'' & Hv'' & Hfs).
  { intros kc Hkc. apply deployable_insert_same_length; [apply Hdep; by right|].
    unfold uploads in Hkc. apply list_elem_of_omap in Hkc as (k' & _ & Hk').
    cbn [w_fs with_server with_call] in Hk'. destruct (w_fs w !! k') as [[]|]; simplify_eq; cbn [fst]; rewrite !length_app; done. }
  exists w'. split; [exact Hr|]. split; [done|]. split; [exact Hv''|exact Hfs].
Qed.

Lemma uploads_nodup dir m order local_dir :
  glob_order m local_dir order -> NoDup (name_of <$> files_below m local_dir) ->
  NoDup (uploads dir m order).*1.
Proof.
  intros Hord Hnd. rewrite uploads_keys.
  assert ((fun k => segs dir ++ [name_of k]) <$> List.filter (is_file_key m) order =
          (fun n => segs dir ++ [n]) <$> (name_of <$> List.filter (is_file_key m) order)) as ->
    by (rewrite <- list_fmap_compose; reflexivity).
  apply NoDup_fmap_2; [intros x y Hxy; by apply app_inv_head, (inj (fun n => [n])) in Hxy|].
  unfold files_below in Hnd. by rewrite Hord.
Qed.

(** The uploads of any glob order are deployable when every file below
    the directory is. *)
Lemma glob_uploads_deployable (dir : string) (m : fs) (local_dir : string) (order : list (list string)) (v : files) :
  glob_order m local_dir order ->
  (forall k, k ∈ files_below m local_dir -> deployable v (segs dir ++ [name_of k]) = true) ->
  forall kc, kc ∈ uploads dir m order -> deployable v kc.1 = true.
Proof.
  intros Hord Hdep kc Hkc. unfold uploads in Hkc. apply list_elem_of_omap in Hkc as (k & Hk & Hkc).
  destruct (m !! k) as [[]|] eqn:E; simplify_eq. apply Hdep. unfold files_below.
  rewrite <- Hord. apply list_elem_of_In, filter_In. split; [by apply list_elem_of_In|by rewrite E].
Qed.

Lemma uploads_app dir m l l' : uploads dir m (l ++ l') = uploads dir m l ++ uploads dir m l'.
Proof. unfold uploads. apply omap_app. Qed.

Lemma apply_uploads_cons kc ups v : apply_uploads (kc :: ups) v = apply_uploads ups (<[kc.1 := kc.2]> v).
Proof. done. Qed.

Lemma apply_uploads_app ups ups' v : apply_uploads (ups ++ ups') v = apply_uploads ups' (apply_uploads ups v).
Proof. unfold apply_uploads. apply fold_left_app. Qed.

(** Uploads to other keys leave a key as it was. *)
Lemma apply_uploads_lookup_notin ups v key : key ∉ ups.*1 -> apply_uploads ups v !! key = v !! key.
Proof.
  revert v. induction ups as [|[k c] ups IH]; intros v Hk; [done|].
  apply not_elem_of_cons in Hk as [Hne Hk]. cbn. rewrite IH by done. by apply lookup_insert_ne.
Qed.

(** C19: When the files below local_dir have distinct names that the repository can take,
    log_artifacts succeeds and leaves the same repository whatever order the glob enumerates the
    files in. *)
Theorem log_artifacts_order_independent order1 order2 local_dir ap netloc d0 (w : world S) v :
  UriResolver.parse_artifactory_uri (artifact_uri o) = inr (netloc, d0) ->
  am_inv (w_server w) -> am_view (w_server w) repo = Some v -> fs_wf (w_fs w) ->
  glob_order (w_fs w) local_dir order1 -> glob_order (w_fs w) local_dir order2 ->
  NoDup (name_of <$> files_below (w_fs w) local_dir) ->
  (forall k, k ∈ files_below (w_fs w) local_dir ->
     deployable v (segs (PathMapper.log_artifacts_dir netloc d0 ap) ++ [name_of k]) = true) ->
  exists w1 w2, log_artifacts_in order1 o local_dir ap w = (inr tt, w1) /\
    log_artifacts_in order2 o local_dir ap w = (inr tt, w2) /\
    am_view (w_server w1) repo = am_view (w_server w2) repo.
Proof.
  intros Hp Hi Hv Hwf H1 H2 Hnd Hdep. set (dir := PathMapper.log_artifacts_dir netloc d0 ap).
  pose proof (fun order Hord => glob_uploads_deployable dir (w_fs w) local_dir order v Hord Hdep) as Hd.
  rewrite !(log_artifacts_in_unfold o _ _ _ _ _ _ Hp).
  edestruct (log_entries_model dir order1 (printed2 w (str_join space_char ["artifact_dir: "; dir])
               (str_join space_char ["local_dir: "; local_dir])) v Hi Hv Hwf) as (w1 & R1 & _ & V1 & _);
    [by apply Hd|].
  edestruct (log_entries_model dir order2 (printed2 w (str_join space_char ["artifact_dir: "; dir])
               (str_join space_char ["local_dir: "; local_dir])) v Hi Hv Hwf) as (w2 & R2 & _ & V2 & _);
    [by apply Hd|].
  exists w1, w2. split; [exact R1|]. split; [exact R2|]. rewrite V1, V2. f_equal.
  apply apply_uploads_perm; [by apply (uploads_nodup dir _ _ local_dir)|].
  cbn [w_fs printed2 with_output]. by rewrite H1, H2.
Qed.

(** C18: log_artifacts flattens the local tree and the last deploy to a remote path wins: for any
    glob order, on a server that accepts the deploys, a regular file followed by no other file of
    the same name is what the repository holds at <artifact_dir>/<name> afterwards, whatever
    same-named files in other sub-directories came before it. *)
Theorem log_artifacts_last_wins pre k post local_dir ap netloc d0 (w : world S) v c :
  UriResolver.parse_artifactory_uri (artifact_uri o) = inr (netloc, d0) ->
  am_inv (w_server w) -> am_view (w_server w) repo = Some v -> fs_wf (w_fs w) ->
  glob_order (w_fs w) local_dir (pre ++ k :: post) ->
  (forall k', k' ∈ files_below (w_fs w) local_dir ->
     deployable v (segs (PathMapper.log_artifacts_dir netloc d0 ap) ++ [name_of k']) = true) ->
  w_fs w !! k = Some (LFile c) ->
  (forall k', k' ∈ post -> is_file_key (w_fs w) k' = true -> name_of k' <> name_of k) ->
  exists w' v', log_artifacts_in (pre ++ k :: post) o local_dir ap w = (inr tt, w') /\
    am_view (w_server w') repo = Some v' /\
    v' !! (segs (PathMapper.log_artifacts_dir netloc d0 ap) ++ [name_of k]) = Some c.
Proof.
  intros Hp Hi Hv Hwf Hord Hdep Hk Hpost. set (dir := PathMapper.log_artifacts_dir netloc d0 ap).
  rewrite (log_artifacts_in_unfold o _ _ _ _ _ _ Hp).
  edestruct (log_entries_model dir (pre ++ k :: post) (printed2 w (str_join space_char ["artifact_dir: "; dir])
               (str_join space_char ["local_dir: "; local_dir])) v Hi Hv Hwf) as (w1 & R1 & _ & V1 & _);
    [by apply (glob_uploads_deployable dir _ local_dir)|].
  eexists w1, _. split; [exact R1|]. split; [exact V1|]. cbn [w_fs printed2 with_output].
  rewrite uploads_app, uploads_cons, Hk, apply_uploads_app. cbn [app]. rewrite apply_uploads_cons. cbn [fst snd].
  rewrite apply_uploads_lookup_notin; [apply lookup_insert_eq|].
  rewrite uploads_keys. intros (k' & Heq & Hk')%list_elem_of_fmap.
  apply list_elem_of_In, filter_In in Hk' as [Hin Hf]. apply list_elem_of_In in Hin.
  apply app_inv_head in Heq. injection Heq as Heq. by apply (Hpost k' Hin Hf).
Qed.

End LogArtifactsModel.

End Transfer.

Module TransferExamples.
Import MemServer Transfer.

Definition client : rtpy_client := {| af_url := "https://af.example/artifactory"; af_api_key := "key" |}.
Definition obj : repo_obj := mk_obj "artifactory://host/exp" (Some "repo") None None None (Some client).

(** A local tree [/data] with two files of the same name, [a/x.bin] and
    [b/x.bin], and different contents. *)
Definition data_fs : fs :=
  <[["data"; "b"; "x.bin"] := LFile [Byte.x32]]> (<[["data"; "b"] := LDir]>
  (<[["data"; "a"; "x.bin"] := LFile [Byte.x31]]> (<[["data"; "a"] := LDir]>
  (<[["data"] := LDir]> ∅)))).

(** An empty repository [repo]. *)
Definition s0 : server := list_to_map [("repo", ∅)].

(** [repo] holding [host/exp/x.bin/inner]: [host/exp/x.bin] is a folder. *)
Definition s1 : server := deploy_or_keep s0 "repo" "host/exp/x.bin/inner" [Byte.x30].

Lemma s0_inv : server_inv s0.
Proof. apply (empty_repos_inv ["repo"]). Qed.

Lemma s1_inv : server_inv s1.
Proof. apply deploy_or_keep_inv, s0_inv. Qed.

Definition v1 : files := default ∅ (view s1 "repo").

Definition w0 : world server :=
  {| w_server := s0; w_fs := data_fs; w_env := ∅; w_stdout := []; w_calls := [] |}.

Definition w1 : world server :=
  {| w_server := s1; w_fs := data_fs; w_env := ∅; w_stdout := []; w_calls := [] |}.

Lemma data_fs_wf : fs_wf data_fs.
Proof. apply fs_wf_check; vm_compute; reflexivity. Qed.

Definition uploaded (order : list (list string)) : N + bytes :=
  let w := snd (log_artifacts_in order obj "/data" None w0) in
  retrieve (w_server w) "repo" "host/exp/x.bin".

(** log_artifacts flattens the directory tree: two files with the same name in different
    subdirectories go to the same remote path, and which one the repository keeps depends on the
    glob order. *)
Example log_artifacts_collision :
  uploaded [["data"; "a"; "x.bin"]; ["data"; "b"; "x.bin"]] = inr [Byte.x32] /\
  uploaded [["data"; "b"; "x.bin"]; ["data"; "a"; "x.bin"]] = inr [Byte.x31].
Proof. split; vm_compute; reflexivity. Qed.

(** A store that accepts every deploy and keeps the requests in order. *)
Definition blob : Type := list (string * string * bytes).

#[local] Instance blob_api : ArtifactoryApi blob := {|
  api_deploy s r p c := inr (s ++ [(r, p, c)]);
  api_retrieve s r p := inl 404%N;
  api_storage_info s r p := inl 404%N;
  api_ping s := inr "OK" |}.

Definition wb : world blob :=
  {| w_server := []; w_fs := data_fs; w_env := ∅; w_stdout := []; w_calls := [] |}.

Lemma log_artifacts_one_deploy_per_file_witness :
  exists w', log_artifacts_in (glob_all data_fs "/data") obj "/data" None wb = (inr tt, w') /\
    w_fs w' = data_fs /\
    w_calls w' = deploy_calls "repo" data_fs "host/exp" (glob_all data_fs "/data") /\
    length (deploy_calls "repo" data_fs "host/exp" (glob_all data_fs "/data")) = length (files_below data_fs "/data").
Proof.
  refine (@log_artifacts_one_deploy_per_file blob blob_api (fun s r p c => ex_intro _ (s ++ [(r, p, c)]) eq_refl) obj client "repo" eq_refl eq_refl
            (glob_all data_fs "/data") "/data" None "host" "exp" wb _ data_fs_wf _); [reflexivity|apply Permutation_refl].
Defined.

Lemma log_artifacts_abort_witness :
  exists pre k post, List.filter (is_file_key data_fs) (glob_all data_fs "/data") = pre ++ k :: post /\
    w_fs (snd (log_artifacts_in (glob_all data_fs "/data") obj "/data" None w1)) = data_fs /\
    w_calls (snd (log_artifacts_in (glob_all data_fs "/data") obj "/data" None w1)) =
      call_of "repo" "host/exp" <$> pre ++ [k] /\
    RuntimeError (upload_error_msg 28 "/data/b/x.bin" "repo" "host/exp/x.bin") =
      RuntimeError (upload_error_msg 28 (path_of_key k) "repo" (entry_remote_file "host/exp" k)).
Proof.
  refine (log_artifacts_abort obj client "repo" eq_refl eq_refl (glob_all data_fs "/data") "/data" None "host" "exp"
            w1 _ _ _ data_fs_wf _); reflexivity.
Defined.

(** A tree with two files of different names. *)
Definition data2_fs : fs :=
  <[["data"; "b"; "y.bin"] := LFile [Byte.x32]]> (<[["data"; "b"] := LDir]>
  (<[["data"; "a"; "x.bin"] := LFile [Byte.x31]]> (<[["data"; "a"] := LDir]>
  (<[["data"] := LDir]> ∅)))).

Definition w2 : world server :=
  {| w_server := s0; w_fs := data2_fs; w_env := ∅; w_stdout := []; w_calls := [] |}.

Lemma log_artifacts_order_independent_witness :
  exists w1 w3, log_artifacts_in (glob_all data2_fs "/data") obj "/data" None w2 = (inr tt, w1) /\
    log_artifacts_in (rev (glob_all data2_fs "/data")) obj "/data" None w2 = (inr tt, w3) /\
    am_view (w_server w1) "repo" = am_view (w_server w3) "repo".
Proof.
  refine (log_artifacts_order_independent obj client "repo" eq_refl eq_refl (glob_all data2_fs "/data")
            (rev (glob_all data2_fs "/data")) "/data" None "host" "exp" w2 ∅ _ s0_inv eq_refl _ _ _ _ _).
  - reflexivity.
  - apply fs_wf_check; vm_compute; reflexivity.
  - apply Permutation_refl.
  - apply Permutation_rev.
  - apply (bool_decide_unpack _). vm_compute. reflexivity.
  - apply Forall_forall. vm_compute. repeat constructor.
Defined.

Lemma log_artifact_ok_witness :
  exists w', log_artifact obj "/data/a/x.bin" None w0 = (inr tt, w') /\ am_inv (w_server w') /\
    am_view (w_server w') "repo" = Some (<[["host"; "exp"; "x.bin"] := [Byte.x31]]> ∅) /\
    w_fs w' = w_fs w0 /\ w_calls w' = [CallDeploy "repo" "host/exp/x.bin"].
Proof.
  refine (log_artifact_ok obj client "repo" w0 ∅ s0_inv eq_refl _ _ "/data/a/x.bin" None "host" "exp" [Byte.x31] _ _ _);
    vm_compute; reflexivity.
Defined.

Lemma log_artifact_refused_witness :
  exists w', log_artifact obj "/data/a/x.bin" None w1 =
    (inl (RuntimeError (upload_error_msg 24 "/data/a/x.bin" "repo" "host/exp/x.bin")), w') /\
    w_server w' = w_server w1 /\ w_fs w' = w_fs w1.
Proof.
  refine (log_artifact_refused obj client "repo" w1 v1 s1_inv eq_refl _ _ "/data/a/x.bin" None "host" "exp" [Byte.x31] _ _ _);
    vm_compute; reflexivity.
Defined.

Lemma log_artifact_not_file_witness :
  exists w', log_artifact obj "/data/a" None w0 = (inr tt, w') /\
    w_server w' = w_server w0 /\ w_fs w' = w_fs w0 /\ w_calls w' = w_calls w0.
Proof. refine (log_artifact_not_file obj "/data/a" None "host" "exp" w0 _ _); vm_compute; reflexivity. Defined.

Lemma download_file_ok_witness :
  exists w', download_file obj "x.bin/inner" ("/out" +:+ "/" +:+ "f.bin") w1 = (inr tt, w') /\
    w_fs w' = <[["out"; "f.bin"] := LFile [Byte.x30]]> (add_dirs [["out"]] data_fs) /\ w_server w' = s1.
Proof.
  refine (download_file_ok obj client "repo" w1 v1 s1_inv eq_refl _ _ "x.bin/inner" "/out" "f.bin" "host" "exp" [Byte.x30]
            _ _ _ _ _); try (vm_compute; reflexivity).
  - repeat constructor. intros c. vm_compute. discriminate.
  - vm_compute. discriminate.
Defined.

Lemma download_file_bare_name_witness :
  exists w', download_file obj "x.bin/inner" "f.bin" w1 = (inl (FileNotFoundError ""), w') /\
    w_fs w' = data_fs /\ w_calls w' = [CallRetrieve "repo" "host/exp/x.bin/inner"].
Proof.
  refine (download_file_bare_name obj client "repo" w1 v1 s1_inv eq_refl _ _ "x.bin/inner" "f.bin" "host" "exp" [Byte.x30]
            _ _ _); vm_compute; reflexivity.
Defined.

Lemma download_file_missing_witness :
  exists st w', download_file obj "none.bin" "/out/f.bin" w1 = (inl (AfApiError st), w') /\ w_fs w' = data_fs.
Proof.
  refine (download_file_missing obj client "repo" w1 v1 s1_inv eq_refl _ _ "none.bin" "/out/f.bin" "host" "exp" _ _);
    vm_compute; reflexivity.
Defined.

Lemma log_artifacts_last_wins_witness :
  exists w' v', log_artifacts_in ([["data"; "b"; "x.bin"]] ++ ["data"; "a"; "x.bin"] :: [["data"; "b"]; ["data"; "a"]])
      obj "/data" None w0 = (inr tt, w') /\
    am_view (w_server w') "repo" = Some v' /\
    v' !! (segs (PathMapper.log_artifacts_dir "host" "exp" None) ++ [name_of ["data"; "a"; "x.bin"]]) = Some [Byte.x31].
Proof.
  refine (log_artifacts_last_wins obj client "repo" eq_refl eq_refl [["data"; "b"; "x.bin"]] ["data"; "a"; "x.bin"]
            [["data"; "b"]; ["data"; "a"]] "/data" None "host" "exp" w0 ∅ [Byte.x31] _ s0_inv eq_refl data_fs_wf _ _ _ _).
  - reflexivity.
  - unfold glob_order. vm_compute. apply Permutation_refl.
  - apply Forall_forall. vm_compute. repeat constructor.
  - reflexivity.
  - intros k' Hk' Hf. repeat (apply elem_of_cons in Hk' as [->|Hk']; [vm_compute in Hf; discriminate|]).
    by apply not_elem_of_nil in Hk'.
Defined.

End TransferExamples.
