(* ===== verification/Contract.v ===== *)
(** * The MLflow artifact-store contract

    What a client of [JFrogArtifactRepository] relies on, stated over any
    server satisfying [ArtifactoryModel]: a file logged with
    [log_artifact(f)] is listed by [list_artifacts()] with its size, and
    [_download_file] of its name writes the same bytes back. *)

From S2P Require Import Prelude PyStr PosixPath PySort LocalFS ArtifactoryUri Artifactory ArtifactoryLaws Repository PathMapper Lister Transfer.

Module Contract.
Import Lister Transfer.

Section RoundTrip.
Context {S : Type} `{ArtifactoryModel S}.
Context (o : repo_obj) (cl : rtpy_client) (repo netloc d0 : string).
Context (Hparse : UriResolver.parse_artifactory_uri (artifact_uri o) = inr (netloc, d0)).
Context (Hdir : PathMapper.rel_ok d0).
Context (Haf : af o = Some cl) (Hrepo : artifactory_repo o = Some repo).

(** The folder the artifact directory names on the server. *)
Definition run_folder : list string := segs netloc ++ segs d0.

(** [log_artifact(f)] and [_download_file(n, _)] address the same key. *)
Lemma log_key n :
  plain_name n = true -> segs (posix_join (PathMapper.log_artifact_dir netloc d0 None) [n]) = run_folder ++ [n].
Proof.
  intros Hn. rewrite segs_posix_join by (repeat constructor; apply (PathMapper.plain_rel_ok n Hn)).
  rewrite (proj1 (PathMapper.segs_log_dir_none _ _ Hdir)). simpl. unfold run_folder. rewrite (segs_plain n Hn). simpl. by rewrite <- app_assoc.
Qed.

Lemma download_key n : plain_name n = true -> segs (PathMapper.download_path netloc d0 n) = run_folder ++ [n].
Proof.
  intros Hn. rewrite PathMapper.segs_download_path by (done || by apply PathMapper.plain_rel_ok).
  unfold run_folder. by rewrite (segs_plain n Hn), app_assoc.
Qed.

Lemma list_root_key : segs (PathMapper.list_full_path netloc d0 None) = run_folder.
Proof. apply (PathMapper.segs_list_full_path_root _ _ Hdir ""). done. Qed.

(** A file stored at [run_folder ++ [n]] is a child of the run folder. *)
Lemma logged_entry (v : files) n c :
  v !! (run_folder ++ [n]) = Some c ->
  is_folder v run_folder = true /\
  {| fi_path := n; fi_is_dir := false; fi_file_size := Some (Z.of_nat (length c)) |}
    ∈ expected_listing v run_folder None.
Proof.
  intros Hc. split.
  - apply is_folder_spec. right. exists (run_folder ++ [n]), c. split; [done|].
    apply strict_prefix_spec. split; [by eexists|]. intros Heq.
    apply (f_equal length) in Heq. rewrite length_app in Heq. simpl in Heq. lia.
  - unfold expected_listing. rewrite py_sorted_perm. apply list_elem_of_fmap.
    exists (n, false). split.
    + unfold entry_of. simpl. by rewrite Hc.
    + apply folder_children_elem. exists (run_folder ++ [n]), c. split; [done|].
      apply child_of_spec. by exists [].
Qed.

Context (w : world S) (v : files).
Context (Hinv : am_inv (w_server w)) (Hview : am_view (w_server w) repo = Some v).

(** [log_artifact(f)] stores the bytes of [f] under its name in the run
    folder, when the server accepts the deploy. *)
Lemma log_stores f c :
  read_file (w_fs w) f = inr c -> plain_name (path_name f) = true ->
  deployable v (run_folder ++ [path_name f]) = true ->
  exists w1, log_artifact o f None w = (inr tt, w1) /\ am_inv (w_server w1) /\
    am_view (w_server w1) repo = Some (<[run_folder ++ [path_name f] := c]> v) /\ w_fs w1 = w_fs w.
Proof.
  intros Hr Hn Hd. rewrite <- (log_key _ Hn) in Hd |- *.
  destruct (log_artifact_deploys o cl repo w v Hinv Hview Haf Hrepo f None netloc d0 c Hparse Hr Hd)
    as (w1 & Hrun & Hi & Hv & Hfs & _).
  by exists w1.
Qed.

(** C3: After log_artifact(f) succeeds, list_artifacts() lists an entry with the name of f, is_dir
    false and the size of its bytes. *)
Theorem log_then_list f c :
  read_file (w_fs w) f = inr c -> plain_name (path_name f) = true ->
  deployable v (run_folder ++ [path_name f]) = true ->
  exists w1 infos w2, log_artifact o f None w = (inr tt, w1) /\
    list_artifacts o None w1 = (inr infos, w2) /\
    {| fi_path := path_name f; fi_is_dir := false; fi_file_size := Some (Z.of_nat (length c)) |} ∈ infos.
Proof.
  intros Hr Hn Hd. destruct (log_stores f c Hr Hn Hd) as (w1 & Hrun & Hi & Hv & _).
  destruct (logged_entry (<[run_folder ++ [path_name f] := c]> v) (path_name f) c)
    as [Hfold Hin]; [by rewrite lookup_insert_eq|].
  edestruct (list_artifacts_listing o cl repo w1 _ Hi Hv Haf Hrepo None netloc d0 Hparse) as (w2 & Hl & _);
    [by rewrite list_root_key|].
  eexists w1, _, w2. split; [done|]. split; [exact Hl|]. by rewrite list_root_key.
Qed.

(** C2: After log_artifact(f) succeeds, _download_file(name of f, h/m) writes exactly the bytes of f
    to h/m on the local disk. *)
Theorem log_then_download f c h m :
  read_file (w_fs w) f = inr c -> plain_name (path_name f) = true ->
  deployable v (run_folder ++ [path_name f]) = true ->
  plain_name m = true -> Forall (no_file_at (w_fs w)) (nonempty_prefixes (segs h)) ->
  w_fs w !! (segs h ++ [m]) <> Some LDir ->
  exists w1 w2, log_artifact o f None w = (inr tt, w1) /\
    download_file o (path_name f) (h +:+ "/" +:+ m) w1 = (inr tt, w2) /\
    w_fs w2 !! (segs h ++ [m]) = Some (LFile c).
Proof.
  intros Hr Hn Hd Hm Hpre Hnd. destruct (log_stores f c Hr Hn Hd) as (w1 & Hrun & Hi & Hv & Hfs).
  rewrite <- Hfs in Hpre, Hnd.
  destruct (download_file_writes o cl repo w1 _ Hi Hv Haf Hrepo (path_name f) h m netloc d0 c Hparse)
    as (w2 & Hdl & Hfs2 & _); [by rewrite download_key, lookup_insert_eq|done|done|done|].
  exists w1, w2. split; [done|]. split; [done|]. by rewrite Hfs2, lookup_insert_eq.
Qed.

End RoundTrip.

Module ContractExamples.
Import MemServer.

Definition client : rtpy_client := {| af_url := "https://af.example/artifactory"; af_api_key := "key" |}.
Definition obj : repo_obj := mk_obj "artifactory://host/exp" (Some "repo") None None None (Some client).
Definition w0 : world server :=
  {| w_server := list_to_map [("repo", ∅)]; w_fs := {[ ["tmp"] := LDir; ["tmp"; "m.pkl"] := LFile [Byte.x4d] ]};
     w_env := ∅; w_stdout := []; w_calls := [] |}.

(** Concretely, log_artifact(f, 'models') deploys to host/models/exp/m.pkl while
    list_artifacts('models') asks for /host/exp/models and gets the server's 404. *)
Example log_list_artifact_path :
  let w1 := snd (log_artifact obj "/tmp/m.pkl" (Some "models") w0) in
  w_calls w1 = [CallDeploy "repo" "host/models/exp/m.pkl"] /\
  fst (list_artifacts obj (Some "models") w1) = inl (AfApiError 404).
Proof. split; vm_compute; reflexivity. Qed.

Lemma w0_inv : server_inv (w_server w0).
Proof. apply (empty_repos_inv ["repo"]). Qed.

Lemma log_then_list_witness :
  exists w1 infos w2, log_artifact obj "/tmp/m.pkl" None w0 = (inr tt, w1) /\
    list_artifacts obj None w1 = (inr infos, w2) /\
    {| fi_path := "m.pkl"; fi_is_dir := false; fi_file_size := Some 1%Z |} ∈ infos.
Proof.
  refine (log_then_list obj client "repo" "host" "exp" _ _ _ _ w0 ∅ w0_inv _ "/tmp/m.pkl" [Byte.x4d] _ _ _);
    try (vm_compute; reflexivity). split; reflexivity.
Defined.

Lemma log_then_download_witness :
  exists w1 w2, log_artifact obj "/tmp/m.pkl" None w0 = (inr tt, w1) /\
    download_file obj "m.pkl" ("/out" +:+ "/" +:+ "copy.pkl") w1 = (inr tt, w2) /\
    w_fs w2 !! ["out"; "copy.pkl"] = Some (LFile [Byte.x4d]).
Proof.
  refine (log_then_download obj client "repo" "host" "exp" _ _ _ _ w0 ∅ w0_inv _ "/tmp/m.pkl" [Byte.x4d]
            "/out" "copy.pkl" _ _ _ _ _ _); try (vm_compute; reflexivity).
  - split; reflexivity.
  - repeat constructor. intros c. vm_compute. discriminate.
  - vm_compute. discriminate.
Defined.

End ContractExamples.

End Contract.
