(* ===== verification/Constructor.v ===== *)
(** * The constructor [__init__]

    Theorems on [Repository.init]: with the three environment variables
    set, the object gets a client built from them and keeps the
    repository name unchanged; the assertions fire in the order of the
    source; and the early returns taken when [repo_name] or [api_key] is
    passed leave [self.af] unset, so every operation that talks to the
    server raises [AttributeError]. *)

From S2P Require Import Prelude PyStr UrlParse ArtifactoryUri LocalFS Artifactory Repository Lister Transfer.

Module Constructor.
Import Lister Transfer.

(** [if repo_name is not None: self.artifactory_repo = repo_name; return]
    and [if api_key is not None: self.api_key = api_key; return]. *)
Definition init_early (uri : string) (repo_name api_key0 : option string) : option repo_obj :=
  match repo_name, api_key0 with
  | Some rn, _ => Some (mk_obj uri (Some rn) None None None None)
  | None, Some k => Some (mk_obj uri None (Some k) None None None)
  | None, None => None
  end.

(** [urlparse(os.environ.get("MLFLOW_ARTIFACTORY_REPO")).geturl()] *)
Definition repo_from_env (env : gmap string string) : py_exn + string :=
  match urlparse_opt (env !! "MLFLOW_ARTIFACTORY_REPO") with
  | inl e => inl e
  | inr parsed => inr (geturl parsed)
  end.

(** The three [assert]s of [__init__], in order. *)
Definition check_config (endpoint key : option string) (repo : string) : py_exn + unit :=
  if negb (opt_truthy endpoint) then inl (AssertionError "please set MLFLOW_ARTIFACTORY_ENDPOINT_URL")
  else if negb (opt_truthy key) then inl (AssertionError "please set MLFLOW_ARTIFACTORY_KEY")
  else if negb (str_truthy repo) then inl (AssertionError "please set MLFLOW_ARTIFACTORY_REPO")
  else inr tt.

(** [__init__(artifact_uri, repo_name=None, api_key=None)] in the
    environment [env].  The base class only stores [artifact_uri]. *)
Definition init (env : gmap string string) (uri : string) (repo_name api_key0 : option string)
    : py_exn + repo_obj :=
  match init_early uri repo_name api_key0 with
  | Some obj => inr obj
  | None =>
      let endpoint := env !! "MLFLOW_ARTIFACTORY_ENDPOINT_URL" in
      let key := env !! "MLFLOW_ARTIFACTORY_KEY" in
      match repo_from_env env with
      | inl e => inl e
      | inr repo =>
          match check_config endpoint key repo with
          | inl e => inl e
          | inr _ => inr (mk_obj uri (Some repo) None endpoint key
                            (Some {| af_url := default "" endpoint; af_api_key := default "" key |}))
          end
      end
  end.

(** C21: __init__(uri) with the three MLFLOW_ARTIFACTORY_* variables set builds the client from the
    endpoint and the key and keeps the repository name unchanged when it has no character urlparse
    treats specially. *)
Theorem init_from_env env uri e k r :
  env !! "MLFLOW_ARTIFACTORY_ENDPOINT_URL" = Some e -> env !! "MLFLOW_ARTIFACTORY_KEY" = Some k -> env !! "MLFLOW_ARTIFACTORY_REPO" = Some r ->
  e <> "" -> k <> "" -> r <> "" -> str_all plain_url_char r = true ->
  init env uri None None =
    inr (mk_obj uri (Some r) None (Some e) (Some k) (Some {| af_url := e; af_api_key := k |})).
Proof.
  intros He Hk Hr Hne Hnk Hnr Hplain. destruct (geturl_urlparse_plain r Hplain) as (p & Hp & Hg).
  unfold init, init_early, repo_from_env, check_config. rewrite He, Hk, Hr. simpl. rewrite Hp, Hg.
  destruct e, k, r; done.
Qed.

(** C23: Once urlparse has returned, the assertions of __init__ fire in source order: a missing
    endpoint first, then a missing key, then an empty repository name. *)
Theorem init_assertions env uri p :
  urlparse_opt (env !! "MLFLOW_ARTIFACTORY_REPO") = inr p ->
  (opt_truthy (env !! "MLFLOW_ARTIFACTORY_ENDPOINT_URL") = false ->
     init env uri None None = inl (AssertionError "please set MLFLOW_ARTIFACTORY_ENDPOINT_URL")) /\
  (opt_truthy (env !! "MLFLOW_ARTIFACTORY_ENDPOINT_URL") = true -> opt_truthy (env !! "MLFLOW_ARTIFACTORY_KEY") = false ->
     init env uri None None = inl (AssertionError "please set MLFLOW_ARTIFACTORY_KEY")) /\
  (opt_truthy (env !! "MLFLOW_ARTIFACTORY_ENDPOINT_URL") = true -> opt_truthy (env !! "MLFLOW_ARTIFACTORY_KEY") = true -> str_truthy (geturl p) = false ->
     init env uri None None = inl (AssertionError "please set MLFLOW_ARTIFACTORY_REPO")).
Proof.
  intros Hp. unfold init, init_early, repo_from_env, check_config. rewrite Hp.
  split; [|split]; intros Hx; rewrite ?Hx; [done| |]; intros Hy; rewrite ?Hy; [done|]. intros Hz. by rewrite Hz.
Qed.

(** The shapes of the objects [__init__] builds: with a client, a
    non-empty repository name and the client's endpoint and key, both
    non-empty, kept as attributes; without one (an early return), no
    endpoint and no key, and exactly one of the repository name and the
    API key. *)
Definition obj_wf (o : repo_obj) : Prop :=
  match af o with
  | Some c =>
      (exists r, artifactory_repo o = Some r /\ r <> "") /\ api_key o = None /\
      artifactory_endpoint o = Some (af_url c) /\ artifactory_api_key o = Some (af_api_key c) /\
      af_url c <> "" /\ af_api_key c <> ""
  | None =>
      artifactory_endpoint o = None /\ artifactory_api_key o = None /\
      ((exists r, artifactory_repo o = Some r /\ api_key o = None) \/
       (artifactory_repo o = None /\ exists k, api_key o = Some k))
  end.

(** C22: Every object __init__ returns keeps its artifact URI and has one of two shapes: a client
    whose endpoint and key are non-empty and stored, with a non-empty repository name; or no client,
    no endpoint and no key, with exactly one of repository name and API key. *)
Theorem init_obj_wf env uri rn key o : init env uri rn key = inr o -> obj_wf o /\ artifact_uri o = uri.
Proof.
  unfold init, init_early, repo_from_env, check_config. cbv zeta. intros Hi.
  destruct rn as [rn|]; [injection Hi as <-; split; [|done]; unfold obj_wf; simpl; naive_solver|].
  destruct key as [k|]; [injection Hi as <-; split; [|done]; unfold obj_wf; simpl; naive_solver|].
  destruct (urlparse_opt (env !! "MLFLOW_ARTIFACTORY_REPO")) as [e|p]; [discriminate Hi|].
  destruct (env !! "MLFLOW_ARTIFACTORY_ENDPOINT_URL") as [[|ec e]|], (env !! "MLFLOW_ARTIFACTORY_KEY") as [[|kc k]|];
    simpl in Hi; try discriminate Hi.
  destruct (geturl p) as [|rc r]; simpl in Hi; [discriminate Hi|]. injection Hi as <-. split; [|done].
  unfold obj_wf; simpl. repeat split; eauto.
Qed.

(** [__init__(uri, repo_name=...)] and [__init__(uri, api_key=...)]
    return before [self.af] is set. *)
Lemma init_early_no_client env uri rn key o :
  (rn <> None \/ key <> None) -> init env uri rn key = inr o -> af o = None.
Proof.
  intros Hsome. unfold init, init_early, repo_from_env, check_config. destruct rn, key; try naive_solver; intros [= <-]; done.
Qed.

(** C24: After __init__ returned early because repo_name or api_key was passed, list_artifacts,
    log_artifact of an existing file and _download_file all raise AttributeError on self.af. *)
Theorem init_early_unusable {S} `{!ArtifactoryApi S} env uri rn key o netloc d0 (w : world S) path f ap rp lp :
  (rn <> None \/ key <> None) -> init env uri rn key = inr o ->
  UriResolver.parse_artifactory_uri (artifact_uri o) = inr (netloc, d0) ->
  fst (list_artifacts o path w) = inl (AttributeError "af") /\
  (is_file (w_fs w) f = true -> fst (log_artifact o f ap w) = inl (AttributeError "af")) /\
  fst (download_file o rp lp w) = inl (AttributeError "af").
Proof.
  intros Hsome Hinit Hp. pose proof (init_early_no_client _ _ _ _ _ Hsome Hinit) as Haf.
  split; [|split].
  - unfold list_artifacts, py_lift. rewrite py_run_bind, Hp. simpl.
    unfold list_files, get_af. by rewrite Haf.
  - intros Hf. rewrite (log_artifact_unfold _ _ _ _ _ _ Hp). simpl. rewrite Hf.
    unfold get_af. by rewrite Haf.
  - unfold download_file, py_lift. rewrite py_run_bind, Hp. simpl. unfold get_af. by rewrite Haf.
Qed.

(** urlparse(...).geturl() is not the identity on repository names:
    MLFLOW_ARTIFACTORY_REPO='libs?' gives the repository libs. *)
Example init_repo_geturl_rewrites :
  init {[ "MLFLOW_ARTIFACTORY_ENDPOINT_URL" := "https://af.example/artifactory";
          "MLFLOW_ARTIFACTORY_KEY" := "key"; "MLFLOW_ARTIFACTORY_REPO" := "libs?" ]} "artifactory://host/exp" None None
  = inr (mk_obj "artifactory://host/exp" (Some "libs") None (Some "https://af.example/artifactory") (Some "key")
           (Some {| af_url := "https://af.example/artifactory"; af_api_key := "key" |})).
Proof. vm_compute. reflexivity. Qed.

Definition env_ok : gmap string string :=
  {[ "MLFLOW_ARTIFACTORY_ENDPOINT_URL" := "https://af.example/artifactory";
     "MLFLOW_ARTIFACTORY_KEY" := "key"; "MLFLOW_ARTIFACTORY_REPO" := "libs-release" ]}.

Lemma init_from_env_witness :
  init env_ok "artifactory://host/exp" None None =
    inr (mk_obj "artifactory://host/exp" (Some "libs-release") None (Some "https://af.example/artifactory")
           (Some "key") (Some {| af_url := "https://af.example/artifactory"; af_api_key := "key" |})).
Proof. refine (init_from_env env_ok _ _ _ _ _ _ _ _ _ _ _); (vm_compute; (reflexivity || discriminate)). Defined.

Lemma init_obj_wf_witness :
  obj_wf (mk_obj "artifactory://host/exp" (Some "libs-release") None (Some "https://af.example/artifactory")
           (Some "key") (Some {| af_url := "https://af.example/artifactory"; af_api_key := "key" |})) /\
  artifact_uri (mk_obj "artifactory://host/exp" (Some "libs-release") None (Some "https://af.example/artifactory")
           (Some "key") (Some {| af_url := "https://af.example/artifactory"; af_api_key := "key" |})) =
  "artifactory://host/exp".
Proof. apply (init_obj_wf env_ok "artifactory://host/exp" None None). vm_compute. reflexivity. Defined.

Definition env_no_endpoint : gmap string string :=
  {[ "MLFLOW_ARTIFACTORY_KEY" := "key"; "MLFLOW_ARTIFACTORY_REPO" := "libs" ]}.

Lemma init_assertions_witness :
  (opt_truthy (env_no_endpoint !! "MLFLOW_ARTIFACTORY_ENDPOINT_URL") = false ->
     init env_no_endpoint "artifactory://host/exp" None None =
       inl (AssertionError "please set MLFLOW_ARTIFACTORY_ENDPOINT_URL")) /\
  (opt_truthy (env_no_endpoint !! "MLFLOW_ARTIFACTORY_ENDPOINT_URL") = true ->
     opt_truthy (env_no_endpoint !! "MLFLOW_ARTIFACTORY_KEY") = false ->
     init env_no_endpoint "artifactory://host/exp" None None = inl (AssertionError "please set MLFLOW_ARTIFACTORY_KEY")) /\
  (opt_truthy (env_no_endpoint !! "MLFLOW_ARTIFACTORY_ENDPOINT_URL") = true ->
     opt_truthy (env_no_endpoint !! "MLFLOW_ARTIFACTORY_KEY") = true ->
     str_truthy (geturl {| pr_scheme := ""; pr_netloc := ""; pr_path := "libs";
                            pr_params := ""; pr_query := ""; pr_fragment := "" |}) = false ->
     init env_no_endpoint "artifactory://host/exp" None None = inl (AssertionError "please set MLFLOW_ARTIFACTORY_REPO")).
Proof. refine (init_assertions env_no_endpoint "artifactory://host/exp" _ _). vm_compute. reflexivity. Defined.

Import MemServer.

Definition obj_named : repo_obj := mk_obj "artifactory://host/exp" (Some "repo") None None None None.
Definition w_empty : world server :=
  {| w_server := ∅; w_fs := ∅; w_env := ∅; w_stdout := []; w_calls := [] |}.

Lemma init_early_unusable_witness :
  fst (list_artifacts obj_named None w_empty) = inl (AttributeError "af") /\
  (is_file (w_fs w_empty) "/tmp/m.pkl" = true -> fst (log_artifact obj_named "/tmp/m.pkl" None w_empty) = inl (AttributeError "af")) /\
  fst (download_file obj_named "m.pkl" "/tmp/m.pkl" w_empty) = inl (AttributeError "af").
Proof.
  refine (@init_early_unusable server mem_api ∅ "artifactory://host/exp" (Some "repo") None
            obj_named "host" "exp" w_empty None "/tmp/m.pkl" None "m.pkl" "/tmp/m.pkl" _ _ _).
  - left. discriminate.
  - vm_compute. reflexivity.
  - vm_compute. reflexivity.
Defined.

End Constructor.
