(* ===== verification/Session.v ===== *)
(** * Sessions: the plugin's operations in sequence

    [ping] (lines 43-44 of the repository class), the six public
    operations of [JFrogArtifactRepository] as the labels of a
    transition system over the world, sessions of a host that calls
    them one after the other (an exception of one call is reported to
    the host, and the next call starts from the world the failed one
    left), and the invariant of the world that every operation keeps:
    the server satisfies its model's invariant and the local tree is
    well formed.  The invariant is proved by rule induction on sessions,
    from one [preserves] lemma per operation obtained by decomposing the
    operation's code with the [preserve] tactic. *)

From S2P Require Import Prelude PyStr PosixPath LocalFS ArtifactoryUri Artifactory ArtifactoryLaws Repository PathMapper Lister Transfer.

Module Session.
Import Lister Transfer.

(** An operation the host calls on the repository object. *)
Inductive op :=
  | OpLogArtifact (local_file : string) (artifact_path : option string)
  | OpLogArtifacts (local_dir : string) (artifact_path : option string)
  | OpListArtifacts (path : option string)
  | OpDownload (remote_file_path local_path : string)
  | OpDelete (artifact_path : option string)
  | OpPing.

Section Ops.
Context {S : Type} `{!ArtifactoryApi S}.

(** [ping()]: [return self.af.system_and_configuration.system_health_ping()] *)
Definition ping (o : repo_obj) : PyM (world S) py_exn string :=
  let* _ := get_af o in health_ping.

(** One operation; its value (a listing, the ping answer) goes to the host. *)
Definition run_op (o : repo_obj) (x : op) : PyM (world S) py_exn unit :=
  match x with
  | OpLogArtifact f ap => log_artifact o f ap
  | OpLogArtifacts d ap => log_artifacts o d ap
  | OpListArtifacts p => let* _ := list_artifacts o p in py_ret tt
  | OpDownload rp lp => download_file o rp lp
  | OpDelete ap => delete_artifacts o ap
  | OpPing => let* _ := ping o in py_ret tt
  end.

(** A session: the worlds a host reaches by calling [xs] in order. *)
Inductive session (o : repo_obj) : world S -> list op -> world S -> Prop :=
  | session_nil w : session o w [] w
  | session_cons w x xs r w1 w2 :
      run_op o x w = (r, w1) -> session o w1 xs w2 -> session o w (x :: xs) w2.

(** The session run as a function: the outcome of each call and the final world. *)
Fixpoint run_session (o : repo_obj) (xs : list op) (w : world S) : list (py_exn + unit) * world S :=
  match xs with
  | [] => ([], w)
  | x :: xs' =>
      let '(r, w1) := run_op o x w in
      let '(rs, w2) := run_session o xs' w1 in (r :: rs, w2)
  end.

Lemma run_session_session o xs w : session o w xs (snd (run_session o xs w)).
Proof.
  revert w. induction xs as [|x xs IH]; intros w; simpl; [constructor|].
  destruct (run_op o x w) as [r w1] eqn:E1. destruct (run_session o xs w1) as [rs w2] eqn:E2.
  apply (session_cons o w x xs r w1); [done|].
  replace w2 with (snd (run_session o xs w1)) by (by rewrite E2). apply IH.
Qed.

Lemma session_deterministic o w xs w1 w2 : session o w xs w1 -> session o w xs w2 -> w1 = w2.
Proof.
  intros H1. revert w2. induction H1 as [|w x xs r w1' w2' E _ IH]; intros w3 H2;
    inversion H2; subst; [done|]. apply IH. congruence.
Qed.

End Ops.

(** ** The invariant of the world *)

Section Invariant.
Context {S : Type} `{ArtifactoryModel S}.

(** The server is in its model's invariant and the local tree is well formed. *)
Definition world_inv (w : world S) : Prop := am_inv (w_server w) /\ fs_wf (w_fs w).

(** An accepted deploy keeps the invariant of any model server. *)
Lemma deploy_keeps_inv s r p c s' : am_inv s -> api_deploy s r p c = inr s' -> am_inv s'.
Proof.
  intros Hi Hd. destruct (am_view s r) as [v|] eqn:Hv.
  - destruct (deployable v (segs p)) eqn:Hdep.
    + destruct (am_deploy_ok s r p v c Hi Hv Hdep) as (s'' & Hs'' & Hinv' & _).
      rewrite Hd in Hs''. by injection Hs'' as ->.
    + destruct (am_deploy_refused s r p v c Hi Hv Hdep) as [e He]. congruence.
  - destruct (am_no_repo s r p c Hi Hv) as ([e He] & _). congruence.
Qed.

(** The effects on the world, one by one. *)
Lemma print_inv l : preserves world_inv (py_print (S:=S) l).
Proof. apply preserves_modify. done. Qed.

Lemma get_af_inv o : preserves world_inv (get_af (S:=S) o).
Proof. unfold get_af. preserve. Qed.

Lemma get_repo_inv o : preserves world_inv (get_repo (S:=S) o).
Proof. unfold get_repo. preserve. Qed.

Lemma deploy_artifact_inv r f p : preserves world_inv (deploy_artifact (S:=S) r f p).
Proof.
  intros w res w' [Hi Hf]. unfold deploy_artifact.
  destruct (read_file (w_fs w) f); [by intros [= _ <-]|].
  destruct (api_deploy (w_server w) r p _) eqn:Hd; intros [= _ <-]; [done|].
  split; [by apply (deploy_keeps_inv _ r p _ _ Hi Hd)|done].
Qed.

Lemma retrieve_artifact_inv r p : preserves world_inv (retrieve_artifact (S:=S) r p).
Proof. intros w res w'. unfold retrieve_artifact. by case_match; intros ? [= _ <-]. Qed.

Lemma storage_info_inv r p : preserves world_inv (storage_info (S:=S) r p).
Proof. intros w res w'. unfold storage_info. by case_match; intros ? [= _ <-]. Qed.

Lemma health_ping_inv : preserves world_inv (health_ping (S:=S)).
Proof. intros w res w'. unfold health_ping. by case_match; intros ? [= _ <-]. Qed.

Lemma on_fs_inv {A} (act : PyM fs py_exn A) : preserves fs_wf act -> preserves world_inv (on_fs act).
Proof.
  intros Hact w res w' [Hi Hf]. unfold on_fs. destruct (act (w_fs w)) as [r m] eqn:E.
  intros [= _ <-]. split; [done|]. by apply (Hact (w_fs w) r m).
Qed.

#[local] Hint Resolve print_inv get_af_inv get_repo_inv deploy_artifact_inv retrieve_artifact_inv
  storage_info_inv health_ping_inv on_fs_inv : preserves.

(** Each operation keeps the invariant, whatever it returns. *)
Lemma log_artifact_inv o f ap : preserves world_inv (log_artifact o f ap).
Proof. unfold log_artifact, deploy_or_raise. preserve. Qed.

Lemma log_artifacts_in_inv order o d ap : preserves world_inv (log_artifacts_in order o d ap).
Proof. unfold log_artifacts_in, log_entry, deploy_or_raise. preserve. Qed.

Lemma log_artifacts_inv o d ap : preserves world_inv (log_artifacts o d ap).
Proof. intros w. apply (log_artifacts_in_inv (glob_all (w_fs w) d) o d ap w). Qed.

Lemma list_artifacts_inv o p : preserves world_inv (list_artifacts o p).
Proof. unfold list_artifacts, list_files, list_child. preserve. Qed.

Lemma download_file_inv o rp lp : preserves world_inv (download_file o rp lp).
Proof. unfold download_file, save_file. preserve. Qed.

Lemma run_op_inv o x : preserves world_inv (run_op o x).
Proof.
  destruct x; simpl.
  - apply log_artifact_inv.
  - apply log_artifacts_inv.
  - apply preserves_bind; [apply list_artifacts_inv|intros; apply preserves_ret].
  - apply download_file_inv.
  - apply preserves_raise.
  - unfold ping. preserve.
Qed.

(** In every session of host calls (log_artifact, log_artifacts, list_artifacts,
    _download_file, delete_artifacts, ping), whatever each call returns, the world stays in the
    invariant: the server satisfies its model's invariant and every local path is made of plain
    names with nothing stored at the root. *)
Theorem session_inv o w xs w' : world_inv w -> session o w xs w' -> world_inv w'.
Proof.
  intros Hw Hs. induction Hs as [|w x xs r w1 w2 E _ IH]; [done|].
  apply IH. by apply (run_op_inv o x w r w1).
Qed.

(** ping() on an object with a client sends one health request and returns the server's answer
    OK. *)
Theorem ping_ok o cl (w : world S) :
  am_inv (w_server w) -> af o = Some cl -> ping o w = (inr "OK", with_call w CallPing).
Proof. intros Hi Haf. unfold ping, get_af, health_ping, py_bind. rewrite Haf. simpl. by rewrite am_ping. Qed.

End Invariant.

Module SessionExamples.
Import MemServer.

Definition client : rtpy_client := {| af_url := "https://af.example/artifactory"; af_api_key := "key" |}.
Definition obj : repo_obj := mk_obj "artifactory://host/exp" (Some "repo") None None None (Some client).

Definition w0 : world server :=
  {| w_server := list_to_map [("repo", ∅)]; w_fs := {[ ["tmp"] := LDir; ["tmp"; "m.pkl"] := LFile [Byte.x4d] ]};
     w_env := ∅; w_stdout := []; w_calls := [] |}.

(** A host's session: upload, list, download next to the original,
    delete, ping. *)
Definition ops : list op :=
  [OpLogArtifact "/tmp/m.pkl" None; OpListArtifacts None; OpDownload "m.pkl" "/tmp/copy.pkl";
   OpDelete None; OpPing].

(** A concrete session: upload, list, download, delete and ping all succeed except
    delete_artifacts, which raises MlflowException, and the download writes the uploaded bytes. *)
Example session_example :
  fst (run_session obj ops w0) =
    [inr tt; inr tt; inr tt; inl (MlflowException "delete_artifacts not implemented yet"); inr tt] /\
  w_fs (snd (run_session obj ops w0)) !! ["tmp"; "copy.pkl"] = Some (LFile [Byte.x4d]).
Proof. split; vm_compute; reflexivity. Qed.

Lemma session_w0_inv : world_inv w0.
Proof. split; [apply (empty_repos_inv ["repo"])|apply fs_wf_check; vm_compute; reflexivity]. Qed.

Lemma session_inv_witness : world_inv (snd (run_session obj ops w0)).
Proof. apply (session_inv obj w0 ops); [apply session_w0_inv|apply run_session_session]. Defined.

Lemma ping_ok_witness : ping obj w0 = (inr "OK", with_call w0 CallPing).
Proof. apply (ping_ok obj client w0); [apply (empty_repos_inv ["repo"])|reflexivity]. Defined.

End SessionExamples.

End Session.
