(* ===== verification/Packaging.v ===== *)
(** * Packaging: [setup.py] and MLflow's plugin registry

    [src/setup.py] reads [README.md] and the first line of
    [version.txt] and calls [setup(...)] with the package metadata and
    one entry point in the group [mlflow.artifact_repository].  MLflow
    registers the entry points of that group in its artifact-repository
    registry under their names and, for an artifact URI, looks the URI's
    scheme up there.  This file models [setup.py] as a function of the
    local files, the parse of an entry-point specification
    ([importlib.metadata]), and the registry (MLflow 2.4.1,
    [mlflow/store/artifact/artifact_repository_registry.py], modelled
    from its code: the built-in schemes, then the plugins).  The
    theorems show that the plugin's entry point names the class of the
    repository file and that MLflow hands the plugin exactly the URIs
    [parse_artifactory_uri] accepts. *)

From S2P Require Import Prelude PyStr PosixPath UrlParse ArtifactoryUri PyInt LocalFS.
From Stdlib Require Import Ascii.

Module Packaging.

(** ** [setup.py] *)

(** The keyword arguments of [setup(...)] that carry data. *)
Record setup_args := {
  sa_name : string;
  sa_version : string;
  sa_description : string;
  sa_long_description : string;
  sa_long_description_content_type : string;
  sa_author : string;
  sa_author_email : string;
  sa_url : string;
  sa_install_requires : list string;
  sa_entry_points : list (string * string);
  sa_license : string;
}.

(** [open(p).read()], decoding the bytes one character each. *)
Definition read_text (m : fs) (p : string) : py_exn + string :=
  match read_file m p with
  | inl e => inl e
  | inr b => inr (fold_right (fun x s => String (Ascii.ascii_of_byte x) s) "" b)
  end.

(** [f.readline()]: up to and including the first newline. *)
Definition py_readline (s : string) : string :=
  match str_find newline_char s with
  | Some i => str_take (S i) s
  | None => s
  end.

(** [s.strip()] *)
Definition py_strip (s : string) : string := str_rstrip py_space (str_lstrip py_space s).

(** The [entry_points] value of line 25. *)
Definition plugin_entry_point : string :=
  "artifactory=jfrogartifactoryplugin.store.artifact.jfrog_artifact_repository:JFrogArtifactRepository".

(** Lines 3-28: read the long description and the version, then call
    [setup] with the metadata. *)
Definition setup_py (m : fs) : py_exn + setup_args :=
  match read_text m "README.md" with
  | inl e => inl e
  | inr long_description =>
      match read_text m "version.txt" with
      | inl e => inl e
      | inr v =>
          let version := py_strip (py_readline v) in
          inr {| sa_name := "mlflow-artifactory-plugin-jfrog";
                 sa_version := version;
                 sa_description := "Plugin that provides JFrog Artifactory Artifact Store functionality for MLflow";
                 sa_long_description := long_description;
                 sa_long_description_content_type := "text/markdown";
                 sa_author := "Manoj Kumar R";
                 sa_author_email := "manojrammurthy@gmail.com";
                 sa_url := "https://github.com/manojramamurthy/mlflow-artifactory-plugin-jfrog";
                 sa_install_requires := ["mlflow==2.4.1"; "rtpy==1.4.9"];
                 sa_entry_points := [("mlflow.artifact_repository", plugin_entry_point)];
                 sa_license := "Apache License 2.0" |}
      end
  end.

(** ** Entry points *)

(** [\w] on ASCII, and the characters of a dotted name. *)
Definition is_word_char (c : ascii) : bool :=
  is_ascii_alpha c || is_ascii_digit c || Ascii.eqb c "_".
Definition is_dotted_char (c : ascii) : bool := is_word_char c || Ascii.eqb c ".".

(** An entry point: its name, module and attribute. *)
Record entry_point := { ep_name : string; ep_module : string; ep_attr : option string }.

(** [name = value] split at the first [=], both sides stripped, then the
    value matched against the pattern of [EntryPoint]: a dotted module
    name, optionally a colon and a dotted attribute, blanks around them
    (no extras); [None] when the line or the value does not match. *)
Definition parse_entry_point (line : string) : option entry_point :=
  match str_split_once "=" line with
  | None => None
  | Some (name, value) =>
      let value := py_strip value in
      let '(md, attr) :=
        match str_split_once ":" value with
        | Some (md, a) => (py_strip md, Some (py_strip a))
        | None => (value, None)
        end in
      if str_truthy md && str_all is_dotted_char md &&
         (if attr is Some a then str_truthy a && str_all is_dotted_char a else true)
      then Some {| ep_name := py_strip name; ep_module := md; ep_attr := attr |}
      else None
  end.

(** The source file a module name denotes under [src/]. *)
Definition module_file (md : string) : string :=
  "src/" +:+ str_join sep (str_split "." md) +:+ ".py".

(** ** MLflow's artifact-repository registry *)

(** What the registry maps a scheme to: a built-in repository class or
    the object an entry point loads ([module:attr], or the module). *)
Inductive repo_class :=
  | BuiltinRepo (scheme : string)
  | PluginRepo (md : string) (attr : option string).

#[export] Instance repo_class_eq_dec : EqDecision repo_class.
Proof. solve_decision. Defined.

Abbreviation registry := (gmap string repo_class).

(** The schemes MLflow registers before the plugins. *)
Definition builtin_schemes : list string :=
  [""; "file"; "s3"; "gs"; "wasbs"; "ftp"; "sftp"; "dbfs"; "hdfs"; "viewfs"; "runs"; "models";
   "http"; "https"; "mlflow-artifacts"].

Definition builtin_registry : registry :=
  list_to_map ((fun sc => (sc, BuiltinRepo sc)) <$> builtin_schemes).

Definition artifact_repository_group : string := "mlflow.artifact_repository".

(** [register_entrypoints()]: each entry point of the group in turn is
    registered under its name; one that does not parse is skipped with
    a warning.  Loading is not modelled: the package is installed. *)
Definition register_entrypoints (eps : list (string * string)) (reg : registry) : registry :=
  fold_left (fun reg gs =>
               if String.eqb gs.1 artifact_repository_group then
                 match parse_entry_point gs.2 with
                 | Some ep => <[ep_name ep := PluginRepo (ep_module ep) (ep_attr ep)]> reg
                 | None => reg
                 end
               else reg) eps reg.

(** The registry of an MLflow process with the package installed. *)
Definition mlflow_registry (args : setup_args) : registry :=
  register_entrypoints (sa_entry_points args) builtin_registry.

(** [DATABASE_ENGINES] *)
Definition db_engines : list string := ["postgresql"; "mysql"; "sqlite"; "mssql"].

(** [extract_db_type_from_uri] on the scheme of the URI (messages
    without their constant tails). *)
Definition extract_db_type (uri scheme : string) : py_exn + string :=
  let db_type :=
    match str_split "+" scheme with
    | [t] => Some t
    | [t; _] => Some t
    | _ => None
    end in
  match db_type with
  | None => inl (MlflowException ("Invalid database URI: '" +:+ uri +:+ "'."))
  | Some t => if mem_str t db_engines then inr t
              else inl (MlflowException ("Invalid database engine: '" +:+ t +:+ "'."))
  end.

(** [get_uri_scheme(uri)] *)
Definition get_uri_scheme (uri : string) : py_exn + string :=
  match urlparse uri with
  | inl e => inl e
  | inr r =>
      let scheme := pr_scheme r in
      if existsb (startswith (str_lower scheme)) db_engines then extract_db_type uri scheme
      else inr scheme
  end.

(** [get_artifact_repository(artifact_uri)]: the class registered for
    the scheme (the message without the list of registered schemes). *)
Definition get_artifact_repository (reg : registry) (uri : string) : py_exn + repo_class :=
  match get_uri_scheme uri with
  | inl e => inl e
  | inr scheme =>
      match reg !! scheme with
      | Some c => inr c
      | None => inl (MlflowException ("Could not find a registered artifact repository for: " +:+ uri +:+ "."))
      end
  end.

(** The class the plugin's entry point loads. *)
Definition jfrog_class : repo_class :=
  PluginRepo "jfrogartifactoryplugin.store.artifact.jfrog_artifact_repository" (Some "JFrogArtifactRepository").

(** ** Lemmas *)

(** A line without blanks followed by a newline: [readline] stops at
    the newline and [strip] gives the line back. *)
Lemma readline_strip v rest :
  str_all (fun c => negb (py_space c)) v = true ->
  py_strip (py_readline (v +:+ String newline_char rest)) = v.
Proof.
  intros Hv. assert (py_readline (v +:+ String newline_char rest) = v +:+ String newline_char "") as ->.
  { unfold py_readline. induction v as [|c v IH]; [done|].
    cbn [str_all] in Hv. apply andb_prop in Hv as [Hc Hv]. rewrite !str_append_cons. cbn [str_find].
    assert (Ascii.eqb newline_char c = false) as ->.
    { destruct (Ascii.eqb_spec newline_char c) as [<-|]; [discriminate Hc|done]. }
    specialize (IH Hv). destruct (str_find newline_char (v +:+ String newline_char rest));
      cbn [fmap option_fmap option_map str_take] in *; f_equal; exact IH. }
  unfold py_strip. destruct v as [|c v]; [done|]. simpl in Hv |- *.
  apply andb_prop in Hv as [Hc Hv]. apply negb_true_iff in Hc. rewrite Hc.
  change (String c (v +:+ String newline_char "")) with (String c v +:+ String newline_char "").
  rewrite str_rstrip_app_all by done. apply str_rstrip_id. simpl. by rewrite Hc, Hv.
Qed.

Lemma setup_py_entry_points m args :
  setup_py m = inr args -> sa_entry_points args = [(artifact_repository_group, plugin_entry_point)].
Proof. unfold setup_py. repeat case_match; intros [= <-]; done. Qed.

Lemma builtin_registry_lookup k c : builtin_registry !! k = Some c -> c = BuiltinRepo k.
Proof.
  unfold builtin_registry. intros Hk%elem_of_list_to_map_2. apply list_elem_of_fmap in Hk as (sc & Heq & _).
  by injection Heq as -> ->.
Qed.

Lemma mlflow_registry_setup m args :
  setup_py m = inr args -> mlflow_registry args = <["artifactory" := jfrog_class]> builtin_registry.
Proof. intros Hs. unfold mlflow_registry. rewrite (setup_py_entry_points m args Hs). reflexivity. Qed.

(** Only the scheme [artifactory] is mapped to the plugin's class. *)
Lemma plugin_lookup k :
  (<["artifactory" := jfrog_class]> builtin_registry) !! k = Some jfrog_class <-> k = "artifactory".
Proof.
  split; [|intros ->; apply lookup_insert_eq].
  destruct (decide (k = "artifactory")) as [->|Hne]; [done|].
  rewrite lookup_insert_ne by congruence. intros Hk%builtin_registry_lookup. discriminate Hk.
Qed.

Lemma extract_db_type_engine uri sc t : extract_db_type uri sc = inr t -> mem_str t db_engines = true.
Proof. unfold extract_db_type. repeat case_match; intros; simplify_eq; done. Qed.

(** ** Theorems *)

(** The entry point of setup.py registers, under the name artifactory, the class
    JFrogArtifactRepository of the module whose file is the repository's source file. *)
Example plugin_entry_point_parse :
  parse_entry_point plugin_entry_point =
    Some {| ep_name := "artifactory";
            ep_module := "jfrogartifactoryplugin.store.artifact.jfrog_artifact_repository";
            ep_attr := Some "JFrogArtifactRepository" |} /\
  module_file "jfrogartifactoryplugin.store.artifact.jfrog_artifact_repository" =
    "src/jfrogartifactoryplugin/store/artifact/jfrog_artifact_repository.py".
Proof. split; reflexivity. Qed.

(** C31: setup.py publishes as version the first line of version.txt without its newline, whatever
    follows, and README.md as the long description. *)
Theorem setup_py_version m d v rest :
  read_text m "README.md" = inr d ->
  read_text m "version.txt" = inr (v +:+ String newline_char rest) ->
  str_all (fun c => negb (py_space c)) v = true ->
  exists args, setup_py m = inr args /\ sa_version args = v /\ sa_long_description args = d.
Proof.
  intros Hr Hv Hs. unfold setup_py. rewrite Hr, Hv. eexists. split; [reflexivity|].
  split; [by apply readline_strip|done].
Qed.

(** C9: Once setup.py has installed the package, MLflow's registry returns JFrogArtifactRepository
    for an artifact URI exactly when parse_artifactory_uri accepts that URI (its scheme is
    artifactory). *)
Theorem plugin_dispatch m args uri :
  setup_py m = inr args ->
  get_artifact_repository (mlflow_registry args) uri = inr jfrog_class <->
  exists np, UriResolver.parse_artifactory_uri uri = inr np.
Proof.
  intros Hs. rewrite (mlflow_registry_setup m args Hs).
  unfold get_artifact_repository, get_uri_scheme, UriResolver.parse_artifactory_uri, UriResolver.strip_leading_slash.
  destruct (urlparse uri) as [e|r]; [split; [discriminate|by intros []]|].
  split.
  - destruct (existsb _ db_engines) eqn:Hdb.
    + destruct (extract_db_type uri (pr_scheme r)) as [e|t] eqn:Ht; [discriminate|].
      destruct (_ !! t) eqn:Hl; [|discriminate]. intros [= ->].
      apply plugin_lookup in Hl as ->. by apply extract_db_type_engine in Ht.
    + destruct (_ !! pr_scheme r) eqn:Hl; [|discriminate]. intros [= ->].
      apply plugin_lookup in Hl as ->. by eexists.
  - intros [np Hp]. destruct (String.eqb_spec (pr_scheme r) "artifactory") as [He|]; [|discriminate].
    rewrite He. simpl. by rewrite lookup_insert_eq.
Qed.

Definition m0 : fs :=
  {[ ["README.md"] := LFile [Byte.x23]; ["version.txt"] := LFile [Byte.x30; Byte.x2e; Byte.x31; Byte.x0a] ]}.

(** The arguments [setup.py] passes for [m0]. *)
Definition args0 : setup_args :=
  match setup_py m0 with inr a => a | inl _ => Build_setup_args "" "" "" "" "" "" "" "" [] [] "" end.

Lemma setup_py_version_witness :
  exists args, setup_py m0 = inr args /\ sa_version args = "0.1" /\ sa_long_description args = "#".
Proof. apply (setup_py_version m0 "#" "0.1" ""); reflexivity. Defined.

Lemma plugin_dispatch_witness :
  get_artifact_repository (mlflow_registry args0) "artifactory://host/exp" = inr jfrog_class <->
  exists np, UriResolver.parse_artifactory_uri "artifactory://host/exp" = inr np.
Proof. apply (plugin_dispatch m0 args0). reflexivity. Defined.

End Packaging.
