(* ===== verification/Download.v ===== *)
(** * The host's recursive download over the plugin

    MLflow does not call [_download_file] on its own: the host method
    [ArtifactRepository.download_artifacts(artifact_path, dst_path)]
    (mlflow/store/artifact/artifact_repo.py, inherited unchanged by
    [JFrogArtifactRepository]) asks [self.list_artifacts(artifact_path)]
    whether the path is a folder ([_is_directory]), walks it with the
    generator [_iter_artifacts_recursive], which calls
    [self.list_artifacts] again on every folder entry it meets, and
    hands every file entry to [self._download_file].  The plugin's
    [list_artifacts] (lines 107-121) and [_download_file] (lines
    145-157) are therefore composed here with the host's code.

    - [iter_artifacts_recursive] is the generator, consumed by a loop
      body [body] threading the loop's local state; the recursion of the
      generator is bounded by [fuel], the interpreter's recursion limit,
      and [RecursionError] is raised when it is exhausted.
    - [create_download_destination] and [download_artifacts] are the
      host's methods; here each transfer runs as soon as it is
      submitted, and its exception is collected as the future's
      exception is ([ThreadPool] models the pool with every schedule
      and shows that this is its eager one).

    The plugin lists a folder entry by its base name only (line 130), so
    the host's recursion into [weights/sub] asks for the top-level
    folder [sub]: the theorems show what that does to a download. *)

From Stdlib Require Import Ascii.
From S2P Require Import Prelude PyStr PosixPath PySort LocalFS ArtifactoryUri Artifactory ArtifactoryLaws Repository PathMapper Lister Transfer.

Module Download.
Import Lister Transfer PathMapper.

Section Download.
Context {St : Type} `{!ArtifactoryApi St}.

(** [_iter_artifacts_recursive(path)], run by a consumer that folds
    [body] over what it yields:
    [dir_content = [fi for fi in self.list_artifacts(path) if fi.path not in [".", path]]];
    an empty folder yields [FileInfo(path, True, None)], otherwise each
    folder entry is walked by [yield from] and each file entry yielded. *)
Fixpoint iter_artifacts_recursive {A} (fuel : nat) (o : repo_obj) (path : string)
    (body : A -> file_info -> PyM (world St) py_exn A) (acc : A) : PyM (world St) py_exn A :=
  match fuel with
  | O => py_raise RecursionError
  | S fuel' =>
      let* infos := list_artifacts o (Some path) in
      let dir_content :=
        List.filter (fun fi => negb (String.eqb (fi_path fi) ".") && negb (String.eqb (fi_path fi) path)) infos in
      match dir_content with
      | [] => body acc {| fi_path := path; fi_is_dir := true; fi_file_size := None |}
      | _ => py_fold (fun acc fi =>
               if fi_is_dir fi then iter_artifacts_recursive fuel' o (fi_path fi) body acc
               else body acc fi) dir_content acc
      end
  end.

(** [_create_download_destination(src_artifact_path, dst_local_dir_path)] *)
Definition create_download_destination (src_artifact_path dst_local_dir_path : string)
    : PyM (world St) py_exn string :=
  let src := str_rstrip (is_char sep) src_artifact_path in
  let dirpath := dirname src in
  let local_dir_path := posix_join dst_local_dir_path [dirpath] in
  let local_file_path := posix_join dst_local_dir_path [src] in
  let* w := py_get in
  let* _ := if path_exists (w_fs w) local_dir_path then py_ret tt
            else on_fs (makedirs local_dir_path) in
  py_ret local_file_path.

(** The message of the [MlflowException] raised after the transfers,
    naming the paths whose future raised. *)
Definition download_failures_msg (o : repo_obj) (failed : list (string * py_exn)) : string :=
  "The following failures occurred while downloading one or more artifacts from " +:+
  artifact_uri o +:+ ": " +:+ str_join ","%char (fst <$> failed).

(** [download_artifacts(artifact_path, dst_path)] for a given
    [dst_path]: the destination checks, [_is_directory], the walk with
    the loop body that makes the empty folders and submits the files,
    then the failures collected from the transfers. *)
Definition download_artifacts (fuel : nat) (o : repo_obj) (artifact_path dst_path : string)
    : PyM (world St) py_exn string :=
  let submit (failed : list (string * py_exn)) (src : string) :=
    let* local := create_download_destination src dst_path in
    py_try (download_file o src local ;; py_ret failed)
      (fun e => py_ret (failed ++ [(src, e)])) in
  let* w := py_get in
  if negb (path_exists (w_fs w) dst_path) then
    py_raise (MlflowException ("The destination path for downloaded artifacts does not exist! Destination path: " +:+ dst_path))
  else if negb (path_isdir (w_fs w) dst_path) then
    py_raise (MlflowException ("The destination path for downloaded artifacts must be a directory! Destination path: " +:+ dst_path))
  else
    let* listing := list_artifacts o (Some artifact_path) in
    let* failed :=
      if 0 <? length listing then
        iter_artifacts_recursive fuel o artifact_path
          (fun failed fi =>
             if fi_is_dir fi then on_fs (makedirs (posix_join dst_path [fi_path fi])) ;; py_ret failed
             else submit failed (fi_path fi)) []
      else submit [] artifact_path in
    match failed with
    | [] => py_ret (posix_join dst_path [artifact_path])
    | _ => py_raise (MlflowException (download_failures_msg o failed))
    end.

End Download.

(** ** The server is only read

    A walk lists folders and retrieves files: it keeps the server, and
    none of its steps but the exhausted recursion raises
    [RecursionError]. *)

Section ServerFixed.
Context {St : Type} `{!ArtifactoryApi St} (s : St).

Definition on_server (w : world St) : Prop := w_server w = s.

Lemma print_avoids l : avoids on_server (eq RecursionError) (py_print l).
Proof. apply avoids_run. intros w Hw. by split. Qed.

Lemma retrieve_avoids r p : avoids on_server (eq RecursionError) (retrieve_artifact r p).
Proof. apply avoids_run. intros w Hw. unfold retrieve_artifact. by case_match; split; [|intros ? [= <-]| |]. Qed.

Lemma on_fs_avoids {A} (act : PyM fs py_exn A) :
  avoids (fun _ => True) (eq RecursionError) act -> avoids on_server (eq RecursionError) (on_fs act).
Proof.
  intros Ha. apply avoids_run. intros w Hw. unfold on_fs.
  destruct (act (w_fs w)) as [r m] eqn:E. split; [done|]. simpl. intros e ->.
  by apply (proj2 Ha (w_fs w) e m).
Qed.

Lemma lift_avoids {A} (x : py_exn + A) :
  (forall e, x = inl e -> e <> RecursionError) -> avoids on_server (eq RecursionError) (py_lift x).
Proof. intros Hx. apply avoids_run. intros w Hw. split; [done|]. intros e He <-. by apply (Hx RecursionError). Qed.

End ServerFixed.

#[export] Hint Resolve print_avoids retrieve_avoids : avoids.
#[export] Hint Extern 1 (avoids _ _ (on_fs _)) => apply on_fs_avoids; eauto with avoids : avoids.

(** [_download_file] keeps the server and raises no [RecursionError]. *)
Lemma download_file_avoids {St} `{!ArtifactoryApi St} (s : St) o rp lp :
  avoids (on_server s) (eq RecursionError) (download_file o rp lp).
Proof.
  unfold download_file, save_file, get_af, get_repo. avoid.
  apply lift_avoids, UriResolver.parse_artifactory_uri_exn.
Qed.

Lemma create_download_destination_avoids {St} `{!ArtifactoryApi St} (s : St) src dst :
  avoids (on_server s) (eq RecursionError) (create_download_destination src dst).
Proof. unfold create_download_destination. avoid. Qed.

#[export] Hint Resolve download_file_avoids create_download_destination_avoids : avoids.



(** ** The walk against a model of the server *)

Section Walk.
Context {St : Type} `{ArtifactoryModel St}.
Context (o : repo_obj) (cl : rtpy_client) (repo : string) (s : St) (v : files).
Context (Hinv : am_inv s) (Hview : am_view s repo = Some v).
Context (Haf : af o = Some cl) (Hrepo : artifactory_repo o = Some repo).
Context (netloc adir : string) (Hparse : UriResolver.parse_artifactory_uri (artifact_uri o) = inr (netloc, adir)).

(** The folder of the server that [list_artifacts(q)] lists. *)
Definition listed_dir (q : string) : list string := segs (PathMapper.list_full_path netloc adir (Some q)).

(** [list_artifacts(q)] keeps the server and raises the client's error
    or returns entries whose folders are folders of [listed_dir q]. *)
Lemma on_server_model w : on_server s w -> am_inv (w_server w) /\ am_view (w_server w) repo = Some v.
Proof. intros ->. by split. Qed.

Lemma list_on_server q w : on_server s w ->
  exists r w', list_artifacts o (Some q) w = (r, w') /\ on_server s w' /\
    match r with
    | inl e => exists st, e = AfApiError st
    | inr infos => forall fi, fi ∈ infos -> fi_is_dir fi = true ->
        (fi_path fi, true) ∈ folder_children v (listed_dir q)
    end.
Proof.
  intros Hw. destruct (on_server_model w Hw) as [Hi Hv].
  destruct (list_artifacts_cases o cl repo w v Hi Hv Haf Hrepo (Some q) netloc adir Hparse)
    as (r & w' & E & [Hs _] & Hr).
  exists r, w'. split; [done|]. split; [unfold on_server; congruence|done].
Qed.

Lemma list_avoids q : avoids (on_server s) (eq RecursionError) (list_artifacts o (Some q)).
Proof.
  apply avoids_run. intros w Hw. destruct (list_on_server q w Hw) as (r & w' & -> & Hw' & Hr).
  split; [done|]. intros e He. simpl in He. subst r. destruct Hr as [st ->]. discriminate.
Qed.

(** With a rank that decreases from a name to the folders listed under
    it, a walk started below the fuel never exhausts it. *)
Lemma iter_avoids {A} (body : A -> file_info -> PyM (world St) py_exn A) (rank : string -> nat) :
  (forall q n, (n, true) ∈ folder_children v (listed_dir q) -> n <> q -> n <> "." -> rank n < rank q) ->
  (forall a fi, avoids (on_server s) (eq RecursionError) (body a fi)) ->
  forall fuel q acc, rank q < fuel ->
    avoids (on_server s) (eq RecursionError) (iter_artifacts_recursive fuel o q body acc).
Proof.
  intros Hrank Hbody fuel. induction fuel as [|fuel IH]; intros q acc Hlt; [lia|].
  apply avoids_run. intros w Hw. cbn [iter_artifacts_recursive]. rewrite py_run_bind.
  destruct (list_on_server q w Hw) as ([e|infos] & w1 & -> & Hw1 & Hr).
  - split; [done|]. destruct Hr as [st ->]. by intros ? [= <-].
  - revert w1 Hw1. apply avoids_run. cbv zeta.
    destruct (List.filter _ infos) as [|x l] eqn:Hdc; [apply Hbody|].
    apply avoids_fold. intros a fi Hfi. rewrite <- Hdc, list_elem_of_In, filter_In in Hfi.
    destruct Hfi as [Hfi Hkeep%andb_prop]. rewrite <- list_elem_of_In in Hfi.
    destruct Hkeep as [Hdot%negb_true_iff%String.eqb_neq Hq%negb_true_iff%String.eqb_neq].
    destruct (fi_is_dir fi) eqn:Hd; [|apply Hbody].
    apply IH. pose proof (Hrank q (fi_path fi) (Hr fi Hfi Hd) Hq Hdot). lia.
Qed.

#[local] Hint Resolve list_avoids : avoids.

(** A download whose walk starts below the fuel never exhausts it. *)
Lemma download_avoids (rank : string -> nat) fuel artifact_path dst :
  (forall q n, (n, true) ∈ folder_children v (listed_dir q) -> n <> q -> n <> "." -> rank n < rank q) ->
  rank artifact_path < fuel ->
  avoids (on_server s) (eq RecursionError) (download_artifacts fuel o artifact_path dst).
Proof.
  intros Hrank Hlt. unfold download_artifacts. cbv zeta. avoid.
  apply (iter_avoids _ rank Hrank); [|done]. intros acc fi. avoid.
Qed.

(** A folder whose only child is the folder [q] is listed as [q]. *)
Lemma list_single_folder p q w :
  is_folder v (listed_dir p) = true -> folder_children v (listed_dir p) = [(q, true)] -> on_server s w ->
  exists w', list_artifacts o (Some p) w =
    (inr [{| fi_path := q; fi_is_dir := true; fi_file_size := None |}], w') /\ on_server s w' /\ w_fs w' = w_fs w.
Proof.
  intros Hf Hc Hw. destruct (on_server_model w Hw) as [Hi Hv].
  destruct (list_artifacts_listing o cl repo w v Hi Hv Haf Hrepo (Some p) netloc adir Hparse Hf)
    as (w' & E & [Hs Hfs]).
  exists w'. split; [|split; [unfold on_server; congruence|done]]. rewrite E. unfold expected_listing, listed_dir in *.
  by rewrite Hc.
Qed.

(** The walk of such a folder is the walk of [q], one level deeper. *)
Lemma iter_single_folder {A} (body : A -> file_info -> PyM (world St) py_exn A) p q fuel acc w :
  q <> p -> q <> "." ->
  is_folder v (listed_dir p) = true -> folder_children v (listed_dir p) = [(q, true)] -> on_server s w ->
  exists w', on_server s w' /\ w_fs w' = w_fs w /\
    iter_artifacts_recursive (S fuel) o p body acc w = iter_artifacts_recursive fuel o q body acc w'.
Proof.
  intros Hqp Hq Hf Hc Hw. destruct (list_single_folder p q w Hf Hc Hw) as (w' & E & Hw' & Hfs).
  exists w'. do 2 (split; [done|]). cbn [iter_artifacts_recursive]. rewrite py_run_bind, E. cbn -[iter_artifacts_recursive].
  apply String.eqb_neq in Hqp, Hq. rewrite Hqp, Hq. cbn -[iter_artifacts_recursive].
  apply py_bind_ret_r.
Qed.

(** Two folders listed under each other's names: every walk of either
    ends in [RecursionError], whatever the fuel. *)
Lemma iter_cycle {A} (body : A -> file_info -> PyM (world St) py_exn A) a b :
  a <> b -> a <> "." -> b <> "." ->
  is_folder v (listed_dir a) = true -> folder_children v (listed_dir a) = [(b, true)] ->
  is_folder v (listed_dir b) = true -> folder_children v (listed_dir b) = [(a, true)] ->
  forall fuel acc w, on_server s w ->
    fst (iter_artifacts_recursive fuel o a body acc w) = inl RecursionError /\
    fst (iter_artifacts_recursive fuel o b body acc w) = inl RecursionError.
Proof.
  intros Hab Ha Hb Hfa Hca Hfb Hcb fuel. induction fuel as [|fuel IH]; intros acc w Hw; [done|].
  destruct (iter_single_folder body a b fuel acc w) as (w1 & Hw1 & _ & ->); [auto|done|done|done|done|].
  destruct (iter_single_folder body b a fuel acc w) as (w2 & Hw2 & _ & ->); [auto|done|done|done|done|].
  split; [apply (IH acc w1 Hw1)|apply (IH acc w2 Hw2)].
Qed.

(** How far the folder a name lists lies above the depth of a folder
    of the run. *)
Definition shallow_rank (q : string) : nat := S (length (listed_dir "")) - length (listed_dir q).

(** When no file of the repository lies more than two levels below the
    run folder, [shallow_rank] decreases from a name to the folders
    listed under it. *)
Lemma shallow_rank_decreases :
  rel_ok adir -> map_Forall (fun k _ => length k <= length (listed_dir "") + 2) v ->
  forall q n, (n, true) ∈ folder_children v (listed_dir q) -> n <> q -> n <> "." ->
    shallow_rank n < shallow_rank q.
Proof.
  intros Hdir Hdepth q n Hn _ _.
  pose proof (folder_child_plain v (am_view_wf _ _ _ Hinv Hview) _ _ _ Hn) as Hpl.
  apply folder_children_elem in Hn as (k & c & Hk & (rest & -> & Hb)%child_of_spec).
  apply Hdepth in Hk. rewrite length_app in Hk. destruct rest as [|x rest]; [done|]. simpl in Hk.
  assert (str_truthy n = true) as Ht.
  { unfold str_truthy. apply negb_true_iff, String.eqb_neq, (plain_name_props n Hpl). }
  assert (listed_dir n = listed_dir "" ++ [n]) as Hln.
  { unfold listed_dir. rewrite (segs_list_full_path_sub netloc adir Hdir n (proj2 (plain_rel_ok n Hpl)) Ht).
    rewrite (proj1 (segs_list_full_path_root netloc adir Hdir "" eq_refl)), (segs_plain n Hpl).
    by rewrite app_assoc. }
  unfold shallow_rank. rewrite Hln, length_app. simpl. lia.
Qed.

(** C12: If some rank on names decreases from every name q to each folder that list_artifacts(q)
    reports (other than q and '.'), then download_artifacts(p) with a recursion limit above the rank
    of p never raises RecursionError, and the server is unchanged. *)
Theorem download_artifacts_terminates (rank : string -> nat) fuel artifact_path dst w :
  (forall q n, (n, true) ∈ folder_children v (listed_dir q) -> n <> q -> n <> "." -> rank n < rank q) ->
  on_server s w -> rank artifact_path < fuel ->
  on_server s (snd (download_artifacts fuel o artifact_path dst w)) /\
  fst (download_artifacts fuel o artifact_path dst w) <> inl RecursionError.
Proof.
  intros Hrank Hw Hlt.
  destruct (proj1 (avoids_run _ _ _) (download_avoids rank fuel artifact_path dst Hrank Hlt) w Hw)
    as [Hs He].
  split; [done|]. intros E. by apply (He _ E).
Qed.

(** The steps of [download_artifacts] before the walk, when the
    destination is a directory. *)
Lemma download_artifacts_unfold fuel artifact_path dst w :
  path_exists (w_fs w) dst = true -> path_isdir (w_fs w) dst = true ->
  download_artifacts fuel o artifact_path dst w =
    (let* listing := list_artifacts o (Some artifact_path) in
     let* failed := (if 0 <? length listing then
        iter_artifacts_recursive fuel o artifact_path
          (fun failed fi =>
             if fi_is_dir fi then on_fs (makedirs (posix_join dst [fi_path fi])) ;; py_ret failed
             else let* local := create_download_destination (fi_path fi) dst in
                  py_try (download_file o (fi_path fi) local ;; py_ret failed)
                    (fun e => py_ret (failed ++ [(fi_path fi, e)]))) []
      else let* local := create_download_destination artifact_path dst in
           py_try (download_file o artifact_path local ;; py_ret [])
             (fun e => py_ret ([] ++ [(artifact_path, e)]))) in
     match failed with
     | [] => py_ret (posix_join dst [artifact_path])
     | _ => py_raise (MlflowException (download_failures_msg o failed))
     end) w.
Proof. intros Hex Hdir. unfold download_artifacts. rewrite py_run_bind. cbn [py_get]. by rewrite Hex, Hdir. Qed.

(** C13: If list_artifacts(a) reports only the folder b and list_artifacts(b) only the folder a (the
    run holds a/b and b/a), download_artifacts(a) never completes: for every recursion limit it ends
    in RecursionError, because the plugin reports sub-folders by their base name and the host walks
    the top-level folder of that name. *)
Theorem download_artifacts_diverges a b dst w :
  a <> b -> a <> "." -> b <> "." ->
  is_folder v (listed_dir a) = true -> folder_children v (listed_dir a) = [(b, true)] ->
  is_folder v (listed_dir b) = true -> folder_children v (listed_dir b) = [(a, true)] ->
  on_server s w -> path_exists (w_fs w) dst = true -> path_isdir (w_fs w) dst = true ->
  forall fuel, fst (download_artifacts fuel o a dst w) = inl RecursionError.
Proof.
  intros Hab Ha Hb Hfa Hca Hfb Hcb Hw Hex Hdir fuel.
  rewrite (download_artifacts_unfold fuel a dst w Hex Hdir), py_run_bind.
  destruct (list_single_folder a b w Hfa Hca Hw) as (w1 & -> & Hw1 & _). cbn [length Nat.ltb Nat.leb].
  rewrite py_run_bind.
  match goal with |- context [iter_artifacts_recursive ?f ?o ?p ?bd ?acc ?w] =>
    destruct (iter_cycle bd a b Hab Ha Hb Hfa Hca Hfb Hcb f acc w Hw1) as [Hi _];
    destruct (iter_artifacts_recursive f o p bd acc w) as [r w2] end.
  simpl in Hi. by subst r.
Qed.

(** C14: Because the plugin lists the sub-folder d/q of a folder d as q, MLflow's
    download_artifacts(d) asks for the top-level folder q: when d's only child is the folder q and
    the run has no top-level q, the download fails with the client's AfApiError for every recursion
    limit above one, and nothing is written locally. *)
Theorem download_artifacts_nested_folder_fails fuel d q dst w :
  1 < fuel -> q <> d -> q <> "." ->
  is_folder v (listed_dir d) = true -> folder_children v (listed_dir d) = [(q, true)] ->
  v !! listed_dir q = None -> is_folder v (listed_dir q) = false ->
  on_server s w -> path_exists (w_fs w) dst = true -> path_isdir (w_fs w) dst = true ->
  exists st, fst (download_artifacts fuel o d dst w) = inl (AfApiError st) /\
    w_fs (snd (download_artifacts fuel o d dst w)) = w_fs w.
Proof.
  intros Hfuel Hqd Hq Hfd Hcd Hvq Hfq Hw Hex Hdir.
  rewrite (download_artifacts_unfold fuel d dst w Hex Hdir), py_run_bind.
  destruct (list_single_folder d q w Hfd Hcd Hw) as (w1 & -> & Hw1 & Hfs1). cbn [length Nat.ltb Nat.leb].
  rewrite py_run_bind. destruct fuel as [|[|fuel]]; [lia|lia|].
  match goal with |- context [iter_artifacts_recursive _ o d ?bd ?acc w1] =>
    destruct (iter_single_folder bd d q (S fuel) acc w1 Hqd Hq Hfd Hcd Hw1) as (w2 & Hw2 & Hfs2 & ->) end.
  cbn [iter_artifacts_recursive]. rewrite py_run_bind.
  destruct (on_server_model w2 Hw2) as [Hi2 Hv2].
  destruct (list_missing_error o cl repo w2 v Hi2 Hv2 Haf Hrepo (Some q) netloc adir Hparse Hvq Hfq)
    as (st & w3 & -> & _ & Hfs3).
  exists st. split; [done|]. simpl. congruence.
Qed.

(** C15: For a folder a whose only child is a folder also named a (so the run holds files below
    a/a), MLflow's download_artifacts(a) over the plugin reports success with dst/a, for every
    recursion limit, while writing no file locally: the host's guard drops the entry a as the folder
    itself. *)
Theorem download_artifacts_namesake_folder_lost fuel a dst w :
  0 < fuel -> plain_name a = true ->
  is_folder v (listed_dir a) = true -> folder_children v (listed_dir a) = [(a, true)] ->
  on_server s w -> path_exists (w_fs w) dst = true -> path_isdir (w_fs w) dst = true ->
  endswith_char dst sep = false -> Forall (no_file_at (w_fs w)) (nonempty_prefixes (segs dst ++ [a])) ->
  (exists k c, v !! (listed_dir a ++ a :: k) = Some c) /\
  exists w', download_artifacts fuel o a dst w = (inr (posix_join dst [a]), w') /\ on_server s w' /\
    forall k c, w_fs w' !! k = Some (LFile c) -> w_fs w !! k = Some (LFile c).
Proof.
  intros Hfuel Ha Hfa Hca Hw Hex Hdir Hde Hpre.
  assert (str_truthy dst = true) as Hdt by (unfold path_exists in Hex; by apply andb_prop in Hex as [? _]).
  split.
  { assert ((a, true) ∈ folder_children v (listed_dir a)) as Hin by (rewrite Hca; left).
    apply folder_children_elem in Hin as (k & c & Hk & (rest & -> & _)%child_of_spec). by exists rest, c. }
  rewrite (download_artifacts_unfold fuel a dst w Hex Hdir), py_run_bind.
  destruct (list_single_folder a a w Hfa Hca Hw) as (w1 & -> & Hw1 & Hfs1). cbn [length Nat.ltb Nat.leb].
  rewrite py_run_bind. destruct fuel as [|fuel]; [lia|]. cbn [iter_artifacts_recursive]. rewrite py_run_bind.
  destruct (list_single_folder a a w1 Hfa Hca Hw1) as (w2 & -> & Hw2 & Hfs2). cbv beta zeta.
  cbn [List.filter fi_path]. rewrite String.eqb_refl. cbn [negb]. rewrite andb_false_r. cbv iota.
  cbn [fi_is_dir fi_path]. rewrite (posix_join_one dst a Hdt Hde (proj1 (plain_rel_ok a Ha))).
  assert (segs (dst +:+ String sep a) = segs dst ++ [a]) as Hsg by (by apply segs_app_plain).
  destruct (makedirs_ok (dst +:+ String sep a) (w_fs w2)) as [Hmk _]; [by destruct dst|by rewrite Hsg, Hfs2, Hfs1|].
  unfold on_fs. rewrite !py_run_bind, Hmk. cbn. eexists. split; [reflexivity|]. split; [done|].
  intros k c. cbn [w_fs with_fs]. rewrite add_dirs_lookup by (by rewrite Hsg, Hfs2, Hfs1).
  rewrite Hfs2, Hfs1. by case_decide.
Qed.

(** ** Downloading a folder of files *)

(** [m'] differs from [m] only at [k0], which holds the file [c], and on
    the directories [P], which hold no file. *)
Definition fs_step (P : list (list string)) (k0 : list string) (c : bytes) (m m' : fs) : Prop :=
  m' !! k0 = Some (LFile c) /\ (forall k, k <> k0 -> k ∉ P -> m' !! k = m !! k) /\
  Forall (no_file_at m') P.

Lemma startswith_app_slash d x : d <> "" -> startswith d "/" = false -> startswith (d +:+ x) "/" = false.
Proof. destruct d as [|c t]; [done|]. intros _. by rewrite str_append_cons. Qed.

(** [listed_dir d] for a plain name [d]: the run folder and [d]. *)
Lemma listed_dir_plain d :
  rel_ok adir -> plain_name d = true -> listed_dir d = segs netloc ++ segs adir ++ [d].
Proof.
  intros Hdir Hd. assert (str_truthy d = true) as Ht.
  { unfold str_truthy. apply negb_true_iff, String.eqb_neq, (plain_name_props d Hd). }
  unfold listed_dir. rewrite (segs_list_full_path_sub netloc adir Hdir d (proj2 (plain_rel_ok d Hd)) Ht).
  by rewrite (segs_plain d Hd).
Qed.

(** [_create_download_destination(d + "/" + n, dst)] creates the missing
    directories of [dst/d] and names [dst/d/n]. *)
Lemma create_dest_file d n dst (w : world St) :
  plain_name d = true -> plain_name n = true -> str_truthy dst = true -> endswith_char dst sep = false ->
  Forall (no_file_at (w_fs w)) (nonempty_prefixes (segs dst ++ [d])) ->
  exists w1, create_download_destination (d +:+ "/" +:+ n) dst w =
      (inr ((dst +:+ String sep d) +:+ "/" +:+ n), w1) /\
    w_server w1 = w_server w /\
    (forall k, k ∉ nonempty_prefixes (segs dst ++ [d]) -> w_fs w1 !! k = w_fs w !! k) /\
    Forall (no_file_at (w_fs w1)) (nonempty_prefixes (segs dst ++ [d])).
Proof.
  intros Hd Hn Hdt Hde Hpre.
  destruct (plain_name_props n Hn) as (Hne & Hs & _). destruct (plain_name_props d Hd) as (Hdne & _).
  pose proof (proj1 (plain_rel_ok d Hd)) as Hd0.
  assert (str_rstrip (is_char sep) (d +:+ "/" +:+ n) = d +:+ "/" +:+ n) as Hr.
  { rewrite slash_append. replace (d +:+ String sep n) with ((d +:+ String sep "") +:+ n)
      by (by rewrite str_append_assoc).
    apply str_rstrip_app_keep; [done|]. apply str_rstrip_id, (str_contains_false_all sep n Hs). }
  unfold create_download_destination. rewrite Hr, slash_append, dirname_plain by done.
  rewrite (posix_join_one dst d Hdt Hde Hd0),
    (posix_join_one dst (d +:+ String sep n) Hdt Hde (startswith_app_slash d _ Hdne Hd0)).
  rewrite str_append_assoc, str_append_cons. cbn [py_bind py_get].
  assert (segs (dst +:+ String sep d) = segs dst ++ [d]) as Hsg by (by apply segs_app_plain).
  destruct (path_exists (w_fs w) (dst +:+ String sep d)).
  - eexists. split; [reflexivity|]. by split.
  - destruct (makedirs_ok (dst +:+ String sep d) (w_fs w)) as [Hmk _]; [by destruct dst|by rewrite Hsg|].
    rewrite py_run_bind. unfold on_fs. rewrite Hmk, Hsg. eexists. split; [reflexivity|]. split; [done|]. split.
    + intros k Hk. cbn [w_fs with_fs]. rewrite add_dirs_lookup by done. by rewrite decide_False.
    + cbn [w_fs with_fs]. apply Forall_forall. intros q Hq c'. rewrite add_dirs_lookup by done.
      by rewrite decide_True.
Qed.

(** The transfer of the file [d/n] to [dst/d/n] writes its bytes there
    and makes no more than the directories of [dst/d]. *)
Lemma download_entry d n c dst (w : world St) :
  rel_ok adir -> plain_name d = true -> plain_name n = true ->
  v !! (listed_dir d ++ [n]) = Some c -> on_server s w ->
  Forall (no_file_at (w_fs w)) (nonempty_prefixes (segs dst ++ [d])) ->
  w_fs w !! (segs dst ++ [d; n]) <> Some LDir ->
  exists w', download_file o (d +:+ "/" +:+ n) ((dst +:+ String sep d) +:+ "/" +:+ n) w = (inr tt, w') /\
    on_server s w' /\
    fs_step (nonempty_prefixes (segs dst ++ [d])) (segs dst ++ [d; n]) c (w_fs w) (w_fs w').
Proof.
  intros Hdir Hd Hn Hc Hw Hpre Hnd.
  assert (segs (dst +:+ String sep d) = segs dst ++ [d]) as Hsg by (by apply segs_app_plain).
  assert (rel_ok (d +:+ "/" +:+ n)) as Hrel.
  { split; [apply startswith_app_slash; [apply (plain_name_props d Hd)|apply (plain_rel_ok d Hd)]|].
    rewrite slash_append, no_dotdot_app_sep. by rewrite (proj2 (plain_rel_ok d Hd)), (proj2 (plain_rel_ok n Hn)). }
  assert (v !! segs (PathMapper.download_path netloc adir (d +:+ "/" +:+ n)) = Some c) as Hc'.
  { rewrite (segs_download_path netloc adir Hdir _ Hrel), slash_append, (segs_app_plain d n Hn), (segs_plain d Hd).
    by rewrite (listed_dir_plain d Hdir Hd), <- !app_assoc in Hc. }
  assert (segs dst ++ [d; n] ∉ nonempty_prefixes (segs dst ++ [d])) as Hout.
  { replace (segs dst ++ [d; n]) with ((segs dst ++ [d]) ++ [n]) by (by rewrite <- app_assoc).
    apply snoc_not_nonempty_prefix. }
  destruct (on_server_model w Hw) as [Hi Hv].
  destruct (download_file_writes o cl repo w v Hi Hv Haf Hrepo (d +:+ "/" +:+ n) (dst +:+ String sep d) n
              netloc adir c Hparse Hc' Hn) as (w2 & E2 & Hfs2 & Hs2); [by rewrite Hsg|by rewrite Hsg, <- app_assoc|].
  exists w2. split; [done|]. split; [unfold on_server; congruence|].
  rewrite Hsg, <- app_assoc in Hfs2. change ([d] ++ [n]) with [d; n] in Hfs2. rewrite Hfs2. split; [|split].
  - by rewrite lookup_insert_eq.
  - intros k Hk HkP. rewrite lookup_insert_ne by done. rewrite add_dirs_lookup by done.
    by rewrite decide_False by done.
  - apply Forall_forall. intros q Hq c'. rewrite lookup_insert_ne by (intros Heq; subst q; by apply Hout).
    rewrite add_dirs_lookup by done. by rewrite decide_True.
Qed.

(** The loop body on the file [d/n]: the destination [dst/d/n] is
    made, the transfer succeeds and nothing is recorded as failed. *)
Lemma submit_file d n c dst (w : world St) :
  rel_ok adir -> plain_name d = true -> plain_name n = true ->
  str_truthy dst = true -> endswith_char dst sep = false ->
  v !! (listed_dir d ++ [n]) = Some c -> on_server s w ->
  Forall (no_file_at (w_fs w)) (nonempty_prefixes (segs dst ++ [d])) ->
  w_fs w !! (segs dst ++ [d; n]) <> Some LDir ->
  exists w', (let* local := create_download_destination (d +:+ "/" +:+ n) dst in
              py_try (download_file o (d +:+ "/" +:+ n) local ;; py_ret [])
                (fun e => py_ret ([] ++ [(d +:+ "/" +:+ n, e)]))) w = (inr [], w') /\
    on_server s w' /\
    fs_step (nonempty_prefixes (segs dst ++ [d])) (segs dst ++ [d; n]) c (w_fs w) (w_fs w').
Proof.
  intros Hdir Hd Hn Hdt Hde Hc Hw Hpre Hnd.
  destruct (create_dest_file d n dst w Hd Hn Hdt Hde Hpre) as (w1 & E1 & Hs1 & Hoff1 & Hpre1).
  assert (segs dst ++ [d; n] ∉ nonempty_prefixes (segs dst ++ [d])) as Hout.
  { replace (segs dst ++ [d; n]) with ((segs dst ++ [d]) ++ [n]) by (by rewrite <- app_assoc).
    apply snoc_not_nonempty_prefix. }
  destruct (download_entry d n c dst w1 Hdir Hd Hn Hc) as (w2 & E2 & Hw2 & Hk2 & Hoff2 & Hpre2);
    [unfold on_server; congruence|done|by rewrite Hoff1|].
  rewrite py_run_bind, E1. unfold py_try. rewrite py_run_bind, E2. exists w2. do 2 (split; [done|]).
  split; [done|]. split; [|done]. intros k Hk HkP. rewrite Hoff2 by done. by apply Hoff1.
Qed.

(** A loop whose body writes one file per entry, each at its own key
    outside the directories [P], writes them all and touches nothing
    else outside [P]. *)
Lemma fold_files {A} (body : list A -> file_info -> PyM (world St) py_exn (list A))
    (P : list (list string)) (key : file_info -> list string) (content : file_info -> bytes) L :
  NoDup (key <$> L) -> (forall e, e ∈ L -> key e ∉ P) ->
  (forall e (w : world St), e ∈ L -> on_server s w -> Forall (no_file_at (w_fs w)) P ->
     w_fs w !! key e <> Some LDir ->
     exists w', body [] e w = (inr [], w') /\ on_server s w' /\ fs_step P (key e) (content e) (w_fs w) (w_fs w')) ->
  forall w, on_server s w -> Forall (no_file_at (w_fs w)) P -> (forall e, e ∈ L -> w_fs w !! key e <> Some LDir) ->
  exists w', py_fold body L [] w = (inr [], w') /\ on_server s w' /\ Forall (no_file_at (w_fs w')) P /\
    (forall e, e ∈ L -> w_fs w' !! key e = Some (LFile (content e))) /\
    (forall k, k ∉ P -> k ∉ key <$> L -> w_fs w' !! k = w_fs w !! k).
Proof.
  induction L as [|e L IH]; intros Hnd HP Hbody w Hw Hpre Hdir.
  - exists w. split; [done|]. do 2 (split; [done|]). split; [|done]. by intros ? ?%not_elem_of_nil.
  - cbn [fmap list_fmap] in Hnd. apply NoDup_cons in Hnd as [He Hnd].
    destruct (Hbody e w ltac:(left) Hw Hpre (Hdir e ltac:(left))) as (w1 & E1 & Hw1 & Hk1 & Hoff1 & Hpre1).
    destruct (IH Hnd (fun e' He' => HP e' ltac:(by right)) (fun e' w' He' => Hbody e' w' ltac:(by right)) w1 Hw1 Hpre1)
      as (w' & E' & Hw' & Hpre' & Hfiles & Hoff').
    { intros e' He'. rewrite Hoff1; [by apply Hdir; right| |by apply HP; right].
      intros Heq. apply He. rewrite <- Heq. by apply list_elem_of_fmap_2. }
    exists w'. cbn [py_fold]. rewrite py_run_bind, E1. split; [done|]. do 2 (split; [done|]). split.
    + intros e' [-> | He']%elem_of_cons; [|by apply Hfiles].
      rewrite Hoff'; [done|by apply HP; left|done].
    + intros k HkP Hk. cbn [fmap list_fmap] in Hk. apply not_elem_of_cons in Hk as [Hke Hk].
      rewrite Hoff' by done. by apply Hoff1.
Qed.

(** A folder of the view has a child. *)
Lemma is_folder_child k : is_folder v k = true -> k <> [] -> exists nb, nb ∈ folder_children v k.
Proof.
  intros Hf Hk. apply is_folder_spec in Hf as [->|(k' & c & Hk' & Hsp)]; [done|].
  apply bool_decide_eq_true in Hsp as [[r ->] Hne]. destruct r as [|n rest]; [by rewrite app_nil_r in Hne|].
  exists (n, negb (bool_decide (rest = []))). apply folder_children_elem. exists (k ++ n :: rest), c.
  split; [done|]. apply child_of_spec. by exists rest.
Qed.

(** The path of a file entry has a separator; a plain name and ["."] have none. *)
Lemma entry_path_ne d n : plain_name d = true -> d +:+ "/" +:+ n <> d /\ d +:+ "/" +:+ n <> ".".
Proof.
  intros Hd. destruct (plain_name_props d Hd) as (_ & Hs & _).
  assert (str_contains sep (d +:+ "/" +:+ n) = true) as Hsl.
  { rewrite slash_append, str_contains_append, str_contains_cons. unfold sep. by rewrite Ascii.eqb_refl, orb_true_r. }
  split; intros Heq; rewrite Heq in Hsl; [by rewrite Hs in Hsl|done].
Qed.

(** The listing of a folder [d] of files: one file entry per child,
    with distinct paths. *)
Lemma files_listing d :
  (forall n b, (n, b) ∈ folder_children v (listed_dir d) -> b = false) ->
  (forall e, e ∈ expected_listing v (listed_dir d) (Some d) <->
     exists n, (n, false) ∈ folder_children v (listed_dir d) /\ e = entry_of v (listed_dir d) (Some d) (n, false)) /\
  NoDup (fi_path <$> expected_listing v (listed_dir d) (Some d)).
Proof.
  intros Hfiles. unfold expected_listing. split.
  - intros e. rewrite py_sorted_perm, list_elem_of_fmap. split.
    + intros ([n b] & -> & Hn). pose proof (Hfiles n b Hn) as ->. by exists n.
    + intros (n & Hn & ->). by exists (n, false).
  - rewrite py_sorted_perm, <- list_fmap_compose. apply NoDup_fmap_2_strong; [|apply NoDup_elements].
    intros [n b] [n' b'] Hn Hn' Heq. pose proof (Hfiles n b Hn). pose proof (Hfiles n' b' Hn'). subst.
    unfold compose, entry_of in Heq. simpl in Heq.
    apply (inj (String.append d)) in Heq. rewrite !slash_append in Heq. by injection Heq as ->.
Qed.

(** The file entry of the child [n] of [d], seen by the loop. *)
Lemma file_entry_key d n :
  plain_name n = true ->
  fi_path (entry_of v (listed_dir d) (Some d) (n, false)) = d +:+ "/" +:+ n /\
  fi_is_dir (entry_of v (listed_dir d) (Some d) (n, false)) = false /\
  basename (fi_path (entry_of v (listed_dir d) (Some d) (n, false))) = n.
Proof.
  intros Hn. unfold entry_of. cbn [fst snd fi_path fi_is_dir]. do 2 (split; [done|]).
  rewrite slash_append. apply basename_app_sep, (plain_name_props n Hn).
Qed.

(** [list_artifacts(d)] of a folder [d] of the view, from any world
    with the server [s]. *)
Lemma list_folder_stable d (w : world St) :
  is_folder v (listed_dir d) = true -> on_server s w ->
  exists w', list_artifacts o (Some d) w = (inr (expected_listing v (listed_dir d) (Some d)), w') /\
    on_server s w' /\ w_fs w' = w_fs w.
Proof.
  intros Hf Hw. destruct (on_server_model w Hw) as [Hi Hv].
  destruct (list_artifacts_listing o cl repo w v Hi Hv Haf Hrepo (Some d) netloc adir Hparse Hf)
    as (w' & E & Hs & Hfs). exists w'. split; [done|]. split; [unfold on_server; congruence|done].
Qed.

(** Where the loop writes an entry of the folder [d] under [dst], and what. *)
Definition file_key (dst d : string) (e : file_info) : list string := segs dst ++ [d; basename (fi_path e)].
Definition file_content (d : string) (e : file_info) : bytes :=
  default [] (v !! (listed_dir d ++ [basename (fi_path e)])).

Lemma files_listing_keys d dst e :
  (forall n b, (n, b) ∈ folder_children v (listed_dir d) -> b = false) ->
  e ∈ expected_listing v (listed_dir d) (Some d) -> exists n c,
    e = entry_of v (listed_dir d) (Some d) (n, false) /\ plain_name n = true /\
    v !! (listed_dir d ++ [n]) = Some c /\ file_key dst d e = segs dst ++ [d; n] /\ file_content d e = c.
Proof.
  intros Hfiles He. apply (proj1 (files_listing d Hfiles)) in He as (n & Hn & ->).
  pose proof (folder_child_plain v (am_view_wf _ _ _ Hinv Hview) _ _ _ Hn) as Hpl.
  destruct (folder_child_file v _ _ Hn) as [c Hc]. exists n, c.
  destruct (file_entry_key d n Hpl) as (_ & _ & Hb). unfold file_key, file_content. by rewrite Hb, Hc.
Qed.

(** The entries of the listing of a folder of files are told apart by
    their paths and by the keys they are written at. *)
Lemma files_entry_inj d dst e e' :
  (forall n b, (n, b) ∈ folder_children v (listed_dir d) -> b = false) ->
  e ∈ expected_listing v (listed_dir d) (Some d) -> e' ∈ expected_listing v (listed_dir d) (Some d) ->
  fi_path e = fi_path e' \/ file_key dst d e = file_key dst d e' -> e = e'.
Proof.
  intros Hfiles He He' Heq.
  destruct (files_listing_keys d dst e Hfiles He) as (n & c & -> & Hn & _ & Hk & _).
  destruct (files_listing_keys d dst e' Hfiles He') as (n' & c' & -> & Hn' & _ & Hk' & _).
  destruct (file_entry_key d n Hn) as (Hp & _). destruct (file_entry_key d n' Hn') as (Hp' & _).
  rewrite Hp, Hp', Hk, Hk' in Heq. destruct Heq as [Heq|Heq].
  - apply (inj (String.append d)) in Heq. rewrite !slash_append in Heq. by injection Heq as ->.
  - apply app_inv_head in Heq. by injection Heq as ->.
Qed.

(** Every file of a folder of files has its entry in the listing. *)
Lemma files_listing_file d dst n c :
  (forall n b, (n, b) ∈ folder_children v (listed_dir d) -> b = false) ->
  v !! (listed_dir d ++ [n]) = Some c ->
  exists e, e ∈ expected_listing v (listed_dir d) (Some d) /\
    file_key dst d e = segs dst ++ [d; n] /\ file_content d e = c.
Proof.
  intros Hfiles Hc.
  assert ((n, false) ∈ folder_children v (listed_dir d)) as Hn.
  { apply folder_children_elem. exists (listed_dir d ++ [n]), c. split; [done|].
    apply child_of_spec. by exists []. }
  assert (entry_of v (listed_dir d) (Some d) (n, false) ∈ expected_listing v (listed_dir d) (Some d)) as He
    by (apply (proj1 (files_listing d Hfiles)); by exists n).
  exists (entry_of v (listed_dir d) (Some d) (n, false)). split; [done|].
  destruct (files_listing_keys d dst _ Hfiles He) as (n' & c' & Heq & _ & Hc' & Hk & Hct).
  apply (f_equal fi_path), (inj (String.append d)) in Heq. rewrite !slash_append in Heq.
  injection Heq as <-. rewrite Hk, Hct. split; [done|congruence].
Qed.

(** The listing of a top-level folder of files is not empty. *)
Lemma files_listing_nonempty d :
  rel_ok adir -> plain_name d = true -> is_folder v (listed_dir d) = true ->
  (forall n b, (n, b) ∈ folder_children v (listed_dir d) -> b = false) ->
  expected_listing v (listed_dir d) (Some d) <> [].
Proof.
  intros Hdir Hd Hf Hfiles.
  assert (listed_dir d <> []) as Hne.
  { rewrite (listed_dir_plain d Hdir Hd). intros Heq. by apply app_eq_nil in Heq as [_ [_ ?]%app_eq_nil]. }
  destruct (is_folder_child _ Hf Hne) as [[n b] Hn]. pose proof (Hfiles n b Hn); subst b.
  intros Heq. apply (not_elem_of_nil (entry_of v (listed_dir d) (Some d) (n, false))).
  rewrite <- Heq. apply (proj1 (files_listing d Hfiles)). by exists n.
Qed.

(** The walk's guard keeps every entry of such a listing. *)
Lemma files_listing_filter d :
  plain_name d = true -> (forall n b, (n, b) ∈ folder_children v (listed_dir d) -> b = false) ->
  List.filter (fun fi => negb (String.eqb (fi_path fi) ".") && negb (String.eqb (fi_path fi) d))
    (expected_listing v (listed_dir d) (Some d)) = expected_listing v (listed_dir d) (Some d).
Proof.
  intros Hd Hfiles. apply forallb_filter_id, forallb_forall. intros e He%list_elem_of_In.
  destruct (files_listing_keys d "" e Hfiles He) as (n & c & -> & Hpl & _).
  destruct (file_entry_key d n Hpl) as (-> & _).
  destruct (entry_path_ne d n Hd) as [H1 H2]. apply String.eqb_neq in H1, H2. by rewrite H1, H2.
Qed.

(** C11: MLflow's download_artifacts(d, dst) over the plugin, for a top-level folder d of the run
    whose children are all files and an existing destination directory dst, returns dst/d and writes
    every file of d to dst/d/<name> with its bytes, whatever recursion limit above zero; the server
    is unchanged. *)
Theorem download_artifacts_folder_of_files fuel d dst (w : world St) :
  rel_ok adir -> plain_name d = true -> 0 < fuel ->
  is_folder v (listed_dir d) = true ->
  (forall n b, (n, b) ∈ folder_children v (listed_dir d) -> b = false) ->
  on_server s w -> path_exists (w_fs w) dst = true -> path_isdir (w_fs w) dst = true ->
  endswith_char dst sep = false ->
  Forall (no_file_at (w_fs w)) (nonempty_prefixes (segs dst ++ [d])) ->
  (forall n c, v !! (listed_dir d ++ [n]) = Some c -> w_fs w !! (segs dst ++ [d; n]) <> Some LDir) ->
  exists w', download_artifacts fuel o d dst w = (inr (posix_join dst [d]), w') /\ on_server s w' /\
    forall n c, v !! (listed_dir d ++ [n]) = Some c -> w_fs w' !! (segs dst ++ [d; n]) = Some (LFile c).
Proof.
  intros Hdir Hd Hfuel Hf Hfiles Hw Hex Hisdir Hde Hpre Hnd.
  assert (str_truthy dst = true) as Hdt by (unfold path_exists in Hex; by apply andb_prop in Hex as [? _]).
  pose proof (fun e => files_listing_keys d dst e Hfiles) as Hkey.
  destruct (files_listing d Hfiles) as [_ HnodupL].
  rewrite (download_artifacts_unfold fuel d dst w Hex Hisdir), py_run_bind.
  destruct (list_folder_stable d w Hf Hw) as (w1 & -> & Hw1 & Hfs1). cbv beta.
  pose proof (files_listing_nonempty d Hdir Hd Hf Hfiles) as HLne.
  destruct (expected_listing v (listed_dir d) (Some d)) as [|e0 L'] eqn:EL; [done|].
  cbn [length Nat.ltb Nat.leb]. rewrite py_run_bind.
  destruct fuel as [|fuel]; [lia|]. cbn [iter_artifacts_recursive]. rewrite py_run_bind.
  destruct (list_folder_stable d w1 Hf Hw1) as (w2 & -> & Hw2 & Hfs2). cbv beta zeta.
  rewrite (files_listing_filter d Hd Hfiles), EL. cbv iota.
  match goal with |- context [py_fold ?bd (e0 :: L') [] w2] =>
    destruct (fold_files bd (nonempty_prefixes (segs dst ++ [d])) (file_key dst d) (file_content d) (e0 :: L'))
      with (w := w2) as (w3 & E3 & Hw3 & _ & Hall3 & _) end.
  - apply NoDup_fmap_2_strong; [|by apply NoDup_fmap_1 in HnodupL].
    intros x y Hx Hy Hxy. rewrite <- EL in Hx, Hy. by apply (files_entry_inj d dst x y Hfiles Hx Hy); right.
  - intros e He. destruct (Hkey e He) as (n & c & _ & _ & _ & -> & _).
    replace (segs dst ++ [d; n]) with ((segs dst ++ [d]) ++ [n]) by (by rewrite <- app_assoc).
    apply snoc_not_nonempty_prefix.
  - intros e w' He Hw' Hpre' Hnd'. destruct (Hkey e He) as (n & c & -> & Hpl & Hc & Hk & Hct).
    destruct (file_entry_key d n Hpl) as (Hp & Hdir' & _). rewrite Hk, Hct in *. rewrite Hdir'. cbv iota beta.
    rewrite Hp. by apply submit_file.
  - done.
  - by rewrite Hfs2, Hfs1.
  - intros e He. rewrite Hfs2, Hfs1. destruct (Hkey e He) as (n & c & _ & _ & Hc & -> & _).
    by apply (Hnd n c).
  - rewrite E3. exists w3. split; [done|]. split; [done|]. intros n c Hc.
    destruct (files_listing_file d dst n c Hfiles Hc) as (e & He & Hk & Hct). rewrite EL in He.
    rewrite <- Hk, <- Hct. by apply Hall3.
Qed.

(** ** Downloading a whole run *)

(** [_create_download_destination("/" + n, dst)]: the directory part is
    the root, which exists, and the local path is ["/" + n], outside
    [dst]. *)
Lemma create_dest_abs n dst (w : world St) :
  plain_name n = true -> create_download_destination (String sep n) dst w = (inr (String sep n), w).
Proof.
  intros Hn. destruct (plain_name_props n Hn) as (Hne & Hs & _).
  assert (str_rstrip (is_char sep) (String sep n) = String sep n) as Hr.
  { change (String sep n) with (("" +:+ String sep "") +:+ n).
    apply str_rstrip_app_keep; [done|]. apply str_rstrip_id, (str_contains_false_all sep n Hs). }
  unfold create_download_destination. rewrite Hr, (dirname_root n Hs).
  unfold posix_join. cbn [fold_left]. rewrite !join_step_abs by done. reflexivity.
Qed.

(** The loop body on an entry ["/" + n] of the listing of the run's
    root: the host retrieves the absolute path ["/" + n], which the
    server does not hold, and records the failure; nothing is written. *)
Lemma submit_root_file n dst failed (w : world St) :
  plain_name n = true -> v !! [n] = None -> on_server s w ->
  exists e w', (let* local := create_download_destination (String sep n) dst in
                py_try (download_file o (String sep n) local ;; py_ret failed)
                  (fun e => py_ret (failed ++ [(String sep n, e)]))) w =
    (inr (failed ++ [(String sep n, e)]), w') /\ on_server s w' /\ w_fs w' = w_fs w.
Proof.
  intros Hn Hv Hw. destruct (on_server_model w Hw) as [Hi Hvw].
  assert (v !! segs (PathMapper.download_path netloc adir (String sep n)) = None) as Hc.
  { unfold PathMapper.download_path, posix_join. cbn [fold_left]. rewrite join_step_abs by done.
    by rewrite segs_slash_lead, (segs_plain n Hn). }
  destruct (download_file_fails o cl repo w v Hi Hvw Haf Hrepo (String sep n) (String sep n) netloc adir Hparse Hc)
    as (st & w' & E & Hs' & Hfs').
  rewrite py_run_bind, (create_dest_abs n dst w Hn). unfold py_try. rewrite py_run_bind, E.
  exists (AfApiError st), w'. split; [done|]. split; [unfold on_server in *; congruence|done].
Qed.

(** The paths of the listing of the run's root when it holds only
    files: ["/" + n] for each file [n], with the leading slash. *)
Lemma root_listing_paths p :
  (forall n b, (n, b) ∈ folder_children v (listed_dir "") -> b = false) ->
  p ∈ fi_path <$> expected_listing v (listed_dir "") (Some "") <->
  exists n, (n, false) ∈ folder_children v (listed_dir "") /\ p = String sep n.
Proof.
  intros Hfiles. destruct (files_listing "" Hfiles) as [HL _]. rewrite list_elem_of_fmap. split.
  - intros (e & -> & (n & Hn & ->)%HL). exists n. split; [done|].
    destruct (file_entry_key "" n (folder_child_plain v (am_view_wf _ _ _ Hinv Hview) _ _ _ Hn)) as (-> & _). done.
  - intros (n & Hn & ->). exists (entry_of v (listed_dir "") (Some "") (n, false)). split; [|apply HL; by exists n].
    destruct (file_entry_key "" n (folder_child_plain v (am_view_wf _ _ _ Hinv Hview) _ _ _ Hn)) as (-> & _). done.
Qed.

(** C16: download_artifacts('') of a run whose root holds only files fails with MlflowException
    naming exactly the paths '/' + n of those files, for every recursion limit, and writes nothing:
    list_artifacts('') reports them with a leading slash and the host retrieves those absolute
    paths, which the repository does not hold at its root. *)
Theorem download_artifacts_whole_run_fails fuel dst (w : world St) :
  0 < fuel -> is_folder v (listed_dir "") = true -> folder_children v (listed_dir "") <> [] ->
  (forall n b, (n, b) ∈ folder_children v (listed_dir "") -> b = false) ->
  (forall n, (n, false) ∈ folder_children v (listed_dir "") -> v !! [n] = None) ->
  on_server s w -> path_exists (w_fs w) dst = true -> path_isdir (w_fs w) dst = true ->
  exists failed, fst (download_artifacts fuel o "" dst w) = inl (MlflowException (download_failures_msg o failed)) /\
    (forall p, p ∈ failed.*1 <-> exists n, (n, false) ∈ folder_children v (listed_dir "") /\ p = String sep n) /\
    w_fs (snd (download_artifacts fuel o "" dst w)) = w_fs w.
Proof.
  intros Hfuel Hf Hne Hfiles Hroot Hw Hex Hdir.
  destruct (files_listing "" Hfiles) as [HL _].
  pose proof (fun p => root_listing_paths p Hfiles) as Hpaths.
  assert (forall e, e ∈ expected_listing v (listed_dir "") (Some "") -> exists n,
    (n, false) ∈ folder_children v (listed_dir "") /\ plain_name n = true /\
    fi_path e = String sep n /\ fi_is_dir e = false) as Hent.
  { intros e (n & Hn & ->)%HL. pose proof (folder_child_plain v (am_view_wf _ _ _ Hinv Hview) _ _ _ Hn) as Hpl.
    destruct (file_entry_key "" n Hpl) as (Hp & Hd & _). by exists n. }
  rewrite (download_artifacts_unfold fuel "" dst w Hex Hdir), py_run_bind.
  destruct (list_folder_stable "" w Hf Hw) as (w1 & -> & Hw1 & Hfs1). cbv beta.
  destruct (folder_children v (listed_dir "")) as [|[n0 b0] cs] eqn:Ec; [done|].
  assert (entry_of v (listed_dir "") (Some "") (n0, false) ∈ expected_listing v (listed_dir "") (Some "")) as He0.
  { apply HL. exists n0. split; [|done]. rewrite (Hfiles n0 b0 ltac:(left)). left. }
  destruct (expected_listing v (listed_dir "") (Some "")) as [|x l] eqn:EL; [by apply not_elem_of_nil in He0|].
  cbn [length Nat.ltb Nat.leb]. rewrite py_run_bind. destruct fuel as [|fuel]; [lia|].
  cbn [iter_artifacts_recursive]. rewrite py_run_bind.
  destruct (list_folder_stable "" w1 Hf Hw1) as (w2 & -> & Hw2 & Hfs2). rewrite EL. cbv beta zeta.
  rewrite forallb_filter_id.
  2: { apply forallb_forall. intros e He%list_elem_of_In. destruct (Hent e He) as (n & _ & _ & -> & _). done. }
  cbv iota.
  match goal with |- context [py_fold ?bd (x :: l) [] w2] =>
    destruct (py_fold_ok (fun vis (failed : list (string * py_exn)) w' => on_server s w' /\ w_fs w' = w_fs w /\
                failed.*1 = fi_path <$> vis) bd (x :: l)) with (vis := @nil file_info) (acc := @nil (string * py_exn)) (s := w2)
      as (failed & w3 & E3 & Hw3 & Hfs3 & Hf3) end.
  - intros vis e failed w' He (Hw' & Hfs' & Hf').
    destruct (Hent e He) as (n & Hn & Hpl & Hp & Hd). rewrite Hd, Hp. cbv iota.
    destruct (submit_root_file n dst failed w' Hpl (Hroot n Hn) Hw') as (err & w'' & E & Hw'' & Hfs'').
    exists (failed ++ [(String sep n, err)]), w''. split; [done|]. split; [done|]. split; [congruence|].
    rewrite fmap_app, Hf', fmap_app. cbn. by rewrite Hp.
  - split; [done|]. split; [congruence|done].
  - rewrite E3. destruct failed as [|f0 fs0]; [discriminate Hf3|]. cbn [py_raise].
    exists (f0 :: fs0). split; [done|]. split; [|done]. intros p. rewrite Hf3, app_nil_l. apply Hpaths.
Qed.

End Walk.

End Download.

Module DownloadExamples.
Import MemServer Lister Download.

Definition client : rtpy_client := {| af_url := "https://af.example/artifactory"; af_api_key := "key" |}.
Definition obj : repo_obj := mk_obj "artifactory://host/exp" (Some "repo") None None None (Some client).

Definition mk_srv (fs : list (string * bytes)) : server :=
  foldl (fun s '(p, c) => deploy_or_keep s "repo" p c) (list_to_map [("repo", ∅)]) fs.

(** A local tree with the directory [/dst]. *)
Definition wd (s : server) : world server :=
  {| w_server := s; w_fs := <[["dst"] := LDir]> ∅; w_env := ∅; w_stdout := []; w_calls := [] |}.

Definition nested : server :=
  mk_srv [("host/exp/model.pkl", [Byte.x41]); ("host/exp/weights/a.bin", [Byte.x41; Byte.x42]);
          ("host/exp/weights/sub/b.bin", [Byte.x43])].
Definition flat : server :=
  mk_srv [("host/exp/data/x.csv", [Byte.x31]); ("host/exp/data/y.csv", [Byte.x32])].
Definition cyc : server :=
  mk_srv [("host/exp/a/b/f1", [Byte.x31]); ("host/exp/b/a/f2", [Byte.x32])].
Definition selfnamed : server :=
  mk_srv [("host/exp/a/a/f", [Byte.x31])].

Lemma mk_srv_inv l : server_inv (mk_srv l).
Proof.
  unfold mk_srv. generalize (empty_repos_inv ["repo"]). cbn [fmap list_fmap].
  generalize (list_to_map [("repo", ∅)] : server). induction l as [|[p c] l IH]; intros s0 Hs; [done|].
  apply IH, deploy_or_keep_inv, Hs.
Qed.

Definition v_of (s : server) : files := default ∅ (view s "repo").

Lemma flat_inv : server_inv flat.
Proof. apply mk_srv_inv. Qed.

Lemma cyc_inv : server_inv cyc.
Proof. apply mk_srv_inv. Qed.

(** download_artifacts('weights') of a folder holding the sub-folder weights/sub fails with the
    client's 404: the host asks for the top-level folder sub, which does not exist, and nothing is
    written locally. *)
Example download_nested_folder_fails :
  fst (download_artifacts 1000 obj "weights" "/dst" (wd nested)) = inl (AfApiError 404) /\
  last (w_calls (snd (download_artifacts 1000 obj "weights" "/dst" (wd nested)))) =
    Some (CallStorageInfo "repo" "/host/exp/sub") /\
  w_fs (snd (download_artifacts 1000 obj "weights" "/dst" (wd nested))) = w_fs (wd nested).
Proof. split; [vm_compute; reflexivity|]. split; [vm_compute; reflexivity|]. reflexivity. Qed.

(** A folder of two files is downloaded into [/dst/data], file by file. *)
Example download_flat_folder :
  fst (download_artifacts 1000 obj "data" "/dst" (wd flat)) = inr "/dst/data" /\
  w_fs (snd (download_artifacts 1000 obj "data" "/dst" (wd flat))) !! ["dst"; "data"; "x.csv"] = Some (LFile [Byte.x31]) /\
  w_fs (snd (download_artifacts 1000 obj "data" "/dst" (wd flat))) !! ["dst"; "data"; "y.csv"] = Some (LFile [Byte.x32]).
Proof. vm_compute. auto. Qed.

(** download_artifacts('a') of a folder a whose only child is a folder named a reports success
    with dst/a but downloads nothing: the host's guard drops the entry a as the folder itself, and
    the file a/a/f is lost. *)
Example download_same_name_subfolder_lost :
  fst (download_artifacts 1000 obj "a" "/dst" (wd selfnamed)) = inr "/dst/a" /\
  map_to_list (w_fs (snd (download_artifacts 1000 obj "a" "/dst" (wd selfnamed)))) =
    [(["dst"], LDir); (["dst"; "a"], LDir)].
Proof. vm_compute. auto. Qed.

(** download_artifacts('') of a run holding a top-level file fails with MlflowException:
    list_artifacts('') reports the file as '/model.pkl' and the host retrieves the absolute path
    /model.pkl, outside the run. *)
Example download_whole_run_top_file :
  fst (download_artifacts 1000 obj "" "/dst" (wd (mk_srv [("host/exp/model.pkl", [Byte.x41])]))) =
    inl (MlflowException "The following failures occurred while downloading one or more artifacts from artifactory://host/exp: /model.pkl") /\
  last (w_calls (snd (download_artifacts 1000 obj "" "/dst" (wd (mk_srv [("host/exp/model.pkl", [Byte.x41])]))))) =
    Some (CallRetrieve "repo" "/model.pkl").
Proof. vm_compute. auto. Qed.

Lemma download_artifacts_terminates_witness :
  on_server flat (snd (download_artifacts 1 obj "data" "/dst" (wd flat))) /\
  fst (download_artifacts 1 obj "data" "/dst" (wd flat)) <> inl RecursionError.
Proof.
  refine (@download_artifacts_terminates _ _ mem_model obj client "repo" flat (v_of flat) flat_inv eq_refl eq_refl eq_refl
    "host" "exp" eq_refl (shallow_rank "host" "exp") 1 "data" "/dst" (wd flat) _ eq_refl _).
  - apply (@shallow_rank_decreases _ _ mem_model "repo" flat (v_of flat) flat_inv eq_refl "host" "exp");
      [split; reflexivity|].
    apply map_Forall_to_list. vm_compute. repeat constructor.
  - vm_compute. lia.
Defined.

Lemma download_artifacts_diverges_witness :
  fst (download_artifacts 1000 obj "a" "/dst" (wd cyc)) = inl RecursionError.
Proof.
  refine (@download_artifacts_diverges _ _ mem_model obj client "repo" cyc (v_of cyc) cyc_inv eq_refl eq_refl eq_refl
    "host" "exp" eq_refl "a" "b" "/dst" (wd cyc) _ _ _ _ _ _ _ eq_refl _ _ 1000);
    try discriminate; vm_compute; reflexivity.
Defined.

Lemma download_artifacts_folder_of_files_witness :
  exists w', download_artifacts 1000 obj "data" "/dst" (wd flat) = (inr (posix_join "/dst" ["data"]), w') /\
    on_server flat w' /\
    forall n c, v_of flat !! (listed_dir "host" "exp" "data" ++ [n]) = Some c ->
      w_fs w' !! (segs "/dst" ++ ["data"; n]) = Some (LFile c).
Proof.
  refine (@download_artifacts_folder_of_files _ _ mem_model obj client "repo" flat (v_of flat) flat_inv
    eq_refl eq_refl eq_refl "host" "exp" eq_refl 1000 "data" "/dst" (wd flat) _ _ _ _ _ eq_refl _ _ _ _ _).
  - split; reflexivity.
  - reflexivity.
  - lia.
  - vm_compute. reflexivity.
  - intros n b Hn.
    assert (Forall (fun nb => nb.2 = false) (folder_children (v_of flat) (listed_dir "host" "exp" "data"))) as HF
      by (apply (bool_decide_unpack _); vm_compute; reflexivity).
    rewrite Forall_forall in HF. exact (HF (n, b) Hn).
  - vm_compute. reflexivity.
  - vm_compute. reflexivity.
  - reflexivity.
  - replace (nonempty_prefixes (segs "/dst" ++ ["data"])) with [["dst"]; ["dst"; "data"]]
      by (vm_compute; reflexivity).
    repeat constructor; intros c; vm_compute; congruence.
  - intros n c _. replace (segs "/dst") with ["dst"] by (vm_compute; reflexivity).
    cbn [w_fs wd]. rewrite lookup_insert_ne by done. by rewrite lookup_empty.
Defined.

(** [w/sub/b.bin] only: the folder [w] holds the folder [sub], and the
    run has no top-level [sub]. *)
Definition nested1 : server := mk_srv [("host/exp/w/sub/b.bin", [Byte.x43])].
(** Files at the top of the run only. *)
Definition toponly : server := mk_srv [("host/exp/model.pkl", [Byte.x41]); ("host/exp/conf.yaml", [Byte.x42])].

Lemma download_artifacts_nested_folder_fails_witness :
  exists st, fst (download_artifacts 1000 obj "w" "/dst" (wd nested1)) = inl (AfApiError st) /\
    w_fs (snd (download_artifacts 1000 obj "w" "/dst" (wd nested1))) = w_fs (wd nested1).
Proof.
  refine (@download_artifacts_nested_folder_fails _ _ mem_model obj client "repo" nested1 (v_of nested1) (mk_srv_inv _)
    eq_refl eq_refl eq_refl "host" "exp" eq_refl 1000 "w" "sub" "/dst" (wd nested1) _ _ _ _ _ _ _ eq_refl _ _);
    try discriminate; try lia; vm_compute; reflexivity.
Defined.

Lemma download_artifacts_namesake_folder_lost_witness :
  (exists k c, v_of selfnamed !! (listed_dir "host" "exp" "a" ++ "a" :: k) = Some c) /\
  exists w', download_artifacts 1000 obj "a" "/dst" (wd selfnamed) = (inr (posix_join "/dst" ["a"]), w') /\
    on_server selfnamed w' /\
    forall k c, w_fs w' !! k = Some (LFile c) -> w_fs (wd selfnamed) !! k = Some (LFile c).
Proof.
  refine (@download_artifacts_namesake_folder_lost _ _ mem_model obj client "repo" selfnamed (v_of selfnamed) (mk_srv_inv _)
    eq_refl eq_refl eq_refl "host" "exp" eq_refl 1000 "a" "/dst" (wd selfnamed) _ _ _ _ eq_refl _ _ _ _).
  - lia.
  - reflexivity.
  - vm_compute. reflexivity.
  - vm_compute. reflexivity.
  - vm_compute. reflexivity.
  - vm_compute. reflexivity.
  - reflexivity.
  - replace (nonempty_prefixes (segs "/dst" ++ ["a"])) with [["dst"]; ["dst"; "a"]] by (vm_compute; reflexivity).
    repeat constructor; intros c; vm_compute; congruence.
Defined.

Lemma download_artifacts_whole_run_fails_witness :
  exists failed, fst (download_artifacts 1000 obj "" "/dst" (wd toponly)) =
      inl (MlflowException (download_failures_msg obj failed)) /\
    (forall p, p ∈ failed.*1 <-> exists n, (n, false) ∈ folder_children (v_of toponly) (listed_dir "host" "exp" "") /\
       p = String sep n) /\
    w_fs (snd (download_artifacts 1000 obj "" "/dst" (wd toponly))) = w_fs (wd toponly).
Proof.
  refine (@download_artifacts_whole_run_fails _ _ mem_model obj client "repo" toponly (v_of toponly) (mk_srv_inv _)
    eq_refl eq_refl eq_refl "host" "exp" eq_refl 1000 "/dst" (wd toponly) _ _ _ _ _ eq_refl _ _).
  - lia.
  - vm_compute. reflexivity.
  - vm_compute. discriminate.
  - intros n b Hn.
    assert (Forall (fun nb => nb.2 = false) (folder_children (v_of toponly) (listed_dir "host" "exp" ""))) as HF
      by (apply (bool_decide_unpack _); vm_compute; reflexivity).
    rewrite Forall_forall in HF. exact (HF (n, b) Hn).
  - intros n Hn.
    assert (Forall (fun nb => v_of toponly !! [nb.1] = None) (folder_children (v_of toponly) (listed_dir "host" "exp" "")))
      as HF by (apply (bool_decide_unpack _); vm_compute; reflexivity).
    rewrite Forall_forall in HF. exact (HF (n, false) Hn).
  - vm_compute. reflexivity.
  - vm_compute. reflexivity.
Defined.

End DownloadExamples.
