(* ===== verification/ThreadPool.v ===== *)
(** * The transfers of a download run on a thread pool

    [ArtifactRepository.download_artifacts] does not call
    [self._download_file] itself: its local function [_download_file]
    makes the destination ([_create_download_destination]) on the main
    thread and then [self.thread_pool.submit(self._download_file, ...)]s
    the transfer; after the walk the host waits on
    [as_completed(futures)] and records the path of every future whose
    [result()] raises, in completion order, in [failed_downloads].

    The pool is modelled by its pending transfers, the outcomes of the
    finished ones in completion order, and a scheduler: a list of
    choices read at each point where the workers may run, after every
    submission and while the host waits.  [Some i] runs the [i]-th
    pending transfer, [None] (or an index out of range) hands control
    back to the main thread; when the choices are exhausted the workers
    keep up and run every pending transfer at once.  A transfer runs as
    one step: between two steps of the main thread it retrieves one
    file and writes it locally, and the main thread only reads the
    server and makes directories in between.  When the walk raises, the
    transfers still pending are not run here; MLflow's pool runs them
    on after the exception has reached the caller.

    - [download_artifacts_pool] is the host method with the pool;
      [download_artifacts] of [Download] is the case of the empty
      schedule, where every transfer runs when it is submitted.
    - The theorems show that the empty schedule gives exactly the
      sequential model, that a folder of files is downloaded whole
      under every schedule, and that the order of the paths in the
      failure message is the completion order. *)

From Stdlib Require Import Ascii.
From S2P Require Import Prelude PyStr PosixPath PySort LocalFS ArtifactoryUri Artifactory ArtifactoryLaws Repository PathMapper Lister Transfer Download.

Module ThreadPool.
Import Lister Transfer PathMapper Download.

(** The futures: the transfers not yet run, each a submitted
    [self._download_file(remote_file_path=src, local_path=local)] as the
    pair [(src, local)], and [futures[f]] with the outcome of
    [f.result()] ([None] when it returns, [Some e] when it raises [e])
    for the finished ones, in completion order. *)
Record pool := mk_pool {
  pool_pending : list (string * string);
  pool_done : list (string * option py_exn);
  pool_sched : list (option nat)
}.

(** A worker takes the [i]-th pending transfer. *)
Definition take_job (i : nat) (l : list (string * string)) : option (string * string * list (string * string)) :=
  (fun j => (j, delete i l)) <$> l !! i.

(** The entries of [failed_downloads]: the paths whose future raised. *)
Definition failures (finished : list (string * option py_exn)) : list (string * py_exn) :=
  omap (fun '(p, r) => pair p <$> r) finished.

Section Pool.
Context {St : Type} `{!ArtifactoryApi St} (o : repo_obj).

(** A worker runs the transfer; the future keeps its exception. *)
Definition run_job (j : string * string) : PyM (world St) py_exn (option py_exn) :=
  py_try (download_file o j.1 j.2 ;; py_ret None) (fun e => py_ret (Some e)).

(** The workers run the pending transfers in submission order. *)
Fixpoint run_all (pending : list (string * string)) (finished : list (string * option py_exn))
    : PyM (world St) py_exn (list (string * option py_exn)) :=
  match pending with
  | [] => py_ret finished
  | j :: rest => let* r := run_job j in run_all rest (finished ++ [(j.1, r)])
  end.

(** A point where the workers may run, after a submission. *)
Fixpoint run_ready (sched : list (option nat)) (pending : list (string * string)) (finished : list (string * option py_exn))
    : PyM (world St) py_exn pool :=
  match sched with
  | [] => let* finished' := run_all pending finished in py_ret (mk_pool [] finished' [])
  | None :: sched' => py_ret (mk_pool pending finished sched')
  | Some i :: sched' =>
      match take_job i pending with
      | Some (j, rest) => let* r := run_job j in run_ready sched' rest (finished ++ [(j.1, r)])
      | None => py_ret (mk_pool pending finished sched')
      end
  end.

(** [for f in as_completed(futures)]: the host waits until every
    pending transfer has run, in the order the scheduler picks. *)
Fixpoint drain (sched : list (option nat)) (pending : list (string * string)) (finished : list (string * option py_exn))
    : PyM (world St) py_exn (list (string * option py_exn)) :=
  match sched with
  | [] => run_all pending finished
  | c :: sched' =>
      match take_job (default 0 c) pending with
      | Some (j, rest) => let* r := run_job j in drain sched' rest (finished ++ [(j.1, r)])
      | None => drain sched' pending finished
      end
  end.

(** [download_artifacts(artifact_path, dst_path)] with the transfers on
    the pool driven by [sched]. *)
Definition download_artifacts_pool (fuel : nat) (sched : list (option nat)) (artifact_path dst_path : string)
    : PyM (world St) py_exn string :=
  let submit (pl : pool) (src : string) :=
    let* local := create_download_destination src dst_path in
    run_ready (pool_sched pl) (pool_pending pl ++ [(src, local)]) (pool_done pl) in
  let* w := py_get in
  if negb (path_exists (w_fs w) dst_path) then
    py_raise (MlflowException ("The destination path for downloaded artifacts does not exist! Destination path: " +:+ dst_path))
  else if negb (path_isdir (w_fs w) dst_path) then
    py_raise (MlflowException ("The destination path for downloaded artifacts must be a directory! Destination path: " +:+ dst_path))
  else
    let* listing := list_artifacts o (Some artifact_path) in
    let* pl :=
      if 0 <? length listing then
        iter_artifacts_recursive fuel o artifact_path
          (fun pl fi =>
             if fi_is_dir fi then on_fs (makedirs (posix_join dst_path [fi_path fi])) ;; py_ret pl
             else submit pl (fi_path fi)) (mk_pool [] [] sched)
      else submit (mk_pool [] [] sched) artifact_path in
    let* finished := drain (pool_sched pl) (pool_pending pl) (pool_done pl) in
    match failures finished with
    | [] => py_ret (posix_join dst_path [artifact_path])
    | failed => py_raise (MlflowException (download_failures_msg o failed))
    end.

End Pool.

(** ** Waiting on the futures *)

Lemma take_job_perm i l j rest : take_job i l = Some (j, rest) -> l ≡ₚ j :: rest.
Proof. unfold take_job. destruct (l !! i) eqn:E; [|done]. intros [= <- <-]. by apply delete_Permutation. Qed.


Section Wait.
Context {St : Type} `{!ArtifactoryApi St} (o : repo_obj).

(** A transfer on the pool always completes: its exception is kept in
    the future. *)
Lemma run_job_total (j : string * string) (w : world St) : exists r w', run_job o j w = (inr r, w').
Proof.
  unfold run_job, py_try. rewrite py_run_bind.
  destruct (download_file o j.1 j.2 w) as [[e|[]] w']; eauto.
Qed.

Lemma run_all_runs_all pending finished (w : world St) :
  exists rs w', run_all o pending finished w = (inr (finished ++ rs), w') /\ rs.*1 = pending.*1.
Proof.
  revert finished w. induction pending as [|j rest IH]; intros finished w.
  - exists [], w. by rewrite app_nil_r.
  - destruct (run_job_total j w) as (r & w1 & E1). destruct (IH (finished ++ [(j.1, r)]) w1) as (rs & w' & E & Hrs).
    exists ((j.1, r) :: rs), w'. cbn [run_all]. rewrite py_run_bind, E1, E, <- app_assoc. cbn. by rewrite Hrs.
Qed.

(** Waiting on as_completed(futures) always finishes: whatever the scheduler picks, every
    pending transfer runs exactly once and its outcome is appended to the finished ones, in an order
    that is a permutation of the submission order. *)
Theorem drain_runs_all sched pending finished (w : world St) :
  exists rs w', drain o sched pending finished w = (inr (finished ++ rs), w') /\ rs.*1 ≡ₚ pending.*1.
Proof.
  revert pending finished w. induction sched as [|c sched IH]; intros pending finished w; cbn [drain].
  - destruct (run_all_runs_all pending finished w) as (rs & w' & E & Hrs). exists rs, w'. by rewrite E, Hrs.
  - destruct (take_job (default 0 c) pending) as [[j rest]|] eqn:Ej; [|apply IH].
    destruct (run_job_total j w) as (r & w1 & E1). destruct (IH rest (finished ++ [(j.1, r)]) w1) as (rs & w' & E & Hrs).
    exists ((j.1, r) :: rs), w'. rewrite py_run_bind, E1, E, <- app_assoc. split; [done|].
    rewrite (take_job_perm _ _ _ _ Ej). cbn. by rewrite Hrs.
Qed.

End Wait.

(** ** The sequential model is the eager schedule *)

Lemma failures_snoc finished p r :
  failures (finished ++ [(p, r)]) = failures finished ++ (match r with Some e => [(p, e)] | None => [] end).
Proof. unfold failures. rewrite omap_app. by destruct r. Qed.

Lemma py_rel_raise {S E A B} (R : A -> B -> Prop) (e : E) : py_rel (S:=S) R (py_raise e) (py_raise e).
Proof. intros s. by split. Qed.

Section Eager.
Context {St : Type} `{!ArtifactoryApi St} (o : repo_obj).

(** Two walks whose loop bodies are related run alike. *)
Lemma iter_rel {A1 A2} (R : A1 -> A2 -> Prop)
    (b1 : A1 -> file_info -> PyM (world St) py_exn A1) (b2 : A2 -> file_info -> PyM (world St) py_exn A2) :
  (forall a1 a2 fi, R a1 a2 -> py_rel R (b1 a1 fi) (b2 a2 fi)) ->
  forall fuel path a1 a2, R a1 a2 ->
    py_rel R (iter_artifacts_recursive fuel o path b1 a1) (iter_artifacts_recursive fuel o path b2 a2).
Proof.
  intros Hb fuel. induction fuel as [|fuel IH]; intros path a1 a2 Ha; [apply py_rel_raise|].
  cbn [iter_artifacts_recursive]. apply (py_rel_bind eq); [apply py_rel_refl|]. intros l ? <-.
  cbv zeta. destruct (List.filter _ l) as [|x xs]; [by apply Hb|].
  apply py_rel_fold; [|done]. intros b1' b2' fi _ Hr. destruct (fi_is_dir fi); [by apply IH|by apply Hb].
Qed.

(** The loop variable [failed] of the sequential model and the pool of
    the eager schedule. *)
Definition eager_rel (failed : list (string * py_exn)) (pl : pool) : Prop :=
  pl = mk_pool [] (pool_done pl) [] /\ failed = failures (pool_done pl).

Lemma submit_eager dst failed pl src :
  eager_rel failed pl ->
  py_rel eager_rel
    (let* local := create_download_destination src dst in
     py_try (download_file o src local ;; py_ret failed) (fun e => py_ret (failed ++ [(src, e)])))
    (let* local := create_download_destination src dst in
     run_ready o (pool_sched pl) (pool_pending pl ++ [(src, local)]) (pool_done pl)).
Proof.
  intros [Hpl ->]. rewrite Hpl. cbn [pool_sched pool_pending pool_done app].
  apply (py_rel_bind eq); [apply py_rel_refl|]. intros local ? <- w.
  cbn [run_ready run_all]. unfold run_job, py_try, py_bind, py_ret. cbv beta. cbn [fst snd].
  destruct (download_file o src local w) as [[e|[]] w']; unfold res_rel, eager_rel; cbn -[failures];
    rewrite ?failures_snoc; auto using app_nil_r.
Qed.

(** The sequential model of download_artifacts is the thread pool whose workers run every
    transfer as soon as it is submitted: with the empty schedule the pool gives the same result and
    the same world. *)
Theorem download_artifacts_pool_eager fuel artifact_path dst (w : world St) :
  download_artifacts_pool o fuel [] artifact_path dst w = download_artifacts fuel o artifact_path dst w.
Proof.
  symmetry. apply py_rel_eq. unfold download_artifacts, download_artifacts_pool. cbv zeta.
  apply (py_rel_bind eq); [apply py_rel_refl|]. intros w0 ? <-.
  destruct (negb _); [apply py_rel_raise|]. destruct (negb _); [apply py_rel_raise|].
  apply (py_rel_bind eq); [apply py_rel_refl|]. intros listing ? <-.
  apply (py_rel_bind eager_rel).
  - destruct (0 <? length listing); [|by apply submit_eager].
    apply iter_rel; [|done]. intros a1 a2 fi Hr. destruct (fi_is_dir fi); [|by apply submit_eager].
    apply (py_rel_bind eq); [apply py_rel_refl|]. intros ? ? _. by apply py_rel_ret.
  - intros failed pl [Hpl ->]. rewrite Hpl. cbn [pool_sched pool_pending pool_done drain run_all].
    rewrite py_bind_ret_l. destruct (failures (pool_done pl)); [by apply py_rel_ret|apply py_rel_raise].
Qed.

End Eager.

(** ** A folder of files under every schedule *)

Lemma failures_none finished : (forall p r, (p, r) ∈ finished -> r = None) -> failures finished = [].
Proof.
  induction finished as [|[p r] f IH]; intros Hn; [done|].
  rewrite (Hn p r ltac:(left)). apply IH. intros p' r' Hin. apply (Hn p' r'). by right.
Qed.

Section PoolWalk.
Context {St : Type} `{ArtifactoryModel St}.
Context (o : repo_obj) (cl : rtpy_client) (repo : string) (s : St) (v : files).
Context (Hinv : am_inv s) (Hview : am_view s repo = Some v).
Context (Haf : af o = Some cl) (Hrepo : artifactory_repo o = Some repo).
Context (netloc adir : string) (Hparse : UriResolver.parse_artifactory_uri (artifact_uri o) = inr (netloc, adir)).
Context (d dst : string) (Hdir : rel_ok adir) (Hd : plain_name d = true).
Context (Hfiles : forall n b, (n, b) ∈ folder_children v (listed_dir netloc adir d) -> b = false).

Local Notation L := (expected_listing v (listed_dir netloc adir d) (Some d)).
Local Notation P := (nonempty_prefixes (segs dst ++ [d])).

(** The transfer the walk submits for an entry of [d]. *)
Definition entry_job (e : file_info) : string * string := (fi_path e, (dst +:+ String sep d) +:+ "/" +:+ basename (fi_path e)).

(** What holds of the pool and the local files at every point of the
    download, whatever the workers ran: the pending transfers are those
    of entries of [d], every finished one succeeded and wrote its file,
    and every entry the walk has visited is pending or finished. *)
Record pool_inv (vis : list file_info) (pending : list (string * string)) (finished : list (string * option py_exn))
    (w : world St) : Prop := {
  pi_server : on_server s w;
  pi_dirs : Forall (no_file_at (w_fs w)) P;
  pi_nodir : forall e, e ∈ L -> w_fs w !! file_key dst d e <> Some LDir;
  pi_pending : forall j, j ∈ pending -> exists e, e ∈ L /\ j = entry_job e;
  pi_ok : forall p r, (p, r) ∈ finished -> r = None;
  pi_written : forall e, e ∈ L -> (fi_path e, None) ∈ finished ->
    w_fs w !! file_key dst d e = Some (LFile (file_content v netloc adir d e));
  pi_visited : forall e, e ∈ vis -> entry_job e ∈ pending \/ (fi_path e, None) ∈ finished
}.

Lemma file_key_not_prefix e : e ∈ L -> file_key dst d e ∉ P.
Proof.
  intros He. destruct (files_listing_keys repo s v Hinv Hview netloc adir d dst e Hfiles He)
    as (n & c & _ & _ & _ & -> & _).
  replace (segs dst ++ [d; n]) with ((segs dst ++ [d]) ++ [n]) by (by rewrite <- app_assoc).
  apply snoc_not_nonempty_prefix.
Qed.

(** A worker runs the transfer of an entry: it succeeds and writes the file. *)
Lemma run_entry_job e (w : world St) :
  e ∈ L -> on_server s w -> Forall (no_file_at (w_fs w)) P -> w_fs w !! file_key dst d e <> Some LDir ->
  exists w', run_job o (entry_job e) w = (inr None, w') /\ on_server s w' /\
    fs_step P (file_key dst d e) (file_content v netloc adir d e) (w_fs w) (w_fs w').
Proof.
  intros He Hw Hp Hnd. destruct (files_listing_keys repo s v Hinv Hview netloc adir d dst e Hfiles He)
    as (n & c & -> & Hn & Hc & Hk & Hct).
  destruct (file_entry_key v netloc adir d n Hn) as (Hpath & _ & Hb). rewrite Hk, Hct in *.
  destruct (download_entry o cl repo s v Hinv Hview Haf Hrepo netloc adir Hparse d n c dst w Hdir Hd Hn Hc Hw Hp Hnd)
    as (w' & E & Hw' & Hstep).
  exists w'. unfold run_job, entry_job, py_try. cbn [fst snd]. rewrite Hb, Hpath, py_run_bind, E. by split.
Qed.

(** One transfer taken from the pending ones keeps the invariant. *)
Lemma pool_step vis pending rest finished j (w : world St) :
  pending ≡ₚ j :: rest -> pool_inv vis pending finished w ->
  exists r w', run_job o j w = (inr r, w') /\ pool_inv vis rest (finished ++ [(j.1, r)]) w'.
Proof.
  intros Hperm [Hs Hp Hnd Hpend Hok Hwr Hvis].
  destruct (Hpend j) as (e & He & ->); [rewrite Hperm; left|].
  destruct (run_entry_job e w He Hs Hp (Hnd e He)) as (w' & E & Hs' & Hk & Hoff & Hp').
  pose proof (fun e' He' Heq => files_entry_inj repo s v Hinv Hview netloc adir d dst e' e Hfiles He' He Heq) as Hinj.
  exists None, w'. split; [done|]. split; [done|done| | | | |].
  - intros e' He'. destruct (decide (file_key dst d e' = file_key dst d e)) as [Heq|Hne].
    + by rewrite Heq, Hk.
    + rewrite Hoff by (done || by apply file_key_not_prefix). by apply Hnd.
  - intros j' Hj'. apply Hpend. rewrite Hperm. by right.
  - intros p r [Hin|Hin%list_elem_of_singleton]%elem_of_app; [by apply (Hok p)|by injection Hin].
  - intros e' He' [Hin|Hin%list_elem_of_singleton]%elem_of_app.
    + destruct (decide (file_key dst d e' = file_key dst d e)) as [Heq|Hne].
      * rewrite (Hinj e' He' (or_intror Heq)). done.
      * rewrite Hoff by (done || by apply file_key_not_prefix). by apply Hwr.
    + injection Hin as Heq. by rewrite (Hinj e' He' (or_introl Heq)).
  - intros e' He'. destruct (Hvis e' He') as [Hj|Hf]; [|right; apply elem_of_app; by left].
    rewrite Hperm in Hj. apply elem_of_cons in Hj as [Hj|Hj]; [|by left].
    right. apply elem_of_app. right. apply list_elem_of_singleton.
    unfold entry_job in Hj. injection Hj as Hj _. by rewrite Hj.
Qed.

Lemma run_all_inv vis pending finished (w : world St) :
  pool_inv vis pending finished w ->
  exists finished' w', run_all o pending finished w = (inr finished', w') /\ pool_inv vis [] finished' w'.
Proof.
  revert finished w. induction pending as [|j rest IH]; intros finished w Hi; [by exists finished, w|].
  destruct (pool_step vis (j :: rest) rest finished j w) as (r & w1 & E & Hi1); [done|done|].
  destruct (IH _ _ Hi1) as (f' & w' & E' & Hi'). exists f', w'. cbn [run_all]. by rewrite py_run_bind, E, E'.
Qed.

(** Wherever the workers run, after a submission or while the host
    waits, they keep the invariant. *)
Lemma run_ready_inv vis sched pending finished (w : world St) :
  pool_inv vis pending finished w ->
  exists pl w', run_ready o sched pending finished w = (inr pl, w') /\ pool_inv vis (pool_pending pl) (pool_done pl) w'.
Proof.
  revert pending finished w. induction sched as [|[i|] sched IH]; intros pending finished w Hi; cbn [run_ready].
  - destruct (run_all_inv vis pending finished w Hi) as (f' & w' & E & Hi'). eexists _, w'.
    rewrite py_run_bind, E. by split.
  - destruct (take_job i pending) as [[j rest]|] eqn:Ej; [|by eexists _, w].
    destruct (pool_step vis pending rest finished j w (take_job_perm _ _ _ _ Ej) Hi) as (r & w1 & E & Hi1).
    destruct (IH _ _ _ Hi1) as (pl & w' & E' & Hi'). exists pl, w'. by rewrite py_run_bind, E, E'.
  - by eexists _, w.
Qed.

Lemma drain_inv vis sched pending finished (w : world St) :
  pool_inv vis pending finished w ->
  exists finished' w', drain o sched pending finished w = (inr finished', w') /\ pool_inv vis [] finished' w'.
Proof.
  revert pending finished w. induction sched as [|c sched IH]; intros pending finished w Hi; cbn [drain].
  - by apply run_all_inv.
  - destruct (take_job (default 0 c) pending) as [[j rest]|] eqn:Ej; [|by apply IH].
    destruct (pool_step vis pending rest finished j w (take_job_perm _ _ _ _ Ej) Hi) as (r & w1 & E & Hi1).
    destruct (IH _ _ _ Hi1) as (f' & w' & E' & Hi'). exists f', w'. by rewrite py_run_bind, E, E'.
Qed.

(** The walk submits the transfer of an entry: the destination is made,
    the transfer joins the pending ones and the workers may run. *)
Lemma submit_inv vis pl e (w : world St) :
  str_truthy dst = true -> endswith_char dst sep = false -> e ∈ L ->
  pool_inv vis (pool_pending pl) (pool_done pl) w ->
  exists pl' w', (let* local := create_download_destination (fi_path e) dst in
                  run_ready o (pool_sched pl) (pool_pending pl ++ [(fi_path e, local)]) (pool_done pl)) w = (inr pl', w') /\
    pool_inv (vis ++ [e]) (pool_pending pl') (pool_done pl') w'.
Proof.
  intros Hdt Hde He [Hs Hp Hnd Hpend Hok Hwr Hvis].
  destruct (files_listing_keys repo s v Hinv Hview netloc adir d dst e Hfiles He) as (n & c & Hen & Hn & _).
  destruct (file_entry_key v netloc adir d n Hn) as (Hpath & _ & Hb). rewrite <- Hen in Hpath, Hb.
  destruct (create_dest_file d n dst w Hd Hn Hdt Hde Hp) as (w1 & E1 & Hs1 & Hoff1 & Hp1).
  assert (pool_inv (vis ++ [e]) (pool_pending pl ++ [entry_job e]) (pool_done pl) w1) as Hi1.
  { split; [unfold on_server in *; congruence|done| | |done| |].
    - intros e' He'. rewrite Hoff1 by (by apply file_key_not_prefix). by apply Hnd.
    - intros j [Hj|Hj%list_elem_of_singleton]%elem_of_app; [by apply Hpend|subst j; by exists e].
    - intros e' He' Hin. rewrite Hoff1 by (by apply file_key_not_prefix). by apply Hwr.
    - intros e' [He'|He'%list_elem_of_singleton]%elem_of_app; [|subst e'].
      + destruct (Hvis e' He') as [Hj|Hf]; [left; apply elem_of_app; by left|by right].
      + left. apply elem_of_app. right. by apply list_elem_of_singleton. }
  destruct (run_ready_inv _ (pool_sched pl) _ _ w1 Hi1) as (pl' & w' & E & Hi').
  exists pl', w'. rewrite py_run_bind, Hpath, E1. unfold entry_job in E. by rewrite Hb, Hpath in E.
Qed.

(** C17: Whatever order the thread pool runs the transfers in, relative to the walk and to each
    other, MLflow's download_artifacts(d, dst) of a top-level folder d whose children are all files
    returns dst/d and writes every file of d to dst/d/<name> with its bytes; the server is
    unchanged. *)
Theorem download_artifacts_pool_folder_of_files fuel sched (w : world St) :
  0 < fuel -> is_folder v (listed_dir netloc adir d) = true ->
  on_server s w -> path_exists (w_fs w) dst = true -> path_isdir (w_fs w) dst = true ->
  endswith_char dst sep = false -> Forall (no_file_at (w_fs w)) P ->
  (forall n c, v !! (listed_dir netloc adir d ++ [n]) = Some c -> w_fs w !! (segs dst ++ [d; n]) <> Some LDir) ->
  exists w', download_artifacts_pool o fuel sched d dst w = (inr (posix_join dst [d]), w') /\ on_server s w' /\
    forall n c, v !! (listed_dir netloc adir d ++ [n]) = Some c -> w_fs w' !! (segs dst ++ [d; n]) = Some (LFile c).
Proof.
  intros Hfuel Hf Hw Hex Hisdir Hde Hpre Hnd.
  assert (str_truthy dst = true) as Hdt by (unfold path_exists in Hex; by apply andb_prop in Hex as [? _]).
  unfold download_artifacts_pool. cbv zeta. rewrite py_run_bind. cbn [py_get]. rewrite Hex, Hisdir. cbn [negb].
  rewrite py_run_bind.
  destruct (list_folder_stable o cl repo s v Hinv Hview Haf Hrepo netloc adir Hparse d w Hf Hw) as (w1 & -> & Hw1 & Hfs1).
  destruct fuel as [|fuel]; [lia|]. cbn [iter_artifacts_recursive].
  pose proof (files_listing_filter repo s v Hinv Hview netloc adir d Hd Hfiles) as Hfilt.
  pose proof (files_listing_nonempty v netloc adir d Hdir Hd Hf Hfiles) as HLne.
  destruct L as [|x l] eqn:EL; [done|]. cbn [length Nat.ltb Nat.leb]. rewrite !py_run_bind.
  destruct (list_folder_stable o cl repo s v Hinv Hview Haf Hrepo netloc adir Hparse d w1 Hf Hw1) as (w2 & -> & Hw2 & Hfs2).
  cbv beta zeta. rewrite EL, Hfilt. cbv iota.
  match goal with |- context [py_fold ?bd (x :: l) ?a0 w2] =>
    destruct (py_fold_ok (fun vis pl w => pool_inv vis (pool_pending pl) (pool_done pl) w) bd (x :: l))
      with (vis := @nil file_info) (acc := a0) (s := w2) as (pl & w3 & E3 & Hi3) end.
  - intros vis e pl w' He Hi. rewrite <- EL in He.
    destruct (files_listing_keys repo s v Hinv Hview netloc adir d dst e Hfiles He) as (n & c & Hen & Hn & _).
    destruct (file_entry_key v netloc adir d n Hn) as (_ & Hdir' & _). rewrite <- Hen in Hdir'.
    rewrite Hdir'. by apply submit_inv.
  - split; [done|by rewrite Hfs2, Hfs1| |by intros ? ?%not_elem_of_nil|by intros ? ? ?%not_elem_of_nil
           |by intros ? _ ?%not_elem_of_nil|by intros ? ?%not_elem_of_nil].
    intros e He. try rewrite <- EL in He.
    destruct (files_listing_keys repo s v Hinv Hview netloc adir d dst e Hfiles He) as (n & c & _ & _ & Hc & -> & _).
    rewrite Hfs2, Hfs1. by apply (Hnd n c).
  - rewrite E3. destruct (drain_inv _ (pool_sched pl) (pool_pending pl) (pool_done pl) w3 Hi3) as (f & w4 & E4 & Hi4).
    rewrite py_run_bind, E4, (failures_none f (pi_ok _ _ _ _ Hi4)). exists w4. split; [done|]. split; [apply Hi4|].
    intros n c Hc. destruct (files_listing_file repo s v Hinv Hview netloc adir d dst n c Hfiles Hc) as (e & He & Hk & Hct).
    rewrite <- Hk, <- Hct. apply (pi_written _ _ _ _ Hi4 e He).
    rewrite EL in He. destruct (pi_visited _ _ _ _ Hi4 e He) as [[]%not_elem_of_nil|Hdone]; done.
Qed.

End PoolWalk.

End ThreadPool.

Module ThreadPoolExamples.
Import MemServer Lister Download DownloadExamples ThreadPool.

(** The workers wait until the host waits, then run the second
    transfer first. *)
Definition reversed : list (option nat) := [None; None; Some 1].

(** A destination where both files of [data] are already directories. *)
Definition wblocked : world server :=
  {| w_server := flat;
     w_fs := list_to_map [(["dst"], LDir); (["dst"; "data"], LDir);
                          (["dst"; "data"; "x.csv"], LDir); (["dst"; "data"; "y.csv"], LDir)];
     w_env := ∅; w_stdout := []; w_calls := [] |}.

(** The paths in the failure message of download_artifacts come in the order the transfers
    complete: with both files of data blocked by local directories, the eager pool reports
    data/x.csv,data/y.csv and a pool that runs the second transfer first reports
    data/y.csv,data/x.csv. *)
Example download_failures_completion_order :
  fst (download_artifacts_pool obj 1000 [] "data" "/dst" wblocked) =
    inl (MlflowException "The following failures occurred while downloading one or more artifacts from artifactory://host/exp: data/x.csv,data/y.csv") /\
  fst (download_artifacts_pool obj 1000 reversed "data" "/dst" wblocked) =
    inl (MlflowException "The following failures occurred while downloading one or more artifacts from artifactory://host/exp: data/y.csv,data/x.csv").
Proof. split; vm_compute; reflexivity. Qed.

Lemma download_artifacts_pool_folder_of_files_witness :
  exists w', download_artifacts_pool obj 1000 reversed "data" "/dst" (wd flat) = (inr (posix_join "/dst" ["data"]), w') /\
    on_server flat w' /\
    forall n c, v_of flat !! (listed_dir "host" "exp" "data" ++ [n]) = Some c ->
      w_fs w' !! (segs "/dst" ++ ["data"; n]) = Some (LFile c).
Proof.
  refine (@download_artifacts_pool_folder_of_files _ _ mem_model obj client "repo" flat (v_of flat) flat_inv
    eq_refl eq_refl eq_refl "host" "exp" eq_refl "data" "/dst" _ _ _ 1000 reversed (wd flat) _ _ eq_refl _ _ _ _ _).
  - split; reflexivity.
  - reflexivity.
  - intros n b Hn.
    assert (Forall (fun nb => nb.2 = false) (folder_children (v_of flat) (listed_dir "host" "exp" "data"))) as HF
      by (apply (bool_decide_unpack _); vm_compute; reflexivity).
    rewrite Forall_forall in HF. exact (HF (n, b) Hn).
  - lia.
  - vm_compute. reflexivity.
  - vm_compute. reflexivity.
  - vm_compute. reflexivity.
  - reflexivity.
  - replace (nonempty_prefixes (segs "/dst" ++ ["data"])) with [["dst"]; ["dst"; "data"]]
      by (vm_compute; reflexivity).
    repeat constructor; intros c; vm_compute; congruence.
  - intros n c _. replace (segs "/dst") with ["dst"] by (vm_compute; reflexivity).
    cbn [w_fs wd]. rewrite lookup_insert_ne by done. by rewrite lookup_empty.
Defined.

End ThreadPoolExamples.
